(** * LEARN_GO_API: the name-record CRUD service of [main.go]

    A shallow embedding of the HTTP handlers of [main.go] together with the
    library calls they rely on (Go's [strings], [encoding/json], the
    [net/http] multiplexer, and the MongoDB driver's [primitive.ObjectID] and
    collection operations), followed by the properties of the service.

    Go strings are byte strings: they are embedded as [string], one [ascii]
    per byte.  A request is its method, its path and its body; a response is
    what the handler has done to its [ResponseWriter], the body being kept as
    the JSON value handed to the encoder.  The store is the list of its
    documents together with the calls made on it, and what the driver
    decides on its own (generated identifiers, failures) is an argument of
    every handler.  Deadlines and the interleaving of requests are outside
    the embedding: a store call that runs out of time is one that fails. *)

From Stdlib Require Import DecimalString.
From Stdlib Require Import String Ascii List Bool Arith NArith Lia Permutation.
Import ListNotations.

Local Open Scope list_scope.
Local Open Scope string_scope.

(* ================================================================== *)
(** ** Go's [strings] package, as far as [main.go] uses it *)

Module Strings.

Definition byte_of (c : ascii) : N := N_of_ascii c.

(** [strings.HasPrefix] *)
Fixpoint HasPrefix (s prefix : string) : bool :=
  match prefix, s with
  | EmptyString, _ => true
  | String p prefix', String c s' => Ascii.eqb p c && HasPrefix s' prefix'
  | String _ _, EmptyString => false
  end.

Fixpoint drop (n : nat) (s : string) : string :=
  match n, s with
  | O, _ => s
  | S n', String _ s' => drop n' s'
  | S _, EmptyString => EmptyString
  end.

Fixpoint take (n : nat) (s : string) : string :=
  match n, s with
  | O, _ => EmptyString
  | S n', String c s' => String c (take n' s')
  | S _, EmptyString => EmptyString
  end.

(** [strings.TrimPrefix] *)
Definition TrimPrefix (s prefix : string) : string :=
  if HasPrefix s prefix then drop (String.length prefix) s else s.

(** [strings.Trim s cutset] for a one-byte cutset. *)
Fixpoint TrimLeft1 (s : string) (cut : ascii) : string :=
  match s with
  | String c s' => if Ascii.eqb c cut then TrimLeft1 s' cut else s
  | EmptyString => EmptyString
  end.

Fixpoint TrimRight1 (s : string) (cut : ascii) : string :=
  match s with
  | EmptyString => EmptyString
  | String c s' =>
      match TrimRight1 s' cut with
      | EmptyString => if Ascii.eqb c cut then EmptyString else String c EmptyString
      | r => String c r
      end
  end.

Definition Trim1 (s : string) (cut : ascii) : string :=
  TrimRight1 (TrimLeft1 s cut) cut.

(** [strings.Split s sep] for a one-byte separator: the pieces between the
    separators, so that the empty string yields one empty piece. *)
Fixpoint Split1 (s : string) (sep : ascii) : list string :=
  match s with
  | EmptyString => [EmptyString]
  | String c s' =>
      if Ascii.eqb c sep then EmptyString :: Split1 s' sep
      else match Split1 s' sep with
           | h :: t => String c h :: t
           | [] => [String c EmptyString]
           end
  end.

(** [strings.Join] *)
Fixpoint Join (l : list string) (sep : string) : string :=
  match l with
  | [] => EmptyString
  | [x] => x
  | x :: t => x ++ sep ++ Join t sep
  end.

(** [unicode.IsSpace] on UTF-8 text.  [space_prefix s] is the number of
    bytes of the white-space rune that [s] starts with, and [0] when [s]
    does not start with one.  The white-space runes are U+0009..U+000D,
    U+0020, U+0085, U+00A0, U+1680, U+2000..U+200A, U+2028, U+2029, U+202F,
    U+205F and U+3000. *)
Definition space_prefix (s : string) : nat :=
  match s with
  | EmptyString => 0
  | String c0 s1 =>
      let b0 := byte_of c0 in
      if ((9 <=? b0) && (b0 <=? 13) || (b0 =? 32))%N then 1
      else match s1 with
           | EmptyString => 0
           | String c1 s2 =>
               let b1 := byte_of c1 in
               if ((b0 =? 194) && ((b1 =? 133) || (b1 =? 160)))%N then 2
               else match s2 with
                    | EmptyString => 0
                    | String c2 _ =>
                        let b2 := byte_of c2 in
                        if ((b0 =? 225) && (b1 =? 154) && (b2 =? 128))%N then 3
                        else if ((b0 =? 226) && (b1 =? 128)
                                 && ((128 <=? b2) && (b2 <=? 138)
                                     || (b2 =? 168) || (b2 =? 169) || (b2 =? 175)))%N then 3
                        else if ((b0 =? 226) && (b1 =? 129) && (b2 =? 159))%N then 3
                        else if ((b0 =? 227) && (b1 =? 128) && (b2 =? 128))%N then 3
                        else 0
                    end
           end
  end.

(** Leading white space is removed rune by rune; [fuel] bounds the number
    of runes and is the length of the string at the call. *)
Fixpoint trim_space_left (fuel : nat) (s : string) : string :=
  match fuel with
  | O => s
  | S fuel' =>
      match space_prefix s with
      | O => s
      | n => trim_space_left fuel' (drop n s)
      end
  end.

Fixpoint rev (s : string) : string :=
  match s with
  | EmptyString => EmptyString
  | String c s' => rev s' ++ String c EmptyString
  end.

(** The same test on the reversed text: the bytes of the last rune come
    first, in reverse order. *)
Definition space_suffix_rev (r : string) : nat :=
  match r with
  | EmptyString => 0
  | String c0 r1 =>
      let b0 := byte_of c0 in
      if ((9 <=? b0) && (b0 <=? 13) || (b0 =? 32))%N then 1
      else match r1 with
           | EmptyString => 0
           | String c1 r2 =>
               if Nat.eqb (space_prefix (String c1 (String c0 EmptyString))) 2 then 2
               else match r2 with
                    | EmptyString => 0
                    | String c2 _ =>
                        if Nat.eqb (space_prefix
                                      (String c2 (String c1 (String c0 EmptyString)))) 3
                        then 3 else 0
                    end
           end
  end.

Fixpoint trim_space_right_rev (fuel : nat) (r : string) : string :=
  match fuel with
  | O => r
  | S fuel' =>
      match space_suffix_rev r with
      | O => r
      | n => trim_space_right_rev fuel' (drop n r)
      end
  end.

(** [strings.TrimSpace] *)
Definition TrimSpace (s : string) : string :=
  let l := trim_space_left (String.length s) s in
  rev (trim_space_right_rev (String.length l) (rev l)).

End Strings.

(* ================================================================== *)
(** ** [primitive.ObjectID] of the MongoDB driver *)

Module Primitive.

(** An [ObjectID] is Go's [[12]byte]. *)
Inductive ObjectID : Type := OID (bytes : string).

Definition oid_bytes (o : ObjectID) : string := let (b) := o in b.

Definition ObjectID_eqb (a b : ObjectID) : bool :=
  String.eqb (oid_bytes a) (oid_bytes b).

Definition nul : ascii := ascii_of_N 0.

Definition NilObjectID : ObjectID :=
  OID (String nul (String nul (String nul (String nul (String nul (String nul
      (String nul (String nul (String nul (String nul (String nul (String nul
       EmptyString)))))))))))).

(** [hex.fromHexChar] *)
Definition fromHexChar (c : ascii) : option N :=
  let b := N_of_ascii c in
  if ((48 <=? b) && (b <=? 57))%N then Some (b - 48)%N
  else if ((97 <=? b) && (b <=? 102))%N then Some (b - 97 + 10)%N
  else if ((65 <=? b) && (b <=? 70))%N then Some (b - 65 + 10)%N
  else None.

(** [hex.Decode]: two digits per byte; an odd length or a byte that is no
    hexadecimal digit is an error. *)
Fixpoint hexDecode (s : string) : option string :=
  match s with
  | EmptyString => Some EmptyString
  | String _ EmptyString => None
  | String a (String b s') =>
      match fromHexChar a, fromHexChar b, hexDecode s' with
      | Some x, Some y, Some r => Some (String (ascii_of_N (x * 16 + y)) r)
      | _, _, _ => None
      end
  end.

(** [primitive.ObjectIDFromHex]: [None] stands for the error result. *)
Definition ObjectIDFromHex (s : string) : option ObjectID :=
  if negb (Nat.eqb (String.length s) 24) then None
  else match hexDecode s with
       | Some b => Some (OID b)
       | None => None
       end.

Definition hexDigit (n : N) : ascii :=
  if (n <? 10)%N then ascii_of_N (48 + n) else ascii_of_N (97 + n - 10).

Fixpoint hexEncode (s : string) : string :=
  match s with
  | EmptyString => EmptyString
  | String c s' =>
      let b := N_of_ascii c in
      String (hexDigit (b / 16)) (String (hexDigit (b mod 16)) (hexEncode s'))
  end.

(** [ObjectID.Hex] *)
Definition Hex (o : ObjectID) : string := hexEncode (oid_bytes o).

End Primitive.

(* ================================================================== *)
(** ** [extractID] *)

Inductive result (E A : Type) : Type :=
| Ok (a : A)
| Err (e : E).
Arguments Ok {E A} a.
Arguments Err {E A} e.

Definition extractID (path prefix : string) : result string string :=
  if negb (Strings.HasPrefix path prefix) then Err "bad path"
  else
    let rest := Strings.TrimPrefix path prefix in
    let parts := Strings.Split1 (Strings.Trim1 rest "/") "/" in
    match parts with
    | [] => Err "no id"
    | p0 :: _ => if String.eqb p0 "" then Err "no id" else Ok p0
    end.

(* ================================================================== *)
(** ** Go's [encoding/json]: reading one value from a request body

    [json.NewDecoder(r.Body).Decode(&payload)] reads the first JSON value of
    the body, checks its syntax, and stores it into [payload].  The bytes
    after that value are not looked at. *)

Module Json.

#[warnings="-register-all"]
Inductive value : Type :=
| Null
| Bool (b : bool)
| Number (literal : string)
| Str (s : string)
| Array (elems : list value)
| Object (members : list (string * value)).

(** The errors [Decode] returns: [io.EOF] for a body without any value,
    [io.ErrUnexpectedEOF] for a body that ends inside a value, a
    [*json.SyntaxError] with its message, a [*json.UnmarshalTypeError] for
    a JSON value that does not fit the Go type (the kind of the value, the
    Go type, and the struct and field if it is a field that does not fit),
    and the error of a type's own [UnmarshalJSON].  [OutOfFuel] is the
    model's own and never reaches a caller of [read_value] (lemma
    [read_value_fuel]). *)
Inductive error : Type :=
| EOF
| ErrUnexpectedEOF
| SyntaxError (msg : string)
| UnmarshalTypeError (Value : string) (Type_ : string) (Struct : string) (Field : string)
| UnmarshalerError (msg : string)
| OutOfFuel.

Definition res (A : Type) : Type := result error A.

Definition bind {A B} (m : res A) (k : A -> res B) : res B :=
  match m with
  | Ok a => k a
  | Err e => Err e
  end.

Notation "x <- m ;; k" := (bind m (fun x => k))
  (at level 61, m at next level, right associativity).
Notation "' p <- m ;; k" := (bind m (fun x => let 'p := x in k))
  (at level 61, p pattern, m at next level, right associativity).

(** The quotation mark. *)
Definition quote : ascii := ascii_of_N 34.

Definition isSpace (c : ascii) : bool :=
  let b := N_of_ascii c in
  ((b =? 32) || (b =? 9) || (b =? 13) || (b =? 10))%N.

Fixpoint skip_ws (s : string) : string :=
  match s with
  | String c s' => if isSpace c then skip_ws s' else s
  | EmptyString => EmptyString
  end.

Definition isDigit (c : ascii) : bool :=
  let b := N_of_ascii c in ((48 <=? b) && (b <=? 57))%N.

(** *** Strings *)

Definition utf8_2 (a b : N) : string :=
  String (ascii_of_N a) (String (ascii_of_N b) EmptyString).
Definition utf8_3 (a b c : N) : string :=
  String (ascii_of_N a) (utf8_2 b c).
Definition utf8_4 (a b c d : N) : string :=
  String (ascii_of_N a) (utf8_3 b c d).

(** U+FFFD, [unicode.ReplacementChar] *)
Definition replacement : string := utf8_3 239 191 189.

(** [utf8.EncodeRune] *)
Definition EncodeRune (r : N) : string :=
  (if r <? 128 then String (ascii_of_N r) EmptyString
   else if r <? 2048 then utf8_2 (192 + r / 64) (128 + r mod 64)
   else if (55296 <=? r) && (r <? 57344) then replacement
   else if r <? 65536 then
     utf8_3 (224 + r / 4096) (128 + (r / 64) mod 64) (128 + r mod 64)
   else if r <=? 1114111 then
     utf8_4 (240 + r / 262144) (128 + (r / 4096) mod 64)
            (128 + (r / 64) mod 64) (128 + r mod 64)
   else replacement)%N.

(** [getu4]: the four hexadecimal digits of a [\u] escape. *)
Definition getu4 (h1 h2 h3 h4 : ascii) : option N :=
  match Primitive.fromHexChar h1, Primitive.fromHexChar h2,
        Primitive.fromHexChar h3, Primitive.fromHexChar h4 with
  | Some a, Some b, Some c, Some d => Some (((a * 16 + b) * 16 + c) * 16 + d)%N
  | _, _, _, _ => None
  end.

Definition lowerhex (n : N) : ascii :=
  (if n <? 10 then ascii_of_N (48 + n) else ascii_of_N (97 + n - 10))%N.

(** [strconv.IsPrint] on a rune below 256. *)
Definition IsPrint (b : N) : bool :=
  ((32 <=? b) && (b <=? 126) || (161 <=? b) && (b <=? 255) && negb (b =? 173))%N.

(** [quoteChar] of the scanner: the byte [c], taken as a rune, between
    apostrophes as [strconv.Quote] writes it. *)
Definition quoteChar (c : ascii) : string :=
  let b := N_of_ascii c in
  let q (t : string) := String "'" (t ++ "'") in
  if Ascii.eqb c "'" then q "\'"
  else if Ascii.eqb c quote then q (String quote EmptyString)
  else if Ascii.eqb c "\" then q "\\"
  else if IsPrint b then q (EncodeRune b)
  else if (b =? 7)%N then q "\a"
  else if (b =? 8)%N then q "\b"
  else if (b =? 12)%N then q "\f"
  else if (b =? 10)%N then q "\n"
  else if (b =? 13)%N then q "\r"
  else if (b =? 9)%N then q "\t"
  else if (b =? 11)%N then q "\v"
  else if ((b <? 32) || (b =? 127))%N then
    q (String "\" (String "x" (String (lowerhex (b / 16))
         (String (lowerhex (b mod 16)) EmptyString))))
  else
    q (String "\" (String "u" (String "0" (String "0" (String (lowerhex (b / 16))
         (String (lowerhex (b mod 16)) EmptyString)))))).

(** [s.error(c, context)] of the scanner. *)
Definition invalid (c : ascii) (context : string) : error :=
  SyntaxError ("invalid character " ++ quoteChar c ++ " " ++ context).

Definition isSurrogate (r : N) : bool := ((55296 <=? r) && (r <? 57344))%N.

(** [utf16.DecodeRune]: a high surrogate followed by a low one. *)
Definition decodeSurrogates (r1 r2 : N) : option N :=
  if ((55296 <=? r1) && (r1 <? 56320) && (56320 <=? r2) && (r2 <? 57344))%N
  then Some ((r1 - 55296) * 1024 + (r2 - 56320) + 65536)%N
  else None.

Fixpoint all_hex (s : string) : bool :=
  match s with
  | EmptyString => true
  | String c s' =>
      match Primitive.fromHexChar c with
      | Some _ => all_hex s'
      | None => false
      end
  end.

Fixpoint first_non_hex (s : string) : option ascii :=
  match s with
  | EmptyString => None
  | String c s' =>
      match Primitive.fromHexChar c with
      | Some _ => first_non_hex s'
      | None => Some c
      end
  end.

(** The error for the first byte of [s] that is not a hexadecimal digit. *)
Definition bad_hex (s : string) : error :=
  match first_non_hex s with
  | Some c => invalid c "in \u hexadecimal character escape"
  | None => ErrUnexpectedEOF
  end.

Definition isEscape (e : ascii) : bool :=
  Ascii.eqb e quote || Ascii.eqb e "\" || Ascii.eqb e "/" || Ascii.eqb e "b"
  || Ascii.eqb e "f" || Ascii.eqb e "n" || Ascii.eqb e "r" || Ascii.eqb e "t".

(** The scanner on a string literal, after its opening quote: the bytes up
    to the closing quote and what follows it.  A control byte is an error,
    and so is a backslash that does not start an escape. *)
Fixpoint scan_literal (s : string) : res (string * string) :=
  match s with
  | EmptyString => Err ErrUnexpectedEOF
  | String c s1 =>
      if Ascii.eqb c quote then Ok (EmptyString, s1)
      else if (N_of_ascii c <? 32)%N then Err (invalid c "in string literal")
      else if Ascii.eqb c "\" then
        match s1 with
        | EmptyString => Err ErrUnexpectedEOF
        | String e s2 =>
            if isEscape e then
              '(t, rest) <- scan_literal s2 ;;
              Ok (String c (String e t), rest)
            else if Ascii.eqb e "u" then
              match s2 with
              | String h1 (String h2 (String h3 (String h4 s6))) =>
                  match getu4 h1 h2 h3 h4 with
                  | None => Err (bad_hex s2)
                  | Some _ =>
                      '(t, rest) <- scan_literal s6 ;;
                      Ok (String c (String e (String h1 (String h2
                            (String h3 (String h4 t))))), rest)
                  end
              | _ => if all_hex s2 then Err ErrUnexpectedEOF else Err (bad_hex s2)
              end
            else Err (invalid e "in string escape code")
        end
      else
        '(t, rest) <- scan_literal s1 ;;
        Ok (String c t, rest)
  end.

(** The byte an escape other than [\u] stands for. *)
Definition unescape (e : ascii) : ascii :=
  if Ascii.eqb e "b" then ascii_of_N 8
  else if Ascii.eqb e "f" then ascii_of_N 12
  else if Ascii.eqb e "n" then ascii_of_N 10
  else if Ascii.eqb e "r" then ascii_of_N 13
  else if Ascii.eqb e "t" then ascii_of_N 9
  else e.

(** [unquote] on the bytes of a literal the scanner has accepted: escapes
    are replaced by what they stand for.  A [\u] escape of a high
    surrogate takes a following [\u] escape of a low surrogate with it;
    any other surrogate becomes U+FFFD.  The branches marked
    [unreachable] are for bytes the scanner does not let through. *)
Fixpoint unquote (s : string) : string :=
  match s with
  | EmptyString => EmptyString
  | String c s1 =>
      if Ascii.eqb c "\" then
        match s1 with
        | EmptyString => EmptyString                       (* unreachable *)
        | String e s2 =>
            if Ascii.eqb e "u" then
              match s2 with
              | String h1 (String h2 (String h3 (String h4 s6))) =>
                  match getu4 h1 h2 h3 h4 with
                  | None => unquote s2                     (* unreachable *)
                  | Some r =>
                      if isSurrogate r then
                        match s6 with
                        | String b (String u (String g1 (String g2
                            (String g3 (String g4 s12))))) =>
                            if Ascii.eqb b "\" && Ascii.eqb u "u" then
                              match getu4 g1 g2 g3 g4 with
                              | Some r2 =>
                                  match decodeSurrogates r r2 with
                                  | Some full => EncodeRune full ++ unquote s12
                                  | None => replacement ++ unquote s6
                                  end
                              | None => replacement ++ unquote s6
                              end
                            else replacement ++ unquote s6
                        | _ => replacement ++ unquote s6
                        end
                      else EncodeRune r ++ unquote s6
                  end
              | _ => EmptyString                           (* unreachable *)
              end
            else String (unescape e) (unquote s2)
        end
      else String c (unquote s1)
  end.

(** [utf8.DecodeRune] on the bytes [b0 b1 b2 b3]: is this a well-formed
    encoding of two, three or four bytes? *)
Definition isCont (b : N) : bool := ((128 <=? b) && (b <=? 191))%N.

Definition valid2 (b0 b1 : N) : bool :=
  ((194 <=? b0) && (b0 <=? 223))%N && isCont b1.

Definition valid3 (b0 b1 b2 : N) : bool :=
  (((b0 =? 224) && (160 <=? b1) && (b1 <=? 191))
   || ((225 <=? b0) && (b0 <=? 236) && isCont b1)
   || ((b0 =? 237) && (128 <=? b1) && (b1 <=? 159))
   || ((238 <=? b0) && (b0 <=? 239) && isCont b1))%N && isCont b2.

Definition valid4 (b0 b1 b2 b3 : N) : bool :=
  (((b0 =? 240) && (144 <=? b1) && (b1 <=? 191))
   || ((241 <=? b0) && (b0 <=? 243) && isCont b1)
   || ((b0 =? 244) && (128 <=? b1) && (b1 <=? 143)))%N
  && isCont b2 && isCont b3.

(** Unquoting replaces every byte that does not start a well-formed UTF-8
    sequence by U+FFFD. *)
Fixpoint coerce_utf8 (s : string) : string :=
  match s with
  | EmptyString => EmptyString
  | String c0 s1 =>
      let b0 := N_of_ascii c0 in
      if (b0 <? 128)%N then String c0 (coerce_utf8 s1)
      else
        let bad := replacement ++ coerce_utf8 s1 in
        match s1 with
        | EmptyString => bad
        | String c1 s2 =>
            let b1 := N_of_ascii c1 in
            if valid2 b0 b1 then String c0 (String c1 (coerce_utf8 s2))
            else match s2 with
                 | EmptyString => bad
                 | String c2 s3 =>
                     let b2 := N_of_ascii c2 in
                     if valid3 b0 b1 b2
                     then String c0 (String c1 (String c2 (coerce_utf8 s3)))
                     else match s3 with
                          | EmptyString => bad
                          | String c3 s4 =>
                              if valid4 b0 b1 b2 (N_of_ascii c3)
                              then String c0 (String c1 (String c2
                                     (String c3 (coerce_utf8 s4))))
                              else bad
                          end
                 end
        end
  end.

(** A string literal, after its opening quote: the Go string it denotes
    and what follows it. *)
Definition parse_string (s : string) : res (string * string) :=
  '(t, rest) <- scan_literal s ;;
  Ok (coerce_utf8 (unquote t), rest).

(** *** Numbers and literals *)

Fixpoint skip_digits (s : string) : string :=
  match s with
  | String c s' => if isDigit c then skip_digits s' else s
  | EmptyString => EmptyString
  end.

(** One or more digits; [context] is where in the number they stand. *)
Definition digits1 (context : string) (s : string) : res string :=
  match s with
  | String c s' => if isDigit c then Ok (skip_digits s') else Err (invalid c context)
  | EmptyString => Err ErrUnexpectedEOF
  end.

(** The optional exponent of a number. *)
Definition scan_exp (s : string) : res string :=
  match s with
  | String c s' =>
      if Ascii.eqb c "e" || Ascii.eqb c "E" then
        match s' with
        | String g s'' =>
            if Ascii.eqb g "+" || Ascii.eqb g "-"
            then digits1 "in exponent of numeric literal" s''
            else digits1 "in exponent of numeric literal" s'
        | EmptyString => Err ErrUnexpectedEOF
        end
      else Ok s
  | EmptyString => Ok s
  end.

(** The optional fraction of a number, and then the exponent. *)
Definition scan_frac (s : string) : res string :=
  match s with
  | String c s' =>
      if Ascii.eqb c "."
      then r <- digits1 "after decimal point in numeric literal" s' ;; scan_exp r
      else scan_exp s
  | EmptyString => Ok s
  end.

(** The integer part after an optional sign, and then the rest. *)
Definition scan_int (s : string) : res string :=
  match s with
  | String c s' =>
      if Ascii.eqb c "0" then scan_frac s'
      else if isDigit c then scan_frac (skip_digits s')
      else Err (invalid c "in numeric literal")
  | EmptyString => Err ErrUnexpectedEOF
  end.

(** A number: what is left of the input after it. *)
Definition scan_number (s : string) : res string :=
  match s with
  | String c s' => if Ascii.eqb c "-" then scan_int s' else scan_int s
  | EmptyString => Err ErrUnexpectedEOF
  end.

(** The rest [word] of the literal [lit], of which the first byte has
    been seen. *)
Fixpoint scan_word (lit word s : string) : res string :=
  match word with
  | EmptyString => Ok s
  | String w word' =>
      match s with
      | String c s' =>
          if Ascii.eqb c w then scan_word lit word' s'
          else Err (invalid c ("in literal " ++ lit ++ " (expecting '"
                               ++ String w "')"))
      | EmptyString => Err ErrUnexpectedEOF
      end
  end.

(** *** Values

    [fuel] bounds the recursion.  Two calls in a row consume at least one
    byte, so twice the length of the input plus two is enough
    ([parse_fuel]).  [depth] counts the brackets that are open: the
    scanner refuses more than [maxNestingDepth] of them.
    [parse_members] and [parse_elements] read what follows the opening
    bracket, [first] telling whether the closing bracket may come at once.
    A member is kept with the bytes of its value, which a type's own
    [UnmarshalJSON] receives. *)

Definition maxNestingDepth : N := 10000.

Definition fuel_for (s : string) : nat := 2 * String.length s + 2.

Definition member : Type := (string * string * value)%type.

Definition strip (m : member) : string * value :=
  let '(k, _, v) := m in (k, v).

Definition span (s rest : string) : string :=
  Strings.take (String.length s - String.length rest) s.

Fixpoint parse_value (fuel : nat) (depth : N) (s : string) : res (value * string) :=
  match fuel with
  | O => Err OutOfFuel
  | S f =>
      match skip_ws s with
      | EmptyString => Err ErrUnexpectedEOF
      | String c r as s0 =>
          if Ascii.eqb c "{" then
            if (depth <? maxNestingDepth)%N then
              '(ms, rest) <- parse_members f (depth + 1) true r ;;
              Ok (Object (map strip ms), rest)
            else Err (invalid c "exceeded max depth")
          else if Ascii.eqb c "[" then
            if (depth <? maxNestingDepth)%N then
              '(vs, rest) <- parse_elements f (depth + 1) true r ;;
              Ok (Array vs, rest)
            else Err (invalid c "exceeded max depth")
          else if Ascii.eqb c quote then
            '(t, rest) <- parse_string r ;;
            Ok (Str t, rest)
          else if Ascii.eqb c "-" || isDigit c then
            rest <- scan_number s0 ;;
            Ok (Number (span s0 rest), rest)
          else if Ascii.eqb c "t" then
            rest <- scan_word "true" "rue" r ;; Ok (Bool true, rest)
          else if Ascii.eqb c "f" then
            rest <- scan_word "false" "alse" r ;; Ok (Bool false, rest)
          else if Ascii.eqb c "n" then
            rest <- scan_word "null" "ull" r ;; Ok (Null, rest)
          else Err (invalid c "looking for beginning of value")
      end
  end

with parse_members (fuel : nat) (depth : N) (first : bool) (s : string)
  : res (list member * string) :=
  match fuel with
  | O => Err OutOfFuel
  | S f =>
      match skip_ws s with
      | EmptyString => Err ErrUnexpectedEOF
      | String c r =>
          if first && Ascii.eqb c "}" then Ok ([], r)
          else if Ascii.eqb c quote then
            '(k, r1) <- parse_string r ;;
            match skip_ws r1 with
            | EmptyString => Err ErrUnexpectedEOF
            | String c1 r2 =>
                if Ascii.eqb c1 ":" then
                  let r3 := skip_ws r2 in
                  '(v, r4) <- parse_value f depth r3 ;;
                  match skip_ws r4 with
                  | EmptyString => Err ErrUnexpectedEOF
                  | String c2 r5 =>
                      if Ascii.eqb c2 "," then
                        '(ms, rest) <- parse_members f depth false r5 ;;
                        Ok ((k, span r3 r4, v) :: ms, rest)
                      else if Ascii.eqb c2 "}" then
                        Ok ([(k, span r3 r4, v)], r5)
                      else Err (invalid c2 "after object key:value pair")
                  end
                else Err (invalid c1 "after object key")
            end
          else Err (invalid c "looking for beginning of object key string")
      end
  end

with parse_elements (fuel : nat) (depth : N) (first : bool) (s : string)
  : res (list value * string) :=
  match fuel with
  | O => Err OutOfFuel
  | S f =>
      match skip_ws s with
      | EmptyString => Err ErrUnexpectedEOF
      | String c r as s0 =>
          if first && Ascii.eqb c "]" then Ok ([], r)
          else
            '(v, r1) <- parse_value f depth s0 ;;
            match skip_ws r1 with
            | EmptyString => Err ErrUnexpectedEOF
            | String c1 r2 =>
                if Ascii.eqb c1 "," then
                  '(vs, rest) <- parse_elements f depth false r2 ;;
                  Ok (v :: vs, rest)
                else if Ascii.eqb c1 "]" then Ok ([v], r2)
                else Err (invalid c1 "after array element")
            end
      end
  end.

(** What [Decode] reads: the first value of the body, an object with its
    members as read, and the bytes that follow it.  A body with nothing but
    white space is [io.EOF]. *)
Inductive top : Type :=
| TopObject (ms : list member)
| TopValue (v : value).

Definition read_value (body : string) : res (top * string) :=
  match skip_ws body with
  | EmptyString => Err EOF
  | String c r as s0 =>
      if Ascii.eqb c "{" then
        '(ms, rest) <- parse_members (fuel_for r) 1 true r ;;
        Ok (TopObject ms, rest)
      else
        '(v, rest) <- parse_value (fuel_for s0) 0 s0 ;;
        Ok (TopValue v, rest)
  end.

(** *** Storing a value into a Go variable *)

Definition kind_of (v : value) : string :=
  match v with
  | Null => "null"
  | Bool _ => "bool"
  | Number _ => "number"
  | Str _ => "string"
  | Array _ => "array"
  | Object _ => "object"
  end.

Definition lower (c : ascii) : ascii :=
  let b := N_of_ascii c in
  if ((65 <=? b) && (b <=? 90))%N then ascii_of_N (b + 32) else c.

Fixpoint lower_string (s : string) : string :=
  match s with
  | EmptyString => EmptyString
  | String c s' => String (lower c) (lower_string s')
  end.

(** A member is stored into the field whose name equals its key up to
    letter case.  [field] is a field name in lower case without [k] and
    [s], the two letters that Unicode folds together with a rune outside
    ASCII; for such a name Go's folding is the ASCII one. *)
Definition matches_field (key field : string) : bool :=
  String.eqb (lower_string key) field.

(** A JSON value stored into the field [field], a Go [string], of the
    struct type named [strct]: a string is stored, [null] leaves the
    variable as it is, anything else leaves it and is reported when
    decoding ends. *)
Definition store_string (strct field : string) (cur : string) (v : value)
  : string * option error :=
  match v with
  | Str s => (s, None)
  | Null => (cur, None)
  | _ => (cur, Some (UnmarshalTypeError (kind_of v) "string" strct field))
  end.

(** [d.saveError]: the first error is the one reported. *)
Definition saveError (saved new : option error) : option error :=
  match saved with
  | Some e => Some e
  | None => new
  end.

(** In a Go [map] a repeated key holds the value stored last. *)
Fixpoint lookup_last (k : string) (ms : list (string * value)) : option value :=
  match ms with
  | [] => None
  | (k', v) :: ms' =>
      match lookup_last k ms' with
      | Some v' => Some v'
      | None => if String.eqb k' k then Some v else None
      end
  end.

(** The text of an error, [err.Error()]. *)
Definition Error (e : error) : string :=
  match e with
  | EOF => "EOF"
  | ErrUnexpectedEOF => "unexpected EOF"
  | SyntaxError msg => msg
  | UnmarshalTypeError v t strct field =>
      if String.eqb strct "" && String.eqb field ""
      then "json: cannot unmarshal " ++ v ++ " into Go value of type " ++ t
      else "json: cannot unmarshal " ++ v ++ " into Go struct field "
           ++ strct ++ "." ++ field ++ " of type " ++ t
  | UnmarshalerError msg => msg
  | OutOfFuel => "out of fuel"
  end.

End Json.

Import Json.

(** [strconv.Itoa] on a length. *)
Definition Itoa (n : nat) : string := NilEmpty.string_of_uint (Nat.to_uint n).

Definition upperhex (n : N) : ascii :=
  if (n <? 10)%N then ascii_of_N (48 + n) else ascii_of_N (65 + n - 10).

(** The text of [hex.InvalidByteError] for the first byte of [s] that is
    not a hexadecimal digit: the byte as a code point and, if it can be
    printed, as a character ([%#U]). *)
Definition InvalidByteError (s : string) : string :=
  match first_non_hex s with
  | Some c =>
      let b := N_of_ascii c in
      "encoding/hex: invalid byte: U+00"
      ++ String (upperhex (b / 16)) (String (upperhex (b mod 16)) EmptyString)
      ++ (if IsPrint b then " '" ++ EncodeRune b ++ "'" else "")
  | None => "encoding/hex: invalid byte"   (* not reached: [s] does not decode *)
  end.

(** [ObjectID.UnmarshalJSON] (driver 1.x), called with the bytes [raw] of the
    member's value, of which [v] is the parse.  [null] leaves the identifier
    as it is; twelve bytes of any JSON text are taken as the identifier
    itself; otherwise the value is a string or an extended-JSON object with a
    string under ["$oid"]: the empty string is the zero identifier, and any
    other string has twenty-four hexadecimal digits. *)
Definition ObjectID_UnmarshalJSON (cur : Primitive.ObjectID) (raw : string) (v : value)
  : res Primitive.ObjectID :=
  if String.eqb raw "null" then Ok cur
  else if Nat.eqb (String.length raw) 12 then Ok (Primitive.OID raw)
  else
    str <- match v with
           | Str s => Ok s
           | Object m =>
               match lookup_last "$oid" m with
               | Some (Str s) => Ok s
               | _ => Err (UnmarshalerError "not an extended JSON ObjectID")
               end
           | _ => Err (UnmarshalerError "not an extended JSON ObjectID")
           end ;;
    if Nat.eqb (String.length str) 0 then Ok Primitive.NilObjectID
    else if negb (Nat.eqb (String.length str) 24) then
      Err (UnmarshalerError
             ("cannot unmarshal into an ObjectID, the length must be 24 but it is "
              ++ Itoa (String.length str)))
    else match Primitive.hexDecode str with
         | Some b => Ok (Primitive.OID b)
         | None => Err (UnmarshalerError (InvalidByteError str))
         end.

(* ================================================================== *)
(** ** The record model *)

(** [type Name struct], with [name] for the Go field [Name]. *)
Record Name : Type := mkName {
  ID : Primitive.ObjectID;
  name : string
}.

(** The zero value of [Name], what [var payload Name] holds. *)
Definition zeroName : Name := mkName Primitive.NilObjectID "".

(** The members of a JSON object stored into a [Name]: [id] goes through
    [ObjectID.UnmarshalJSON], whose error ends the decoding; [name] is a Go
    string; any other member is skipped. *)
Fixpoint unmarshal_Name_members (ms : list member) (p : Name)
    (saved : option error) : res Name :=
  match ms with
  | [] => match saved with
          | Some e => Err e
          | None => Ok p
          end
  | (k, raw, v) :: ms' =>
      if matches_field k "id" then
        oid <- ObjectID_UnmarshalJSON (ID p) raw v ;;
        unmarshal_Name_members ms' (mkName oid (name p)) saved
      else if matches_field k "name" then
        let (n, e) := store_string "Name" "name" (name p) v in
        unmarshal_Name_members ms' (mkName (ID p) n) (saveError saved e)
      else unmarshal_Name_members ms' p saved
  end.

Definition unmarshal_Name (t : top) (p : Name) : res Name :=
  match t with
  | TopObject ms => unmarshal_Name_members ms p None
  | TopValue Null => Ok p
  | TopValue v => Err (UnmarshalTypeError (kind_of v) "main.Name" "" "")
  end.

(** [json.NewDecoder(r.Body).Decode(&payload)] for [var payload Name]. *)
Definition Decode_Name (body : string) : res Name :=
  '(t, _) <- read_value body ;;
  unmarshal_Name t zeroName.

(** The same for [var payload struct{ Name string `json:"name"` }], held as
    the string of its one field.  The type has no name; [payload_type] is
    how [reflect] writes it. *)
Definition payload_type : string :=
  "struct { Name string " ++ String quote ("json:\" ++ String quote ("name\" ++ String quote (String quote " }"))).

Fixpoint unmarshal_payload_members (ms : list member) (p : string)
    (saved : option error) : res string :=
  match ms with
  | [] => match saved with
          | Some e => Err e
          | None => Ok p
          end
  | (k, _, v) :: ms' =>
      if matches_field k "name" then
        let (n, e) := store_string "" "name" p v in
        unmarshal_payload_members ms' n (saveError saved e)
      else unmarshal_payload_members ms' p saved
  end.

Definition unmarshal_payload (t : top) (p : string) : res string :=
  match t with
  | TopObject ms => unmarshal_payload_members ms p None
  | TopValue Null => Ok p
  | TopValue v => Err (UnmarshalTypeError (kind_of v) payload_type "" "")
  end.

Definition Decode_payload (body : string) : res string :=
  '(t, _) <- read_value body ;;
  unmarshal_payload t "".

(* ================================================================== *)
(** ** The collection

    [collection] is the one shared handle of the process.  The model holds
    its documents in the order [Find] iterates them and records every call
    made on the handle.  Where an inserted document comes to stand in that
    order is the store's choice, an input of the model.  The collection holds the documents this service writes,
    an [_id] of type ObjectID and a string [name]; what the driver may
    report beyond that (a lost connection, an expired deadline, a document
    that does not decode) is an input of the model, [Env]. *)

Module Bson.

Inductive bval : Type :=
| BString (s : string)
| BObjectID (o : Primitive.ObjectID).

(** [bson.M] and [bson.D] literals, as their fields. *)
Definition M : Type := list (string * bval).

End Bson.

Module Mongo.

Record Doc : Type := mkDoc {
  _id : Primitive.ObjectID;
  doc_name : string
}.

Inductive call : Type :=
| InsertOneCall (document : Bson.M)
| FindCall (filter : Bson.M)
| FindOneCall (filter : Bson.M)
| UpdateByIDCall (id : Primitive.ObjectID) (update : list (string * Bson.M))
| DeleteOneCall (filter : Bson.M).

Record Collection : Type := mkCollection {
  docs : list Doc;
  calls : list call
}.

Inductive cursor_fault : Type :=
| DecodeFails (n : nat) (msg : string)   (* the document after [n] others does not decode *)
| CursorFails (n : nat) (msg : string).  (* the cursor breaks after [n] documents *)

(** What the environment decides for one request: the identifier the
    driver generates for an inserted document, the error of the store
    call if it fails, the fault of a cursor if it has one, and the place
    the store gives an inserted document in the order [Find] iterates
    (after [place] others, or last if there are fewer), which neither the
    program nor the store's interface fixes. *)
Record Env : Type := mkEnv {
  newID : Primitive.ObjectID;
  callErr : option string;
  curFault : option cursor_fault;
  place : nat
}.

Definition log (c : call) (col : Collection) : Collection :=
  mkCollection (docs col) (calls col ++ [c])%list.

Definition has_id (o : Primitive.ObjectID) (d : Doc) : bool :=
  Primitive.ObjectID_eqb (_id d) o.

Definition id_filter (o : Primitive.ObjectID) : Bson.M :=
  [("_id", Bson.BObjectID o)].

Definition insert_at (n : nat) (d : Doc) (l : list Doc) : list Doc :=
  (firstn n l ++ d :: skipn n l)%list.

(** [collection.InsertOne(ctx, bson.M{"name": n})]: the driver adds a
    generated [_id]; the unique index on [_id] refuses a second document
    with the same one. *)
Definition InsertOne (env : Env) (n : string) (col : Collection)
  : result string Primitive.ObjectID * Collection :=
  let col := log (InsertOneCall [("name", Bson.BString n)]) col in
  match callErr env with
  | Some e => (Err e, col)
  | None =>
      if existsb (has_id (newID env)) (docs col)
      then (Err "E11000 duplicate key error", col)
      else (Ok (newID env),
            mkCollection (insert_at (place env) (mkDoc (newID env) n) (docs col))
              (calls col))
  end.

(** A cursor: what [cur.Next]/[cur.Decode] deliver in turn, and [cur.Err]. *)
Record Cursor : Type := mkCursor {
  items : list (result string Name);
  final : option string
}.

Definition toName (d : Doc) : Name := mkName (_id d) (doc_name d).

(** [collection.Find(ctx, bson.D{})] *)
Definition Find (env : Env) (col : Collection)
  : result string Cursor * Collection :=
  let col := log (FindCall []) col in
  match callErr env with
  | Some e => (Err e, col)
  | None =>
      let all := map (fun d => Ok (toName d)) (docs col) in
      (Ok match curFault env with
          | None => mkCursor all None
          | Some (DecodeFails n msg) =>
              if Nat.ltb n (List.length all)
              then mkCursor (firstn n all ++ [Err msg])%list None
              else mkCursor all None
          | Some (CursorFails n msg) => mkCursor (firstn n all) (Some msg)
          end, col)
  end.

Inductive found : Type :=
| Found (n : Name)
| ErrNoDocuments
| Failed (msg : string).

(** [collection.FindOne(ctx, bson.M{"_id": oid}).Decode(&n)] *)
Definition FindOne (env : Env) (oid : Primitive.ObjectID) (col : Collection)
  : found * Collection :=
  let col := log (FindOneCall (id_filter oid)) col in
  match callErr env with
  | Some e => (Failed e, col)
  | None =>
      match find (has_id oid) (docs col) with
      | Some d => (Found (toName d), col)
      | None => (ErrNoDocuments, col)
      end
  end.

Fixpoint set_name (oid : Primitive.ObjectID) (n : string) (l : list Doc) : list Doc :=
  match l with
  | [] => []
  | d :: l' => if has_id oid d then mkDoc (_id d) n :: l' else d :: set_name oid n l'
  end.

(** [collection.UpdateByID(ctx, oid, bson.M{"$set": bson.M{"name": n}})]:
    the result is [MatchedCount]. *)
Definition UpdateByID (env : Env) (oid : Primitive.ObjectID) (n : string)
    (col : Collection) : result string nat * Collection :=
  let col := log (UpdateByIDCall oid [("$set", [("name", Bson.BString n)])]) col in
  match callErr env with
  | Some e => (Err e, col)
  | None =>
      if existsb (has_id oid) (docs col)
      then (Ok 1, mkCollection (set_name oid n (docs col)) (calls col))
      else (Ok 0, col)
  end.

Fixpoint remove_first (oid : Primitive.ObjectID) (l : list Doc) : list Doc :=
  match l with
  | [] => []
  | d :: l' => if has_id oid d then l' else d :: remove_first oid l'
  end.

(** [collection.DeleteOne(ctx, bson.M{"_id": oid})]: the result is
    [DeletedCount]. *)
Definition DeleteOne (env : Env) (oid : Primitive.ObjectID) (col : Collection)
  : result string nat * Collection :=
  let col := log (DeleteOneCall (id_filter oid)) col in
  match callErr env with
  | Some e => (Err e, col)
  | None =>
      if existsb (has_id oid) (docs col)
      then (Ok 1, mkCollection (remove_first oid (docs col)) (calls col))
      else (Ok 0, col)
  end.

End Mongo.

(* ================================================================== *)
(** ** Requests, responses and the response helpers *)

(** A Go slice is [nil] or holds elements; [append] to [nil] allocates. *)
Definition slice (A : Type) : Type := option (list A).

Definition append {A} (s : slice A) (x : A) : slice A :=
  match s with
  | None => Some [x]
  | Some l => Some (l ++ [x])%list
  end.

(** A Go [map] with string keys, as the pairs of its literal. *)
Definition gomap (A : Type) : Type := list (string * A).

(** The dynamic values this program passes as [any]. *)
Inductive any : Type :=
| AnyString (s : string)
| AnyStrings (l : slice string).

(** [json.Marshal], giving the JSON value that is written. *)
Class Marshaler (A : Type) : Type := Marshal : A -> value.

#[export] Instance Marshal_string : Marshaler string := Str.

(** A [nil] slice is written as [null], any other as an array. *)
#[export] Instance Marshal_slice {A} `{Marshaler A} : Marshaler (slice A) :=
  fun s => match s with
           | None => Null
           | Some l => Array (map Marshal l)
           end.

#[export] Instance Marshal_any : Marshaler any :=
  fun a => match a with
           | AnyString s => Marshal s
           | AnyStrings l => Marshal l
           end.

Fixpoint insert_sorted {A} (kv : string * A) (l : list (string * A)) : list (string * A) :=
  match l with
  | [] => [kv]
  | kv' :: l' =>
      if String.leb (fst kv) (fst kv') then kv :: l else kv' :: insert_sorted kv l'
  end.

(** A map is written as an object with its keys in sorted order. *)
#[export] Instance Marshal_gomap {A} `{Marshaler A} : Marshaler (gomap A) :=
  fun m => Object (fold_right insert_sorted []
                     (map (fun kv => (fst kv, Marshal (snd kv))) m)).

(** A [Name]: [ID] is an array type, which [omitempty] never omits, and is
    written by [ObjectID.MarshalJSON] as its hexadecimal text. *)
#[export] Instance Marshal_Name : Marshaler Name :=
  fun n => Object [("id", Str (Primitive.Hex (ID n))); ("name", Str (name n))].

Module Http.

Record Request : Type := mkRequest {
  Method : string;
  Path : string;          (* [r.URL.Path] *)
  Body : string
}.

(** What has been written to the client: no body, the JSON encoding of a
    value (which [Encode] ends with a newline), or a text. *)
Inductive body : Type :=
| NoBody
| JSON (v : value)
| Text (s : string).

Record ResponseWriter : Type := mkResponseWriter {
  Header : list (string * string);
  status : option nat;
  written : body
}.

Definition newResponseWriter : ResponseWriter := mkResponseWriter [] None NoBody.

(** [w.Header().Set(k, v)] *)
Fixpoint set_header (k v : string) (h : list (string * string)) : list (string * string) :=
  match h with
  | [] => [(k, v)]
  | (k', v') :: h' => if String.eqb k' k then (k, v) :: h' else (k', v') :: set_header k v h'
  end.

Definition SetHeader (k v : string) (w : ResponseWriter) : ResponseWriter :=
  mkResponseWriter (set_header k v (Header w)) (status w) (written w).

Fixpoint Get (k : string) (h : list (string * string)) : option string :=
  match h with
  | [] => None
  | (k', v) :: h' => if String.eqb k' k then Some v else Get k h'
  end.

(** [w.WriteHeader(code)]: the first call decides. *)
Definition WriteHeader (code : nat) (w : ResponseWriter) : ResponseWriter :=
  match status w with
  | Some _ => w
  | None => mkResponseWriter (Header w) (Some code) (written w)
  end.

(** Writing a body sends status 200 when none has been sent. *)
Definition writeBody (b : body) (w : ResponseWriter) : ResponseWriter :=
  let w := WriteHeader 200 w in
  mkResponseWriter (Header w) (status w) b.

Definition StatusOK := 200.
Definition StatusCreated := 201.
Definition StatusNoContent := 204.
Definition StatusMovedPermanently := 301.
Definition StatusBadRequest := 400.
Definition StatusNotFound := 404.
Definition StatusMethodNotAllowed := 405.
Definition StatusInternalServerError := 500.

Definition MethodGet := "GET".
Definition MethodPost := "POST".
Definition MethodPut := "PUT".
Definition MethodDelete := "DELETE".
Definition MethodOptions := "OPTIONS".

End Http.
Import Http.

Definition jsonWrite {A} `{Marshaler A} (w : ResponseWriter) (code : nat) (v : A)
  : ResponseWriter :=
  writeBody (JSON (Marshal v))
    (WriteHeader code (SetHeader "Content-Type" "application/json" w)).

Definition ok {A} `{Marshaler A} (w : ResponseWriter) (v : A) : ResponseWriter :=
  jsonWrite w StatusOK v.

Definition created {A} `{Marshaler A} (w : ResponseWriter) (v : A) : ResponseWriter :=
  jsonWrite w StatusCreated v.

Definition badRequest (w : ResponseWriter) (msg : any) : ResponseWriter :=
  jsonWrite w StatusBadRequest ([("error", msg)] : gomap any).

Definition notFound (w : ResponseWriter) : ResponseWriter :=
  jsonWrite w StatusNotFound ([("error", "not found")] : gomap string).

(** [err] is the text of the Go error, [err.Error()]. *)
Definition internal (w : ResponseWriter) (err : string) : ResponseWriter :=
  jsonWrite w StatusInternalServerError ([("error", AnyString err)] : gomap any).

Definition noContent (w : ResponseWriter) : ResponseWriter :=
  WriteHeader StatusNoContent w.

Definition methodNotAllowed (w : ResponseWriter) (allowed : list string) : ResponseWriter :=
  let w := SetHeader "Allow" (Strings.Join allowed ", ") w in
  jsonWrite w StatusMethodNotAllowed
    ([("error", AnyString "method not allowed"); ("allow", AnyStrings (Some allowed))]
     : gomap any).

(* ================================================================== *)
(** ** Handlers *)

Definition healthHandler (w : ResponseWriter) (r : Request) : ResponseWriter :=
  ok w ([("status", "ok")] : gomap string).

(** The loop [for cur.Next(ctx) { ... cur.Decode(&n) ...; out = append(out, n) }]:
    the first document that does not decode ends the handler. *)
Fixpoint drain (items : list (result string Name)) (out : slice Name)
  : result string (slice Name) :=
  match items with
  | [] => Ok out
  | Ok n :: items' => drain items' (append out n)
  | Err e :: _ => Err e
  end.

Definition namesHandler (env : Mongo.Env) (w : ResponseWriter) (r : Request)
    (col : Mongo.Collection) : ResponseWriter * Mongo.Collection :=
  if String.eqb (Method r) MethodPost then
    match Decode_Name (Body r) with
    | Err err => (badRequest w (AnyString ("invalid JSON: " ++ Error err)), col)
    | Ok payload =>
        let payload := mkName (ID payload) (Strings.TrimSpace (name payload)) in
        if String.eqb (name payload) "" then
          (badRequest w (AnyString "`name` is required"), col)
        else
          let (res, col) := Mongo.InsertOne env (name payload) col in
          match res with
          | Err err => (internal w err, col)
          | Ok id => (created w (mkName id (name payload)), col)
          end
    end
  else if String.eqb (Method r) MethodGet then
    let (res, col) := Mongo.Find env col in
    match res with
    | Err err => (internal w err, col)
    | Ok cur =>
        match drain (Mongo.items cur) None with
        | Err err => (internal w err, col)
        | Ok out =>
            match Mongo.final cur with
            | Some err => (internal w err, col)
            | None => (ok w out, col)
            end
        end
    end
  else (methodNotAllowed w [MethodGet; MethodPost], col).

Definition nameByIDHandler (env : Mongo.Env) (w : ResponseWriter) (r : Request)
    (col : Mongo.Collection) : ResponseWriter * Mongo.Collection :=
  match extractID (Path r) "/names/" with
  | Err _ => (notFound w, col)
  | Ok idStr =>
      match Primitive.ObjectIDFromHex idStr with
      | None => (badRequest w (AnyString "invalid id"), col)
      | Some oid =>
          if String.eqb (Method r) MethodGet then
            let (res, col) := Mongo.FindOne env oid col in
            match res with
            | Mongo.ErrNoDocuments => (notFound w, col)
            | Mongo.Failed err => (internal w err, col)
            | Mongo.Found n => (ok w n, col)
            end
          else if String.eqb (Method r) MethodPut then
            match Decode_payload (Body r) with
            | Err err => (badRequest w (AnyString ("invalid JSON: " ++ Error err)), col)
            | Ok payload =>
                let payload := Strings.TrimSpace payload in
                if String.eqb payload "" then
                  (badRequest w (AnyString "`name` is required"), col)
                else
                  let (res, col) := Mongo.UpdateByID env oid payload col in
                  match res with
                  | Err err => (internal w err, col)
                  | Ok O => (notFound w, col)
                  | Ok (S _) => (ok w (mkName oid payload), col)
                  end
            end
          else if String.eqb (Method r) MethodDelete then
            let (res, col) := Mongo.DeleteOne env oid col in
            match res with
            | Err err => (internal w err, col)
            | Ok O => (notFound w, col)
            | Ok (S _) => (noContent w, col)
            end
          else (methodNotAllowed w [MethodGet; MethodPut; MethodDelete], col)
      end
  end.

(* ================================================================== *)
(** ** Routing: [http.DefaultServeMux] behind [corsMiddleware] *)

(** [path.Clean] of a rooted path: empty and [.] segments go, [..] takes the
    segment before it with it. *)
Fixpoint clean_segments (segs acc : list string) : list string :=
  match segs with
  | [] => List.rev acc
  | seg :: segs' =>
      if String.eqb seg "" || String.eqb seg "." then clean_segments segs' acc
      else if String.eqb seg ".." then clean_segments segs' (List.tl acc)
      else clean_segments segs' (seg :: acc)
  end.

Definition Clean (p : string) : string :=
  "/" ++ Strings.Join (clean_segments (Strings.Split1 p "/") []) "/".

Fixpoint last_byte (s : string) : option ascii :=
  match s with
  | EmptyString => None
  | String c EmptyString => Some c
  | String _ s' => last_byte s'
  end.

(** [cleanPath] of [net/http]: the canonical path, keeping a final slash. *)
Definition cleanPath (p : string) : string :=
  match p with
  | EmptyString => "/"
  | String c _ =>
      let p := if Ascii.eqb c "/" then p else "/" ++ p in
      let np := Clean p in
      match last_byte p with
      | Some l => if Ascii.eqb l "/" && negb (String.eqb np "/") then np ++ "/" else np
      | None => np
      end
  end.

Definition nl : string := String (ascii_of_N 10) EmptyString.

(** [http.NotFound], the answer of the multiplexer when no pattern matches. *)
Definition muxNotFound (w : ResponseWriter) : ResponseWriter :=
  let w := SetHeader "Content-Type" "text/plain; charset=utf-8" w in
  let w := SetHeader "X-Content-Type-Options" "nosniff" w in
  writeBody (Text ("404 page not found" ++ nl)) (WriteHeader StatusNotFound w).

(** The answer of [ServeMux.ServeHTTP] to the request-target [*], the one
    request whose path is ["*"]: 400 without a body, and [Connection: close]
    for HTTP/1.1 and later, the protocol of the requests of this model. *)
Definition muxBadRequest (w : ResponseWriter) : ResponseWriter :=
  WriteHeader StatusBadRequest (SetHeader "Connection" "close" w).

Definition percent (c : ascii) : string :=
  let b := N_of_ascii c in
  String "%" (String (upperhex (b / 16)) (String (upperhex (b mod 16)) EmptyString)).

Fixpoint mem_byte (c : ascii) (set : string) : bool :=
  match set with
  | EmptyString => false
  | String x set' => Ascii.eqb x c || mem_byte c set'
  end.

(** [shouldEscape] of [net/url] for a path: letters, digits, the marks
    [-_.~] and the reserved bytes other than [?] stay as they are. *)
Definition shouldEscape (c : ascii) : bool :=
  let b := N_of_ascii c in
  if ((97 <=? b) && (b <=? 122) || (65 <=? b) && (b <=? 90) || (48 <=? b) && (b <=? 57))%N
  then false
  else negb (mem_byte c "-_.~$&+,/:;=@").

(** [(&url.URL{Path: p}).String()] for a rooted path [p]: its escaped form. *)
Fixpoint escapePath (p : string) : string :=
  match p with
  | EmptyString => EmptyString
  | String c p' =>
      if shouldEscape c then percent c ++ escapePath p' else String c (escapePath p')
  end.

(** [hexEscapeNonASCII] *)
Fixpoint hexEscapeNonASCII (s : string) : string :=
  match s with
  | EmptyString => EmptyString
  | String c s' =>
      if (128 <=? N_of_ascii c)%N then percent c ++ hexEscapeNonASCII s'
      else String c (hexEscapeNonASCII s')
  end.

(** [htmlEscape] of [net/http] *)
Fixpoint htmlEscape (s : string) : string :=
  match s with
  | EmptyString => EmptyString
  | String c s' =>
      (if Ascii.eqb c "&" then "&amp;"
       else if Ascii.eqb c "<" then "&lt;"
       else if Ascii.eqb c ">" then "&gt;"
       else if Ascii.eqb c quote then "&#34;"
       else if Ascii.eqb c "'" then "&#39;"
       else String c EmptyString) ++ htmlEscape s'
  end.

Definition ends_with_slash (s : string) : bool :=
  match last_byte s with
  | Some l => Ascii.eqb l "/"
  | None => false
  end.

(** [http.Redirect w r url 301] for a rooted [url] without a query: the
    target is cleaned once more, keeping a final slash; a GET gets a small
    page with a link to it. *)
Definition muxRedirect (w : ResponseWriter) (r : Request) (url : string) : ResponseWriter :=
  let url :=
    let cleaned := Clean url in
    if ends_with_slash url && negb (ends_with_slash cleaned)
    then cleaned ++ "/" else cleaned in
  let hadCT := match Get "Content-Type" (Header w) with Some _ => true | None => false end in
  let w := SetHeader "Location" (hexEscapeNonASCII url) w in
  let w := if negb hadCT && (String.eqb (Method r) "GET" || String.eqb (Method r) "HEAD")
           then SetHeader "Content-Type" "text/html; charset=utf-8" w else w in
  let w := WriteHeader StatusMovedPermanently w in
  if negb hadCT && String.eqb (Method r) "GET"
  then writeBody (Text ("<a href=" ++ String quote (htmlEscape url)
                        ++ String quote (">Moved Permanently</a>." ++ nl ++ nl))) w
  else w.

(** The patterns registered in [main]: ["/health"] and ["/names"] match
    their path only, ["/names/"] matches every path below it. *)
Definition route (env : Mongo.Env) (w : ResponseWriter) (r : Request)
    (col : Mongo.Collection) : ResponseWriter * Mongo.Collection :=
  if String.eqb (Path r) "/health" then (healthHandler w r, col)
  else if String.eqb (Path r) "/names" then namesHandler env w r col
  else if Strings.HasPrefix (Path r) "/names/" then nameByIDHandler env w r col
  else (muxNotFound w, col).

(** [ServeMux.ServeHTTP]: the request-target [*] is refused; a request
    whose path is not canonical is redirected to the canonical one, except
    for [CONNECT]; any other request goes to the handler of its pattern. *)
Definition DefaultServeMux (env : Mongo.Env) (w : ResponseWriter) (r : Request)
    (col : Mongo.Collection) : ResponseWriter * Mongo.Collection :=
  if String.eqb (Path r) "*" then (muxBadRequest w, col)
  else if String.eqb (Method r) "CONNECT" then route env w r col
  else
    let p := cleanPath (Path r) in
    if negb (String.eqb p (Path r)) then (muxRedirect w r (escapePath p), col)
    else route env w r col.

Definition corsMiddleware
    (next : ResponseWriter -> Request -> Mongo.Collection -> ResponseWriter * Mongo.Collection)
    (w : ResponseWriter) (r : Request) (col : Mongo.Collection)
  : ResponseWriter * Mongo.Collection :=
  let w := SetHeader "Access-Control-Allow-Origin" "*" w in
  let w := SetHeader "Access-Control-Allow-Headers" "Content-Type" w in
  let w := SetHeader "Access-Control-Allow-Methods" "GET,POST,PUT,DELETE,OPTIONS" w in
  if String.eqb (Method r) MethodOptions then (WriteHeader StatusNoContent w, col)
  else next w r col.

(** The handler [main] hands to [http.ListenAndServe], on one request
    against the collection. *)
Definition serve (env : Mongo.Env) (r : Request) (col : Mongo.Collection)
  : ResponseWriter * Mongo.Collection :=
  corsMiddleware (DefaultServeMux env) newResponseWriter r col.

(* ================================================================== *)
(** ** Configuration: [getenv] and the settings of [main] *)

(** The environment of the process, as [os.Environ] lists it.
    [os.Getenv] gives the value of the first entry for a key and the empty
    string when there is none. *)
Definition Environ : Type := list (string * string).

Fixpoint Getenv (env : Environ) (k : string) : string :=
  match env with
  | [] => ""
  | (k', v) :: env' => if String.eqb k' k then v else Getenv env' k
  end.

Definition getenv (env : Environ) (k def : string) : string :=
  let v := Getenv env k in
  if negb (String.eqb v "") then v else def.

(** The four settings [main] reads before it connects and serves. *)
Record Settings : Type := mkSettings {
  mongoURI : string;
  dbName : string;
  colName : string;
  addr : string
}.

Definition settings (env : Environ) : Settings :=
  mkSettings (getenv env "MONGO_URI" "mongodb://localhost:27017")
             (getenv env "DB_NAME" "testdb")
             (getenv env "COLLECTION" "names")
             (getenv env "ADDR" ":8080").

(* ================================================================== *)
(** ** Vocabulary of the properties *)

(** The response writer as [corsMiddleware] hands it to the multiplexer. *)
Definition corsWriter : ResponseWriter :=
  SetHeader "Access-Control-Allow-Methods" "GET,POST,PUT,DELETE,OPTIONS"
    (SetHeader "Access-Control-Allow-Headers" "Content-Type"
       (SetHeader "Access-Control-Allow-Origin" "*" newResponseWriter)).

(** An environment in which the store call of the request succeeds. *)
Definition healthy (id : Primitive.ObjectID) : Mongo.Env := Mongo.mkEnv id None None 0.

Fixpoint slashes (n : nat) : string :=
  match n with
  | O => EmptyString
  | S n' => String "/" (slashes n')
  end.

(** [s] is one path segment: it has no slash in it. *)
Fixpoint segment (s : string) : bool :=
  match s with
  | EmptyString => true
  | String c s' => negb (Ascii.eqb c "/") && segment s'
  end.

(** The members a [Name] has a field for, and those the payload of
    Replace-name has a field for. *)
Definition known_Name (m : member) : bool :=
  let '(k, _, _) := m in matches_field k "id" || matches_field k "name".

Definition known_payload (m : member) : bool :=
  let '(k, _, _) := m in matches_field k "name".

(** A result that is not the parser giving up for lack of fuel. *)
Definition fueled {A} (m : res A) : Prop := m <> Err OutOfFuel.

(** JSON text written with apostrophes for its quotation marks. *)
Fixpoint dq (s : string) : string :=
  match s with
  | EmptyString => EmptyString
  | String c s' => String (if Ascii.eqb c "'" then quote else c) (dq s')
  end.

Definition ids (l : list Mongo.Doc) : list Primitive.ObjectID := map Mongo._id l.

(** Sample data. *)
Definition sampleID : Primitive.ObjectID := Primitive.OID "abcdefghijkl".
Definition sampleHex : string := "6162636465666768696a6b6c".
Definition sampleEnv : Mongo.Env := healthy sampleID.
Definition emptyCollection : Mongo.Collection := Mongo.mkCollection [] [].
Definition oneAlice : Mongo.Collection :=
  Mongo.mkCollection [Mongo.mkDoc sampleID "Alice"] [].

(** The status codes the server answers with. *)
Definition statuses : list nat :=
  [StatusOK; StatusCreated; StatusNoContent; StatusMovedPermanently;
   StatusBadRequest; StatusNotFound; StatusMethodNotAllowed;
   StatusInternalServerError].

(** A JSON object with a member "error". *)
Definition has_error_member (b : body) : bool :=
  match b with
  | JSON (Object ms) => existsb (fun kv => String.eqb (fst kv) "error") ms
  | _ => false
  end.

(** The text of the multiplexer's own 404. *)
Definition page_not_found : body := Text ("404 page not found" ++ nl).

(** Every document has a name that is not empty. *)
Definition names_nonempty (l : list Mongo.Doc) : Prop :=
  Forall (fun d => Mongo.doc_name d <> "") l.

(** The documents whose identifier is not [oid]. *)
Definition others (oid : Primitive.ObjectID) (l : list Mongo.Doc) : list Mongo.Doc :=
  filter (fun d => negb (Mongo.has_id oid d)) l.

(** The records a listing shows for the documents [l]. *)
Definition listing (l : list Mongo.Doc) : value :=
  match l with
  | [] => Null
  | _ => Array (map (fun d => Marshal (Mongo.toName d)) l)
  end.

(** What [jsonWrite] makes of a writer, for the JSON value written. *)
Definition json_answer (w : ResponseWriter) (code : nat) (j : value) : ResponseWriter :=
  writeBody (JSON j) (WriteHeader code (SetHeader "Content-Type" "application/json" w)).

(** The answers the server gives on a writer [w]: a record or a list with
    200 or 201, an error object with 400, 404 or 500, the 405 of
    [methodNotAllowed], the empty 204, and the multiplexer's own 404, 400
    and redirect. *)
Inductive answered (w : ResponseWriter) : ResponseWriter -> Prop :=
| ans_success (code : nat) (j : value) :
    code = StatusOK \/ code = StatusCreated ->
    answered w (json_answer w code j)
| ans_error (code : nat) (msg : string) :
    code = StatusBadRequest \/ code = StatusNotFound \/ code = StatusInternalServerError ->
    answered w (json_answer w code (Object [("error", Str msg)]))
| ans_not_allowed (allowed : list string) :
    answered w (methodNotAllowed w allowed)
| ans_no_content :
    answered w (noContent w)
| ans_mux_not_found :
    answered w (muxNotFound w)
| ans_mux_bad_request :
    answered w (muxBadRequest w)
| ans_redirect (r : Request) (url : string) :
    answered w (muxRedirect w r url).

(** The answer of [internal]: 500 with the text of the error. *)
Definition is_internal_error (e : string) (w : ResponseWriter) : Prop :=
  status w = Some StatusInternalServerError
  /\ written w = JSON (Object [("error", Str e)]).

(** A name with no white-space rune at its start and none at its end. *)
Definition trimmed (s : string) : Prop :=
  Strings.space_prefix s = 0 /\ Strings.space_suffix_rev (Strings.rev s) = 0.

Definition names_trimmed (l : list Mongo.Doc) : Prop :=
  Forall (fun d => trimmed (Mongo.doc_name d)) l.

(** Every name of the documents [l] has the property [P]. *)
Definition names_have (P : string -> Prop) (l : list Mongo.Doc) : Prop :=
  Forall (fun d => P (Mongo.doc_name d)) l.

(** No member of [ms] is stored into the field [ID] of a [Name]. *)
Definition no_id_member (ms : list member) : Prop :=
  Forall (fun m => matches_field (fst (fst m)) "id" = false) ms.

(** The string an "id" value stands for: the value itself if it is a
    string, or the string an object holds under ["$oid"]. *)
Definition oid_text (v : value) : option string :=
  match v with
  | Str s => Some s
  | Object m =>
      match lookup_last "$oid" m with
      | Some (Str s) => Some s
      | _ => None
      end
  | _ => None
  end.

(** An ObjectID in JSON form, for the amended claim C8: [null], a JSON
    text of twelve bytes, or a value that stands for the empty string or
    for twenty-four hexadecimal digits.  [raw] is the text of the value
    and [v] its parse. *)
Definition id_in_json_form (raw : string) (v : value) : bool :=
  String.eqb raw "null"
  || Nat.eqb (String.length raw) 12
  || match oid_text v with
     | Some s =>
         Nat.eqb (String.length s) 0 || (Nat.eqb (String.length s) 24 && all_hex s)
     | None => false
     end.

(** The setting [s] is the default [def] when the variable [k] is unset or
    empty, and the value of the variable otherwise. *)
Definition default_or_value (env : Environ) (k def s : string) : Prop :=
  (Getenv env k = "" -> s = def) /\ (Getenv env k <> "" -> s = Getenv env k).

(** A member stored into the field [ID] whose value is no ObjectID in JSON
    form. *)
Definition bad_id_member (m : member) : bool :=
  let '(k, raw, v) := m in
  matches_field k "id" && negb (id_in_json_form raw v).

(** A branch of a handler, for a claim on the answers with status 400 or
    above: either it has written an error object, or its status is lower. *)
Ltac error_leaf :=
  let H := fresh "H" in
  let Hge := fresh "Hge" in
  intros H Hge;
  first [ reflexivity
        | exfalso; cbn in H; injection H as <-;
          unfold StatusOK, StatusCreated, StatusNoContent in Hge; lia ].

(* ================================================================== *)
(** ** Properties *)

(** *** Strings and paths *)

Lemma eqb_neq_false (a b : string) : a <> b -> String.eqb a b = false.
Proof. intro H. apply String.eqb_neq. exact H. Qed.

Lemma TrimLeft1_slashes n : Strings.TrimLeft1 (slashes n) "/" = "".
Proof. induction n as [|n IH]; simpl; auto. Qed.

Lemma HasPrefix_app p s : Strings.HasPrefix (p ++ s) p = true.
Proof.
  induction p as [|c p IH]; simpl.
  - destruct s; reflexivity.
  - rewrite Ascii.eqb_refl. exact IH.
Qed.

Lemma drop_app p s : Strings.drop (String.length p) (p ++ s) = s.
Proof. induction p as [|c p IH]; simpl; auto. Qed.

Lemma extractID_app prefix rest :
  extractID (prefix ++ rest) prefix =
  match Strings.Split1 (Strings.Trim1 rest "/") "/" with
  | [] => Err "no id"
  | p0 :: _ => if String.eqb p0 "" then Err "no id" else Ok p0
  end.
Proof.
  unfold extractID, Strings.TrimPrefix.
  rewrite HasPrefix_app, drop_app. reflexivity.
Qed.

Lemma extractID_slashes n :
  extractID ("/names/" ++ slashes n) "/names/" = Err "no id".
Proof.
  rewrite extractID_app. unfold Strings.Trim1.
  rewrite TrimLeft1_slashes. reflexivity.
Qed.

Lemma TrimLeft1_segment c s t :
  Ascii.eqb c "/" = false ->
  Strings.TrimLeft1 (String c s ++ t) "/" = String c s ++ t.
Proof. intro H. simpl. rewrite H. reflexivity. Qed.

Lemma TrimRight1_segment s t :
  s <> "" -> segment s = true ->
  Strings.TrimRight1 (s ++ t) "/" = s ++ Strings.TrimRight1 t "/".
Proof.
  induction s as [|c s IH]; intros Hne Hseg; [congruence|].
  simpl in Hseg. apply andb_prop in Hseg as [Hc Hs].
  apply negb_true_iff in Hc.
  destruct s as [|c' s'].
  - simpl. destruct (Strings.TrimRight1 t "/"); [rewrite Hc|]; reflexivity.
  - change (String c (String c' s') ++ t) with (String c (String c' s' ++ t)).
    cbn [Strings.TrimRight1]. fold (Strings.TrimRight1 (String c' s' ++ t) "/").
    rewrite IH by (auto; discriminate). reflexivity.
Qed.

Lemma Split1_segment s t :
  segment s = true ->
  Strings.Split1 (s ++ t) "/" =
  match Strings.Split1 t "/" with
  | h :: l => (s ++ h) :: l
  | [] => [s]
  end.
Proof.
  induction s as [|c s IH]; intro Hseg; simpl.
  - destruct (Strings.Split1 t "/") eqn:E; [|reflexivity].
    destruct t; simpl in E; [discriminate|].
    destruct (Ascii.eqb a "/"); [discriminate|].
    destruct (Strings.Split1 t "/"); discriminate.
  - simpl in Hseg. apply andb_prop in Hseg as [Hc Hs].
    apply negb_true_iff in Hc. rewrite Hc, (IH Hs).
    destruct (Strings.Split1 t "/"); reflexivity.
Qed.

Lemma TrimRight1_slash_head t :
  Strings.TrimRight1 (String "/" t) "/" = ""
  \/ exists u, Strings.TrimRight1 (String "/" t) "/" = String "/" u.
Proof.
  simpl. destruct (Strings.TrimRight1 t "/"); [left|right; eexists]; reflexivity.
Qed.

(** The identifier is the first segment after the prefix, whatever follows. *)
Lemma extractID_first_segment id rest :
  id <> "" -> segment id = true ->
  rest = "" \/ (exists u, rest = String "/" u) ->
  extractID ("/names/" ++ id ++ rest) "/names/" = Ok id.
Proof.
  intros Hne Hseg Hrest. rewrite extractID_app.
  unfold Strings.Trim1.
  destruct id as [|c id']; [congruence|].
  pose proof Hseg as Hseg'. simpl in Hseg'. apply andb_prop in Hseg' as [Hc _].
  apply negb_true_iff in Hc.
  rewrite TrimLeft1_segment by exact Hc.
  rewrite TrimRight1_segment by (auto; discriminate).
  rewrite Split1_segment by exact Hseg.
  assert (Hhead : Strings.TrimRight1 rest "/" = ""
                  \/ exists u, Strings.TrimRight1 rest "/" = String "/" u).
  { destruct Hrest as [->|[u ->]]; [left; reflexivity|apply TrimRight1_slash_head]. }
  destruct Hhead as [->|[u ->]]; simpl.
  - assert (E : (id' ++ "")%string = id') by (clear; induction id'; simpl; congruence).
    rewrite E. reflexivity.
  - assert (E : (id' ++ "")%string = id') by (clear; induction id'; simpl; congruence).
    rewrite E. reflexivity.
Qed.

(** *** The response helpers on a writer that has sent nothing yet *)

Lemma jsonWrite_status {A} `{Marshaler A} w code (v : A) :
  status w = None -> status (jsonWrite w code v) = Some code.
Proof.
  intro Hw. unfold jsonWrite, writeBody, WriteHeader. simpl. rewrite Hw. reflexivity.
Qed.

(** *** List *)

(** Claim C1: for List (GET /names) on an empty collection the response is
    status 200 with the JSON encoding of an empty array, never [null].  The
    code does not do this: [out] is declared [var out []Name] and stays [nil]
    when the cursor delivers nothing, and [json] writes a [nil] slice as
    [null].  The theorem states what the code does. *)
Theorem C1_list_empty_collection_writes_null :
  forall (id : Primitive.ObjectID) (body : string) (calls : list Mongo.call),
    let '(w, col') := serve (healthy id) (mkRequest MethodGet "/names" body)
                        (Mongo.mkCollection [] calls) in
    status w = Some StatusOK
    /\ written w = JSON Null
    /\ written w <> JSON (Array [])
    /\ Mongo.docs col' = [].
Proof.
  intros id body calls. cbn.
  repeat split; discriminate.
Qed.

(** *** Routing *)

Lemma serve_not_options env r col :
  Method r <> MethodOptions ->
  serve env r col = DefaultServeMux env corsWriter r col.
Proof.
  intro H. unfold serve, corsMiddleware.
  rewrite (eqb_neq_false _ _ H). reflexivity.
Qed.

Lemma mux_canonical env w r col :
  cleanPath (Path r) = Path r ->
  DefaultServeMux env w r col = route env w r col.
Proof.
  intro H. unfold DefaultServeMux. rewrite H, String.eqb_refl. simpl.
  destruct (String.eqb_spec (Path r) "*") as [E|_];
    [rewrite E in H; discriminate H|].
  destruct (String.eqb (Method r) "CONNECT"); reflexivity.
Qed.

Lemma route_item env w m rest body col :
  route env w (mkRequest m ("/names/" ++ rest) body) col
  = nameByIDHandler env w (mkRequest m ("/names/" ++ rest) body) col.
Proof.
  unfold route. cbn [Path].
  rewrite (HasPrefix_app "/names/" rest). reflexivity.
Qed.

Lemma app_empty_r (s : string) : s ++ "" = s.
Proof. induction s; simpl; congruence. Qed.

(** The item handler looks at the path through [extractID] only. *)
Lemma nameByIDHandler_same_id env w m p1 p2 body col :
  extractID p1 "/names/" = extractID p2 "/names/" ->
  nameByIDHandler env w (mkRequest m p1 body) col
  = nameByIDHandler env w (mkRequest m p2 body) col.
Proof. intro H. unfold nameByIDHandler. cbn [Path Method Body]. rewrite H. reflexivity. Qed.

(** Claim C2, as stated, fails: GET /names/<id>/extra for a stored record is
    answered 200 by the item handler, which has looked the record up under
    <id>; it is not answered 404. *)
Lemma C2_extra_segments_counterexample :
  let r := mkRequest MethodGet ("/names/" ++ sampleHex ++ "/extra") "" in
  status (fst (serve sampleEnv r oneAlice)) <> Some StatusNotFound
  /\ status (fst (serve sampleEnv r oneAlice)) = Some StatusOK
  /\ Mongo.calls (snd (serve sampleEnv r oneAlice))
     = [Mongo.FindOneCall (Mongo.id_filter sampleID)].
Proof. cbn. repeat split; discriminate. Qed.

(** Claim C2, amended: a request whose path has further segments after the
    identifier reaches the item handler, which takes the first segment as
    the identifier and ignores the rest: the answer is the one the handler
    gives for /names/<id> (for a request other than OPTIONS whose path is in
    canonical form, which the multiplexer passes on). *)
Theorem C2_extra_segments_ignored :
  forall env m id extra body col,
    m <> MethodOptions ->
    id <> "" -> segment id = true ->
    cleanPath ("/names/" ++ id ++ "/" ++ extra) = "/names/" ++ id ++ "/" ++ extra ->
    serve env (mkRequest m ("/names/" ++ id ++ "/" ++ extra) body) col
    = nameByIDHandler env corsWriter (mkRequest m ("/names/" ++ id) body) col.
Proof.
  intros env m id extra body col Hm Hne Hseg Hclean.
  rewrite serve_not_options by exact Hm.
  rewrite mux_canonical by exact Hclean.
  rewrite route_item.
  apply nameByIDHandler_same_id.
  rewrite (extractID_first_segment id ("/" ++ extra));
    [ | exact Hne | exact Hseg | right; exists extra; reflexivity ].
  rewrite <- (app_empty_r id) at 2.
  rewrite (extractID_first_segment id "") by auto.
  reflexivity.
Qed.

Lemma C2_extra_segments_ignored_witness :
  "GET" <> MethodOptions /\ sampleHex <> "" /\ segment sampleHex = true
  /\ cleanPath ("/names/" ++ sampleHex ++ "/" ++ "extra")
     = "/names/" ++ sampleHex ++ "/" ++ "extra"
  /\ serve sampleEnv (mkRequest "GET" ("/names/" ++ sampleHex ++ "/" ++ "extra") "") oneAlice
     = nameByIDHandler sampleEnv corsWriter
         (mkRequest "GET" ("/names/" ++ sampleHex) "") oneAlice.
Proof.
  split; [discriminate|]. split; [discriminate|].
  split; [reflexivity|]. split; [reflexivity|].
  apply (C2_extra_segments_ignored sampleEnv "GET" sampleHex "extra" "" oneAlice);
    [discriminate | discriminate | reflexivity | reflexivity].
Defined.

(** *** Identifier validation *)

(** Claim C3: for every identifier string that does not parse as an
    ObjectID, read-one, replace-name and delete (indeed the item handler
    under any method) answer 400 with the body {"error":"invalid id"} and
    make no store call: the collection, with its record of calls, is as
    before. *)
Theorem C3_malformed_id_400_no_store_call :
  forall env w r col idStr,
    status w = None ->
    extractID (Path r) "/names/" = Ok idStr ->
    Primitive.ObjectIDFromHex idStr = None ->
    let '(w', col') := nameByIDHandler env w r col in
    status w' = Some StatusBadRequest
    /\ written w' = JSON (Object [("error", Str "invalid id")])
    /\ col' = col
    /\ Mongo.calls col' = Mongo.calls col.
Proof.
  intros env w r col idStr Hw Hid Hhex.
  unfold nameByIDHandler. rewrite Hid, Hhex.
  split; [apply jsonWrite_status; exact Hw|].
  split; [reflexivity|]. split; reflexivity.
Qed.

Lemma C3_malformed_id_witness :
  status corsWriter = None
  /\ extractID (Path (mkRequest MethodDelete "/names/not-an-id" "")) "/names/" = Ok "not-an-id"
  /\ Primitive.ObjectIDFromHex "not-an-id" = None
  /\ let '(w', col') := nameByIDHandler sampleEnv corsWriter
                          (mkRequest MethodDelete "/names/not-an-id" "") oneAlice in
     status w' = Some StatusBadRequest
     /\ written w' = JSON (Object [("error", Str "invalid id")])
     /\ col' = oneAlice
     /\ Mongo.calls col' = Mongo.calls oneAlice.
Proof.
  split; [reflexivity|]. split; [reflexivity|]. split; [reflexivity|].
  apply (C3_malformed_id_400_no_store_call sampleEnv corsWriter
           (mkRequest MethodDelete "/names/not-an-id" "") oneAlice
           "not-an-id"); reflexivity.
Defined.

(** *** Methods of the collection path *)

(** Claim C7, as stated, fails for one method other than GET and POST:
    OPTIONS /names is answered 204 by [corsMiddleware], without an [Allow]
    header and without a body. *)
Lemma C7_options_counterexample :
  let w := fst (serve sampleEnv (mkRequest MethodOptions "/names" "") emptyCollection) in
  MethodOptions <> MethodGet /\ MethodOptions <> MethodPost
  /\ status w <> Some StatusMethodNotAllowed
  /\ status w = Some StatusNoContent
  /\ Get "Allow" (Header w) = None
  /\ written w = NoBody.
Proof. cbn. repeat split; discriminate. Qed.

(** Claim C7, amended: every request to the exact path /names with a method
    other than GET, POST and OPTIONS is answered 405, with the header
    [Allow: GET, POST] and a JSON body holding the allowed methods under
    "allow" and a message under "error"; the collection is not touched. *)
Theorem C7_names_other_method_405 :
  forall env m body col,
    m <> MethodGet -> m <> MethodPost -> m <> MethodOptions ->
    let '(w, col') := serve env (mkRequest m "/names" body) col in
    status w = Some StatusMethodNotAllowed
    /\ Get "Allow" (Header w) = Some "GET, POST"
    /\ written w = JSON (Object [("allow", Array [Str "GET"; Str "POST"]);
                                 ("error", Str "method not allowed")])
    /\ col' = col.
Proof.
  intros env m body col Hget Hpost Hopt.
  rewrite serve_not_options by exact Hopt.
  rewrite mux_canonical by reflexivity.
  unfold route, namesHandler. cbn [Path Method].
  change (String.eqb "/names" "/health") with false.
  change (String.eqb "/names" "/names") with true. cbn iota.
  rewrite (eqb_neq_false _ _ Hpost), (eqb_neq_false _ _ Hget).
  repeat split.
Qed.

Lemma C7_names_other_method_witness :
  "PATCH" <> MethodGet /\ "PATCH" <> MethodPost /\ "PATCH" <> MethodOptions
  /\ let '(w, col') := serve sampleEnv (mkRequest "PATCH" "/names" "") oneAlice in
     status w = Some StatusMethodNotAllowed
     /\ Get "Allow" (Header w) = Some "GET, POST"
     /\ written w = JSON (Object [("allow", Array [Str "GET"; Str "POST"]);
                                  ("error", Str "method not allowed")])
     /\ col' = oneAlice.
Proof.
  split; [discriminate|]. split; [discriminate|]. split; [discriminate|].
  apply (C7_names_other_method_405 sampleEnv "PATCH" "" oneAlice); discriminate.
Defined.

(** *** The empty identifier *)

(** Claim C9, as stated, fails on two requests with an empty identifier
    segment: OPTIONS /names/ is answered 204 by [corsMiddleware], and
    GET /names// is redirected (301) to /names/ by the multiplexer, whose
    canonical form of the path it is. *)
Lemma C9_empty_id_counterexample :
  status (fst (serve sampleEnv (mkRequest MethodOptions "/names/" "") emptyCollection))
    = Some StatusNoContent
  /\ status (fst (serve sampleEnv (mkRequest MethodGet "/names//" "") emptyCollection))
    = Some StatusMovedPermanently
  /\ status (fst (serve sampleEnv (mkRequest MethodOptions "/names/" "") emptyCollection))
    <> Some StatusNotFound
  /\ status (fst (serve sampleEnv (mkRequest MethodGet "/names//" "") emptyCollection))
    <> Some StatusNotFound.
Proof. cbn. repeat split; discriminate. Qed.

Lemma Split1_slashes k : Strings.Split1 (slashes k) "/" = repeat "" (S k).
Proof. induction k as [|k IH]; [reflexivity|]. cbn. rewrite IH. reflexivity. Qed.

Lemma clean_segments_empty k acc : clean_segments (repeat "" k) acc = List.rev acc.
Proof. induction k as [|k IH]; [reflexivity|]. cbn. exact IH. Qed.

Lemma last_byte_slashes k : last_byte (slashes (S k)) = Some "/"%char.
Proof. induction k as [|k IH]; [reflexivity|]. cbn in *. exact IH. Qed.

(** The canonical form of /names/ followed by more slashes is /names/. *)
Lemma cleanPath_names_slashes n : cleanPath ("/names/" ++ slashes (S n)) = "/names/".
Proof.
  assert (Hc : Clean ("/names/" ++ slashes (S n)) = "/names").
  { unfold Clean.
    change (Strings.Split1 ("/names/" ++ slashes (S n)) "/")
      with ("" :: "names" :: Strings.Split1 (slashes (S n)) "/").
    rewrite Split1_slashes.
    change (clean_segments ("" :: "names" :: repeat "" (S (S n))) [])
      with (clean_segments (repeat "" (S (S n))) ["names"]).
    rewrite clean_segments_empty. reflexivity. }
  assert (Hl : last_byte ("/names/" ++ slashes (S n)) = Some "/"%char).
  { change (last_byte ("/names/" ++ slashes (S n))) with (last_byte (slashes (S n))).
    apply last_byte_slashes. }
  unfold cleanPath. change ("/names/" ++ slashes (S n))
    with (String "/" ("names/" ++ slashes (S n))) at 1.
  cbn iota. change (Ascii.eqb "/" "/") with true. cbn iota.
  change (String "/" ("names/" ++ slashes (S n))) with ("/names/" ++ slashes (S n)).
  rewrite Hc, Hl. reflexivity.
Qed.

Lemma mux_names_slashes env w m n body col :
  m <> "CONNECT" ->
  DefaultServeMux env w (mkRequest m ("/names/" ++ slashes (S n)) body) col
  = (muxRedirect w (mkRequest m ("/names/" ++ slashes (S n)) body) "/names/", col).
Proof.
  intro Hm. unfold DefaultServeMux. cbn [Path Method].
  rewrite (eqb_neq_false _ _ Hm), cleanPath_names_slashes.
  reflexivity.
Qed.

Lemma muxRedirect_names r :
  status (muxRedirect corsWriter r "/names/") = Some StatusMovedPermanently
  /\ Get "Location" (Header (muxRedirect corsWriter r "/names/")) = Some "/names/"
  /\ Get "Access-Control-Allow-Origin" (Header (muxRedirect corsWriter r "/names/"))
     = Some "*".
Proof.
  unfold muxRedirect.
  destruct (String.eqb (Method r) "GET"); destruct (String.eqb (Method r) "HEAD");
    cbn; repeat split.
Qed.

(** Claim C9, amended: every request other than OPTIONS to the path /names/
    is answered 404 "not found", not 400; and whenever the item handler is
    called with nothing but slashes after /names/ it answers 404 before any
    identifier validation, without a store call.  A request to /names/
    followed by more slashes, such as /names//, makes no store call either;
    it reaches the handler, and gets that 404, only with the method CONNECT:
    OPTIONS is answered 204 by [corsMiddleware], and with any other method
    the multiplexer redirects it (301) to /names/. *)
Theorem C9_empty_id_404 :
  forall env m body col,
    (m <> MethodOptions ->
     let '(w, col') := serve env (mkRequest m "/names/" body) col in
     status w = Some StatusNotFound
     /\ written w = JSON (Object [("error", Str "not found")])
     /\ col' = col)
    /\ (forall w n,
          nameByIDHandler env w (mkRequest m ("/names/" ++ slashes n) body) col
          = (notFound w, col))
    /\ (forall n,
          let '(w, col') :=
            serve env (mkRequest m ("/names/" ++ slashes (S n)) body) col in
          col' = col
          /\ (m = MethodOptions ->
              status w = Some StatusNoContent /\ written w = NoBody)
          /\ (m = "CONNECT" ->
              status w = Some StatusNotFound
              /\ written w = JSON (Object [("error", Str "not found")]))
          /\ (m <> MethodOptions -> m <> "CONNECT" ->
              status w = Some StatusMovedPermanently
              /\ Get "Location" (Header w) = Some "/names/")).
Proof.
  intros env m body col. split; [|split].
  - intro Hopt.
    rewrite serve_not_options by exact Hopt.
    rewrite mux_canonical by reflexivity.
    change (mkRequest m "/names/" body)
      with (mkRequest m ("/names/" ++ slashes 0) body).
    rewrite route_item.
    unfold nameByIDHandler. cbn [Path].
    rewrite extractID_slashes. repeat split.
  - intros w n. unfold nameByIDHandler. cbn [Path].
    rewrite extractID_slashes. reflexivity.
  - intro n. destruct (String.eqb_spec m MethodOptions) as [->|Hopt].
    + cbn. split; [reflexivity|]. split; [intros _; split; reflexivity|].
      split; [intro H; discriminate H|intros H; contradiction H; reflexivity].
    + rewrite serve_not_options by exact Hopt.
      destruct (String.eqb_spec m "CONNECT") as [->|Hc].
      * unfold DefaultServeMux. cbn [Path Method].
        change (String.eqb ("/names/" ++ slashes (S n)) "*") with false.
        change (String.eqb "CONNECT" "CONNECT") with true. cbn iota.
        rewrite route_item. unfold nameByIDHandler. cbn [Path].
        rewrite extractID_slashes.
        split; [reflexivity|]. split; [intro H; discriminate H|].
        split; [intros _; split; reflexivity|intros _ H; contradiction H; reflexivity].
      * rewrite mux_names_slashes by exact Hc.
        destruct (muxRedirect_names (mkRequest m ("/names/" ++ slashes (S n)) body))
          as (Hs & Hl & _).
        split; [reflexivity|]. split; [intro H; contradiction|].
        split; [intro H; contradiction|]. intros _ _. split; assumption.
Qed.

Lemma C9_empty_id_witness :
  MethodGet <> MethodOptions /\ MethodGet <> "CONNECT"
  /\ (let '(w, col') := serve sampleEnv (mkRequest MethodGet "/names/" "") oneAlice in
      status w = Some StatusNotFound
      /\ written w = JSON (Object [("error", Str "not found")])
      /\ col' = oneAlice)
  /\ (let '(w, col') := serve sampleEnv (mkRequest MethodGet "/names//" "") oneAlice in
      status w = Some StatusMovedPermanently
      /\ Get "Location" (Header w) = Some "/names/"
      /\ col' = oneAlice).
Proof.
  pose proof (C9_empty_id_404 sampleEnv MethodGet "" oneAlice) as (H1 & _ & H3).
  split; [discriminate|]. split; [discriminate|].
  split; [apply H1; discriminate|].
  specialize (H3 0). change ("/names/" ++ slashes 1) with "/names//" in H3.
  destruct (serve sampleEnv (mkRequest MethodGet "/names//" "") oneAlice) as [w col'].
  destruct H3 as (Hc & _ & _ & Hr).
  destruct Hr as [Hs Hl]; [discriminate|discriminate|].
  split; [exact Hs|]. split; [exact Hl|exact Hc].
Defined.

(** *** Create *)

(** An inserted document stands between two parts of the documents there
    were, which keep their order. *)
Lemma insert_at_split k d l :
  exists l1 l2, l = (l1 ++ l2)%list /\ Mongo.insert_at k d l = (l1 ++ d :: l2)%list.
Proof.
  exists (firstn k l), (skipn k l). split; [|reflexivity].
  symmetry. apply firstn_skipn.
Qed.

Lemma Forall_insert_at (P : Mongo.Doc -> Prop) k d l :
  Forall P l -> P d -> Forall P (Mongo.insert_at k d l).
Proof.
  intros Hl Hd.
  destruct (insert_at_split k d l) as (l1 & l2 & -> & ->).
  apply Forall_app in Hl. destruct Hl as [H1 H2].
  apply Forall_app. split; [exact H1|]. constructor; assumption.
Qed.

Lemma InsertOne_ok env n col id :
  fst (Mongo.InsertOne env n col) = Ok id ->
  id = Mongo.newID env
  /\ snd (Mongo.InsertOne env n col)
     = Mongo.mkCollection (Mongo.insert_at (Mongo.place env) (Mongo.mkDoc id n) (Mongo.docs col))
         (Mongo.calls col ++ [Mongo.InsertOneCall [("name", Bson.BString n)]])%list.
Proof.
  unfold Mongo.InsertOne. cbn [Mongo.log Mongo.docs Mongo.calls].
  destruct (Mongo.callErr env); [discriminate|].
  destruct (existsb _ _); [discriminate|].
  cbn. intro H. injection H as <-. split; reflexivity.
Qed.

(** Claim C4, as stated, fails: a body can be well-formed JSON with a name
    that is not empty and still not decode into a [Name].  Here the whole
    body is one JSON object with the name [x], but its "id" is not an
    ObjectID: the answer is 400, and nothing is inserted. *)
Lemma C4_ill_typed_body_counterexample :
  let body := dq "{'name':'x','id':'abc'}" in
  let r := mkRequest MethodPost "/names" body in
  read_value body
  = Ok (TopObject [("name", dq "'x'", Str "x"); ("id", dq "'abc'", Str "abc")], "")
  /\ status (fst (serve sampleEnv r emptyCollection)) = Some StatusBadRequest
  /\ written (fst (serve sampleEnv r emptyCollection))
     = JSON (Object [("error",
               Str ("invalid JSON: cannot unmarshal into an ObjectID, "
                    ++ "the length must be 24 but it is 3"))])
  /\ snd (serve sampleEnv r emptyCollection) = emptyCollection.
Proof. vm_compute. repeat split. Qed.

(** Claim C4, amended: Create answers 400 with a message, and makes no
    store call, when the body does not decode into a [Name] (malformed
    JSON, or well-formed JSON that does not fit the type) or the decoded
    name is empty once trimmed.  Otherwise it makes exactly one store call,
    the insert of a document with the trimmed name alone.  When the store
    accepts it, one document is added, with the trimmed name and an
    identifier no other document has, the other documents stay as they
    were, and the answer is 201 with that identifier and the trimmed name.
    When the store refuses, the answer is 500 with the store's message and
    the documents are unchanged. *)
Theorem C4_create_validates_then_inserts_once :
  forall env w path body col,
    status w = None ->
    let '(w', col') := namesHandler env w (mkRequest MethodPost path body) col in
    (forall e, Decode_Name body = Err e ->
       status w' = Some StatusBadRequest
       /\ written w' = JSON (Object [("error", Str ("invalid JSON: " ++ Error e))])
       /\ col' = col)
    /\ (forall p, Decode_Name body = Ok p -> Strings.TrimSpace (name p) = "" ->
          status w' = Some StatusBadRequest
          /\ written w' = JSON (Object [("error", Str "`name` is required")])
          /\ col' = col)
    /\ (forall p, Decode_Name body = Ok p ->
          let n := Strings.TrimSpace (name p) in
          n <> "" ->
          Mongo.calls col'
          = (Mongo.calls col ++ [Mongo.InsertOneCall [("name", Bson.BString n)]])%list
          /\ (forall id, fst (Mongo.InsertOne env n col) = Ok id ->
                status w' = Some StatusCreated
                /\ written w'
                   = JSON (Object [("id", Str (Primitive.Hex id)); ("name", Str n)])
                /\ id = Mongo.newID env
                /\ existsb (Mongo.has_id id) (Mongo.docs col) = false
                /\ exists l1 l2,
                     Mongo.docs col = (l1 ++ l2)%list
                     /\ Mongo.docs col' = (l1 ++ Mongo.mkDoc id n :: l2)%list)
          /\ (forall msg, fst (Mongo.InsertOne env n col) = Err msg ->
                status w' = Some StatusInternalServerError
                /\ written w' = JSON (Object [("error", Str msg)])
                /\ Mongo.docs col' = Mongo.docs col)).
Proof.
  intros env w path body col Hw.
  unfold namesHandler. cbn [Method Body ID name].
  change (String.eqb MethodPost MethodPost) with true. cbn iota.
  destruct (Decode_Name body) as [p|e].
  - destruct (String.eqb_spec (Strings.TrimSpace (name p)) "") as [Hn|Hn].
    + split; [intros e He; discriminate|].
      split; [|intros p' He Hn'; injection He as <-; cbv zeta in Hn'; congruence].
      intros p' _ _. split; [apply jsonWrite_status; exact Hw|]. split; reflexivity.
    + unfold Mongo.InsertOne, Mongo.log. cbn [Mongo.docs Mongo.calls].
      destruct (Mongo.callErr env) as [err|].
      * split; [intros e He; discriminate|].
        split; [intros p' He Hn'; injection He as <-; congruence|].
        intros p' He. injection He as <-. intros _.
        split; [reflexivity|]. split; [intros id Hid; discriminate|].
        intros msg Hmsg. cbn [fst] in Hmsg. injection Hmsg as <-.
        split; [apply jsonWrite_status; exact Hw|]. split; reflexivity.
      * destruct (existsb (Mongo.has_id (Mongo.newID env)) (Mongo.docs col)) eqn:Eid.
        -- split; [intros e He; discriminate|].
           split; [intros p' He Hn'; injection He as <-; congruence|].
           intros p' He. injection He as <-. intros _.
           split; [reflexivity|]. split; [intros id Hid; discriminate|].
           intros msg Hmsg. cbn [fst] in Hmsg. injection Hmsg as <-.
           split; [apply jsonWrite_status; exact Hw|]. split; reflexivity.
        -- split; [intros e He; discriminate|].
           split; [intros p' He Hn'; injection He as <-; congruence|].
           intros p' He. injection He as <-. intros _.
           split; [reflexivity|]. split; [|intros msg Hmsg; discriminate].
           intros id Hid. cbn [fst] in Hid. injection Hid as <-.
           split; [apply jsonWrite_status; exact Hw|].
           split; [reflexivity|]. split; [reflexivity|]. split; [exact Eid|].
           cbn [Mongo.docs]. apply insert_at_split.
  - split.
    + intros e' He. injection He as <-.
      split; [apply jsonWrite_status; exact Hw|]. split; reflexivity.
    + split; [intros p He; discriminate|intros p He; discriminate].
Qed.

Lemma C4_create_witness :
  status corsWriter = None
  /\ let '(w', col') := namesHandler sampleEnv corsWriter
                          (mkRequest MethodPost "/names" (dq "{'name':' Bob '}"))
                          emptyCollection in
     status w' = Some StatusCreated
     /\ written w' = JSON (Object [("id", Str sampleHex); ("name", Str "Bob")])
     /\ Mongo.calls col' = [Mongo.InsertOneCall [("name", Bson.BString "Bob")]]
     /\ exists l1 l2,
          Mongo.docs emptyCollection = (l1 ++ l2)%list
          /\ Mongo.docs col' = (l1 ++ Mongo.mkDoc sampleID "Bob" :: l2)%list.
Proof.
  split; [reflexivity|].
  pose proof (@C4_create_validates_then_inserts_once sampleEnv
                corsWriter "/names" (dq "{'name':' Bob '}") emptyCollection
                eq_refl) as H.
  destruct (namesHandler sampleEnv corsWriter
              (mkRequest MethodPost "/names" (dq "{'name':' Bob '}")) emptyCollection)
    as [w' col'].
  destruct H as (_ & _ & H).
  specialize (H (mkName Primitive.NilObjectID " Bob ") eq_refl).
  cbv zeta in H.
  destruct H as (Hc & Hok & _); [discriminate|].
  destruct (Hok sampleID eq_refl) as (H1 & H2 & _ & _ & H5).
  split; [exact H1|]. split; [exact H2|]. split; [exact Hc|exact H5].
Defined.

(** Claim C8, as stated, fails: a client-supplied "id" is decoded by
    [ObjectID.UnmarshalJSON], and one it rejects makes the request fail with
    400 and no insert, where the same body without "id" is answered 201. *)
Lemma C8_client_id_counterexample :
  let with_id := mkRequest MethodPost "/names" (dq "{'id':'abc','name':'x'}") in
  let without := mkRequest MethodPost "/names" (dq "{'name':'x'}") in
  status (fst (serve sampleEnv with_id emptyCollection)) = Some StatusBadRequest
  /\ Mongo.calls (snd (serve sampleEnv with_id emptyCollection)) = []
  /\ status (fst (serve sampleEnv without emptyCollection)) = Some StatusCreated.
Proof. cbn. repeat split. Qed.

Lemma hexDecode_all_hex n : forall s,
  String.length s = 2 * n ->
  (Primitive.hexDecode s = None <-> all_hex s = false).
Proof.
  induction n as [|n IH]; intros s Hlen.
  - destruct s; [|discriminate]. simpl. split; discriminate.
  - destruct s as [|a [|b s]]; try (simpl in Hlen; lia).
    assert (Hs : String.length s = 2 * n) by (simpl in Hlen; lia).
    specialize (IH s Hs). cbn [Primitive.hexDecode all_hex].
    destruct (Primitive.fromHexChar a); [|split; reflexivity].
    destruct (Primitive.fromHexChar b); [|split; reflexivity].
    destruct (Primitive.hexDecode s).
    + split; [discriminate|]. intro H. apply IH in H. discriminate.
    + split; [intros _; apply IH; reflexivity|reflexivity].
Qed.

(** [ObjectID.UnmarshalJSON] accepts exactly the ObjectIDs in JSON form,
    whatever the identifier held before. *)
Lemma UnmarshalJSON_accepts cur raw v :
  (exists o, ObjectID_UnmarshalJSON cur raw v = Ok o) <-> id_in_json_form raw v = true.
Proof.
  unfold ObjectID_UnmarshalJSON, id_in_json_form.
  destruct (String.eqb raw "null"); [split; [reflexivity|eexists; reflexivity]|].
  destruct (Nat.eqb (String.length raw) 12);
    [split; [reflexivity|eexists; reflexivity]|].
  cbn [orb].
  assert (G : forall s,
    (exists o,
       (if Nat.eqb (String.length s) 0 then Ok Primitive.NilObjectID
        else if negb (Nat.eqb (String.length s) 24)
             then Err (UnmarshalerError
                    ("cannot unmarshal into an ObjectID, the length must be 24 but it is "
                     ++ Itoa (String.length s)))
             else match Primitive.hexDecode s with
                  | Some b => Ok (Primitive.OID b)
                  | None => Err (UnmarshalerError (InvalidByteError s))
                  end) = Ok o)
    <-> Nat.eqb (String.length s) 0 || (Nat.eqb (String.length s) 24 && all_hex s) = true).
  { intro s. destruct (Nat.eqb (String.length s) 0);
      [split; [reflexivity|eexists; reflexivity]|].
    destruct (Nat.eqb_spec (String.length s) 24) as [H24|_]; cbn [negb orb andb].
    - pose proof (hexDecode_all_hex 12 s H24) as Hh.
      destruct (Primitive.hexDecode s).
      + split; [|eexists; reflexivity]. intros _.
        destruct (all_hex s); [reflexivity|]. destruct Hh as [_ Hh].
        discriminate (Hh eq_refl).
      + split; [intros [o Ho]; discriminate|].
        intro H. destruct Hh as [Hh _]. rewrite (Hh eq_refl) in H. discriminate.
    - split; [intros [o Ho]; discriminate|discriminate]. }
  destruct v as [|b|l|s|vs|m]; cbn [oid_text bind];
    try (split; [intros [o Ho]; discriminate|discriminate]).
  - apply G.
  - destruct (lookup_last "$oid" m) as [[|b|l|s|vs|m']|]; cbn [bind];
      try (split; [intros [o Ho]; discriminate|discriminate]).
    apply G.
Qed.

Lemma unmarshal_bad_id ms : forall p saved,
  existsb bad_id_member ms = true ->
  exists e, unmarshal_Name_members ms p saved = Err e.
Proof.
  induction ms as [|[[k raw] v] ms IH]; intros p saved H; [discriminate|].
  cbn [existsb bad_id_member] in H. cbn [unmarshal_Name_members].
  destruct (matches_field k "id").
  - pose proof (UnmarshalJSON_accepts (ID p) raw v) as Ha.
    destruct (ObjectID_UnmarshalJSON (ID p) raw v) as [o|e]; cbn [bind].
    + assert (Hacc : id_in_json_form raw v = true)
        by (apply Ha; eexists; reflexivity).
      rewrite Hacc in H. cbn in H. apply IH. exact H.
    + exists e. reflexivity.
  - cbn [andb orb] in H.
    destruct (matches_field k "name").
    + destruct (store_string "Name" "name" (name p) v). apply IH. exact H.
    + apply IH. exact H.
Qed.

(** Claim C8, amended: for every Create request whose body decodes, the
    decoded "id" is not used: two bodies that decode to the same name get the
    same answer and the same effect on the store, the inserted document has
    the name field only, and the id of the 201 response is the one the store
    assigned.  A client-supplied "id" is decoded all the same, by
    [ObjectID.UnmarshalJSON], which accepts exactly the ObjectIDs in JSON
    form ([null], a JSON text of twelve bytes, and the empty string or
    twenty-four hexadecimal digits, alone or under "$oid" in an object); a
    body whose object has an "id" member with any other value does not
    decode, and the request is answered 400 without a store call. *)
Theorem C8_decoded_id_not_used :
  forall env w path col,
    status w = None ->
    (forall b1 b2 p1 p2,
       Decode_Name b1 = Ok p1 -> Decode_Name b2 = Ok p2 ->
       name p1 = name p2 ->
       namesHandler env w (mkRequest MethodPost path b1) col
       = namesHandler env w (mkRequest MethodPost path b2) col
       /\ (let '(w', col') := namesHandler env w (mkRequest MethodPost path b1) col in
           status w' = Some StatusCreated ->
           written w' = JSON (Object [("id", Str (Primitive.Hex (Mongo.newID env)));
                                      ("name", Str (Strings.TrimSpace (name p1)))])
           /\ Mongo.calls col'
              = (Mongo.calls col
                 ++ [Mongo.InsertOneCall
                       [("name", Bson.BString (Strings.TrimSpace (name p1)))]])%list))
    /\ (forall cur raw v,
          (exists o, ObjectID_UnmarshalJSON cur raw v = Ok o)
          <-> id_in_json_form raw v = true)
    /\ (forall body ms rest,
          read_value body = Ok (TopObject ms, rest) ->
          existsb bad_id_member ms = true ->
          let '(w', col') := namesHandler env w (mkRequest MethodPost path body) col in
          exists e,
            Decode_Name body = Err e
            /\ status w' = Some StatusBadRequest
            /\ written w' = JSON (Object [("error", Str ("invalid JSON: " ++ Error e))])
            /\ col' = col).
Proof.
  intros env w path col Hw. split; [|split].
  - intros b1 b2 p1 p2 H1 H2 Hname.
    unfold namesHandler. cbn [Method Body ID name].
    change (String.eqb MethodPost MethodPost) with true. cbn iota.
    rewrite H1, H2, Hname. split; [reflexivity|].
    destruct (String.eqb (Strings.TrimSpace (name p2)) "").
    + unfold badRequest. rewrite jsonWrite_status by exact Hw. discriminate.
    + pose proof (@InsertOne_ok env (Strings.TrimSpace (name p2)) col) as Hins.
      destruct (Mongo.InsertOne env (Strings.TrimSpace (name p2)) col)
        as [[id|err] col1]; cbn [fst snd] in Hins.
      * destruct (Hins id eq_refl) as [-> ->]. intros _. split; reflexivity.
      * unfold internal. rewrite jsonWrite_status by exact Hw. discriminate.
  - intros cur raw v. apply UnmarshalJSON_accepts.
  - intros body ms rest Hread Hbad.
    destruct (unmarshal_bad_id ms zeroName None Hbad) as [e He].
    assert (Hdec : Decode_Name body = Err e).
    { unfold Decode_Name. rewrite Hread. cbn [bind unmarshal_Name]. exact He. }
    unfold namesHandler. cbn [Method Body].
    change (String.eqb MethodPost MethodPost) with true. cbn iota.
    rewrite Hdec. exists e.
    split; [reflexivity|]. split; [apply jsonWrite_status; exact Hw|].
    split; reflexivity.
Qed.

Lemma C8_decoded_id_not_used_witness :
  status corsWriter = None
  /\ Decode_Name (dq "{'id':'6162636465666768696a6b6c','name':'x'}")
     = Ok (mkName sampleID "x")
  /\ Decode_Name (dq "{'name':'x'}") = Ok (mkName Primitive.NilObjectID "x")
  /\ namesHandler sampleEnv corsWriter
       (mkRequest MethodPost "/names" (dq "{'id':'6162636465666768696a6b6c','name':'x'}"))
       emptyCollection
     = namesHandler sampleEnv corsWriter
         (mkRequest MethodPost "/names" (dq "{'name':'x'}")) emptyCollection
  /\ existsb bad_id_member [("id", dq "'abc'", Str "abc"); ("name", dq "'x'", Str "x")]
     = true
  /\ status (fst (namesHandler sampleEnv corsWriter
                    (mkRequest MethodPost "/names" (dq "{'id':'abc','name':'x'}"))
                    emptyCollection))
     = Some StatusBadRequest.
Proof.
  pose proof (C8_decoded_id_not_used sampleEnv corsWriter "/names" emptyCollection
                eq_refl) as (Hsame & _ & Hbad).
  split; [reflexivity|]. split; [reflexivity|]. split; [reflexivity|].
  split; [exact (proj1 (Hsame (dq "{'id':'6162636465666768696a6b6c','name':'x'}")
                          (dq "{'name':'x'}") _ _ eq_refl eq_refl eq_refl))|].
  split; [reflexivity|].
  specialize (Hbad (dq "{'id':'abc','name':'x'}")
                [("id", dq "'abc'", Str "abc"); ("name", dq "'x'", Str "x")] ""
                eq_refl eq_refl).
  destruct (namesHandler sampleEnv corsWriter
              (mkRequest MethodPost "/names" (dq "{'id':'abc','name':'x'}"))
              emptyCollection) as [w' col'].
  destruct Hbad as (e & _ & Hs & _). exact Hs.
Defined.

(** *** Replace-name *)

Lemma UpdateByID_calls env oid n col :
  Mongo.calls (snd (Mongo.UpdateByID env oid n col))
  = (Mongo.calls col
     ++ [Mongo.UpdateByIDCall oid [("$set", [("name", Bson.BString n)])]])%list.
Proof.
  unfold Mongo.UpdateByID. cbn [Mongo.log Mongo.docs Mongo.calls].
  destruct (Mongo.callErr env); [reflexivity|].
  destruct (existsb _ _); reflexivity.
Qed.

(** Claim C5: Replace-name validates in this order: the identifier (400
    "invalid id", whatever the body), then the body (400 "invalid JSON",
    whatever it would have held), then the trimmed name (400 when empty);
    the first check that fails decides the answer and the store is not
    called.  Only a request that passes all three reaches [UpdateByID]. *)
Theorem C5_replace_validation_order :
  forall env w r col idStr,
    status w = None ->
    Method r = MethodPut ->
    extractID (Path r) "/names/" = Ok idStr ->
    let '(w', col') := nameByIDHandler env w r col in
    (Primitive.ObjectIDFromHex idStr = None ->
       status w' = Some StatusBadRequest
       /\ written w' = JSON (Object [("error", Str "invalid id")])
       /\ col' = col)
    /\ (forall oid e,
          Primitive.ObjectIDFromHex idStr = Some oid ->
          Decode_payload (Body r) = Err e ->
          status w' = Some StatusBadRequest
          /\ written w' = JSON (Object [("error", Str ("invalid JSON: " ++ Error e))])
          /\ col' = col)
    /\ (forall oid p,
          Primitive.ObjectIDFromHex idStr = Some oid ->
          Decode_payload (Body r) = Ok p ->
          Strings.TrimSpace p = "" ->
          status w' = Some StatusBadRequest
          /\ written w' = JSON (Object [("error", Str "`name` is required")])
          /\ col' = col)
    /\ (forall oid p,
          Primitive.ObjectIDFromHex idStr = Some oid ->
          Decode_payload (Body r) = Ok p ->
          Strings.TrimSpace p <> "" ->
          Mongo.calls col'
          = (Mongo.calls col
             ++ [Mongo.UpdateByIDCall oid
                   [("$set", [("name", Bson.BString (Strings.TrimSpace p))])]])%list).
Proof.
  intros env w r col idStr Hw Hm Hid.
  unfold nameByIDHandler. rewrite Hid, Hm.
  change (String.eqb MethodPut MethodGet) with false.
  change (String.eqb MethodPut MethodPut) with true. cbn iota.
  destruct (Primitive.ObjectIDFromHex idStr) as [oid|].
  - destruct (Decode_payload (Body r)) as [p|e].
    + destruct (String.eqb_spec (Strings.TrimSpace p) "") as [Hn|Hn].
      * split; [discriminate|]. split; [intros; discriminate|].
        split; [|intros oid' p' _ Hp; injection Hp as <-; congruence].
        intros oid' p' _ _ _.
        split; [apply jsonWrite_status; exact Hw|split; reflexivity].
      * pose proof (UpdateByID_calls env oid (Strings.TrimSpace p) col) as Hc.
        destruct (Mongo.UpdateByID env oid (Strings.TrimSpace p) col)
          as [[[|k]|err] col1]; cbn [snd] in Hc;
          (split; [discriminate|]; split; [intros; discriminate|];
           split; [intros oid' p' _ Hp; injection Hp as <-; congruence|];
           intros oid' p' Ho Hp _; injection Ho as <-; injection Hp as <-; exact Hc).
    + split; [discriminate|].
      split; [|split; intros; discriminate].
      intros oid' e' _ He. injection He as <-.
      split; [apply jsonWrite_status; exact Hw|split; reflexivity].
  - split; [intros _; split; [apply jsonWrite_status; exact Hw|split; reflexivity]|].
    repeat split; intros; discriminate.
Qed.

Lemma C5_replace_validation_order_witness :
  status corsWriter = None
  /\ Method (mkRequest MethodPut "/names/zz" "{oops") = MethodPut
  /\ extractID "/names/zz" "/names/" = Ok "zz"
  /\ Primitive.ObjectIDFromHex "zz" = None
  /\ let '(w', col') := nameByIDHandler sampleEnv corsWriter
                          (mkRequest MethodPut "/names/zz" "{oops") oneAlice in
     status w' = Some StatusBadRequest
     /\ written w' = JSON (Object [("error", Str "invalid id")])
     /\ col' = oneAlice.
Proof.
  split; [reflexivity|]. split; [reflexivity|]. split; [reflexivity|].
  split; [reflexivity|].
  pose proof (@C5_replace_validation_order sampleEnv corsWriter
                (mkRequest MethodPut "/names/zz" "{oops") oneAlice "zz"
                eq_refl eq_refl eq_refl) as H.
  destruct (nameByIDHandler sampleEnv corsWriter
              (mkRequest MethodPut "/names/zz" "{oops") oneAlice) as [w' col'].
  exact (proj1 H eq_refl).
Defined.

(** *** Delete *)

Lemma ObjectID_eqb_eq a b : Primitive.ObjectID_eqb a b = true <-> a = b.
Proof.
  destruct a as [x], b as [y]. unfold Primitive.ObjectID_eqb. simpl.
  rewrite String.eqb_eq. split; [intros ->; reflexivity|intro H; injection H; auto].
Qed.

Lemma existsb_has_id oid l :
  existsb (Mongo.has_id oid) l = true <-> In oid (ids l).
Proof.
  induction l as [|d l IH]; simpl.
  - split; [discriminate|tauto].
  - rewrite orb_true_iff, IH. unfold Mongo.has_id at 1.
    rewrite ObjectID_eqb_eq. tauto.
Qed.

Lemma ids_remove_first_subset oid x l :
  In x (ids (Mongo.remove_first oid l)) -> In x (ids l).
Proof.
  induction l as [|d l IH]; simpl; [tauto|].
  destruct (Mongo.has_id oid d); simpl; tauto.
Qed.

Lemma remove_first_removes oid l :
  NoDup (ids l) -> ~ In oid (ids (Mongo.remove_first oid l)).
Proof.
  induction l as [|d l IH]; simpl; intros Hnd; [tauto|].
  inversion Hnd as [|? ? Hnotin Hnd']; subst.
  destruct (Mongo.has_id oid d) eqn:E.
  - apply ObjectID_eqb_eq in E. subst. exact Hnotin.
  - simpl. intros [Heq|Hin]; [|exact (IH Hnd' Hin)].
    subst. unfold Mongo.has_id in E.
    assert (Primitive.ObjectID_eqb (Mongo._id d) (Mongo._id d) = true)
      by (apply ObjectID_eqb_eq; reflexivity).
    congruence.
Qed.

Lemma remove_first_absent oid l :
  ~ In oid (ids l) -> Mongo.remove_first oid l = l.
Proof.
  induction l as [|d l IH]; simpl; intro H; [reflexivity|].
  destruct (Mongo.has_id oid d) eqn:E.
  - apply ObjectID_eqb_eq in E. tauto.
  - f_equal. apply IH. tauto.
Qed.

(** [DeleteOne] when the store call does not fail. *)
Lemma DeleteOne_healthy env oid col :
  Mongo.callErr env = None ->
  Mongo.DeleteOne env oid col
  = (Ok (if existsb (Mongo.has_id oid) (Mongo.docs col) then 1 else 0),
     Mongo.mkCollection (Mongo.remove_first oid (Mongo.docs col))
       (Mongo.calls col ++ [Mongo.DeleteOneCall (Mongo.id_filter oid)])%list).
Proof.
  intro H. unfold Mongo.DeleteOne. cbn [Mongo.log Mongo.docs Mongo.calls]. rewrite H.
  destruct (existsb (Mongo.has_id oid) (Mongo.docs col)) eqn:E; [reflexivity|].
  rewrite remove_first_absent; [reflexivity|].
  rewrite <- existsb_has_id. congruence.
Qed.

Lemma nameByIDHandler_delete env w r col idStr oid :
  Method r = MethodDelete ->
  extractID (Path r) "/names/" = Ok idStr ->
  Primitive.ObjectIDFromHex idStr = Some oid ->
  Mongo.callErr env = None ->
  nameByIDHandler env w r col
  = (if existsb (Mongo.has_id oid) (Mongo.docs col) then noContent w else notFound w,
     Mongo.mkCollection (Mongo.remove_first oid (Mongo.docs col))
       (Mongo.calls col ++ [Mongo.DeleteOneCall (Mongo.id_filter oid)])%list).
Proof.
  intros Hm Hid Hhex Henv. unfold nameByIDHandler.
  rewrite Hid, Hhex, Hm.
  change (String.eqb MethodDelete MethodGet) with false.
  change (String.eqb MethodDelete MethodPut) with false.
  change (String.eqb MethodDelete MethodDelete) with true. cbn iota.
  rewrite DeleteOne_healthy by exact Henv.
  destruct (existsb _ _); reflexivity.
Qed.

(** Claim C6: for a valid identifier, Delete answers 204 with an empty body
    when a document matches, and removes it, and 404 when none matches; so a
    second Delete of the same identifier, with no Create in between, is
    answered 404.  (The store call is taken not to fail, and identifiers are
    unique in the collection, as the store keeps them.) *)
Theorem C6_delete_then_delete_again :
  forall env1 env2 w r col idStr oid,
    status w = None -> written w = NoBody ->
    Method r = MethodDelete ->
    extractID (Path r) "/names/" = Ok idStr ->
    Primitive.ObjectIDFromHex idStr = Some oid ->
    Mongo.callErr env1 = None -> Mongo.callErr env2 = None ->
    NoDup (ids (Mongo.docs col)) ->
    let '(w1, col1) := nameByIDHandler env1 w r col in
    let '(w2, col2) := nameByIDHandler env2 w r col1 in
    (In oid (ids (Mongo.docs col)) ->
       status w1 = Some StatusNoContent
       /\ written w1 = NoBody
       /\ Mongo.docs col1 = Mongo.remove_first oid (Mongo.docs col)
       /\ ~ In oid (ids (Mongo.docs col1))
       /\ status w2 = Some StatusNotFound
       /\ written w2 = JSON (Object [("error", Str "not found")]))
    /\ (~ In oid (ids (Mongo.docs col)) ->
          status w1 = Some StatusNotFound
          /\ written w1 = JSON (Object [("error", Str "not found")])
          /\ Mongo.docs col1 = Mongo.docs col).
Proof.
  intros env1 env2 w r col idStr oid Hw Hb Hm Hid Hhex He1 He2 Hnd.
  rewrite (nameByIDHandler_delete env1 w r col idStr oid Hm Hid Hhex He1).
  rewrite (nameByIDHandler_delete env2 w r _ idStr oid Hm Hid Hhex He2).
  cbn [Mongo.docs Mongo.calls].
  pose proof (remove_first_removes oid _ Hnd) as Hgone.
  split.
  - intro Hin. apply existsb_has_id in Hin. rewrite Hin.
    assert (Hno : existsb (Mongo.has_id oid)
                    (Mongo.remove_first oid (Mongo.docs col)) = false).
    { destruct (existsb (Mongo.has_id oid)
                  (Mongo.remove_first oid (Mongo.docs col))) eqn:E; [|reflexivity].
      apply existsb_has_id in E. contradiction. }
    rewrite Hno.
    split; [unfold noContent, WriteHeader; rewrite Hw; reflexivity|].
    split; [unfold noContent, WriteHeader; rewrite Hw; exact Hb|].
    split; [reflexivity|]. split; [exact Hgone|].
    split; [apply jsonWrite_status; exact Hw|reflexivity].
  - intro Hout.
    assert (Hno : existsb (Mongo.has_id oid) (Mongo.docs col) = false).
    { destruct (existsb _ _) eqn:E; [|reflexivity].
      apply existsb_has_id in E. contradiction. }
    rewrite Hno.
    split; [apply jsonWrite_status; exact Hw|].
    split; [reflexivity|]. apply remove_first_absent. exact Hout.
Qed.

Lemma C6_delete_then_delete_again_witness :
  let r := mkRequest MethodDelete ("/names/" ++ sampleHex) "" in
  let '(w1, col1) := nameByIDHandler sampleEnv corsWriter r oneAlice in
  let '(w2, col2) := nameByIDHandler sampleEnv corsWriter r col1 in
  status w1 = Some StatusNoContent /\ written w1 = NoBody
  /\ Mongo.docs col1 = [] /\ status w2 = Some StatusNotFound.
Proof.
  pose proof (@C6_delete_then_delete_again sampleEnv sampleEnv corsWriter
                (mkRequest MethodDelete ("/names/" ++ sampleHex) "") oneAlice
                sampleHex sampleID
                eq_refl eq_refl eq_refl eq_refl eq_refl eq_refl eq_refl) as H.
  cbv zeta.
  destruct (nameByIDHandler sampleEnv corsWriter
              (mkRequest MethodDelete ("/names/" ++ sampleHex) "") oneAlice) as [w1 col1].
  destruct (nameByIDHandler sampleEnv corsWriter
              (mkRequest MethodDelete ("/names/" ++ sampleHex) "") col1) as [w2 col2].
  destruct H as [H _].
  - repeat constructor. simpl. tauto.
  - destruct H as (H1 & H2 & H3 & _ & H5 & _); [left; reflexivity|].
    repeat split; assumption.
Defined.

(** *** The decoder

    The parser works on the first value and leaves the rest: appending
    bytes to the input appends them to what is left over. *)

Lemma string_len_ind (P : string -> Prop) :
  (forall s, (forall s', String.length s' < String.length s -> P s') -> P s) ->
  forall s, P s.
Proof.
  intros H s.
  assert (G : forall n s', String.length s' < n -> P s').
  { induction n as [|n IH]; intros s' Hlt; [lia|].
    apply H. intros s'' Hlt'. apply IH. lia. }
  apply (G (S (String.length s))). lia.
Qed.

Lemma length_app (s t : string) :
  String.length (s ++ t) = String.length s + String.length t.
Proof. induction s; simpl; congruence. Qed.

Lemma bind_ok {A B} (m : res A) (k : A -> res B) b :
  bind m k = Ok b -> exists a, m = Ok a /\ k a = Ok b.
Proof. destruct m as [a|e]; simpl; [eauto|discriminate]. Qed.

Lemma skip_ws_len s : String.length (skip_ws s) <= String.length s.
Proof.
  induction s as [|c s IH]; simpl; [lia|].
  destruct (isSpace c); simpl; lia.
Qed.

Lemma skip_ws_app s c r t :
  skip_ws s = String c r -> skip_ws (s ++ t) = String c (r ++ t).
Proof.
  induction s as [|a s IH]; simpl; [discriminate|].
  destruct (isSpace a); [exact IH|].
  intro H. injection H as <- <-. reflexivity.
Qed.

Lemma scan_literal_ext : forall s x r t,
  scan_literal s = Ok (x, r) -> scan_literal (s ++ t) = Ok (x, r ++ t).
Proof.
  intro s. pattern s. apply string_len_ind. clear s.
  intros s IH x r t H.
  destruct s as [|c s1]; [discriminate|].
  cbn [scan_literal String.append] in *.
  destruct (Ascii.eqb c quote); [injection H as <- <-; reflexivity|].
  destruct (N.ltb (N_of_ascii c) 32); [discriminate|].
  destruct (Ascii.eqb c "\").
  - destruct s1 as [|e s2]; [discriminate|]. cbn [String.append].
    destruct (isEscape e).
    + apply bind_ok in H as [[t0 r0] [H0 H1]]. injection H1 as <- <-.
      rewrite (IH s2 ltac:(simpl; lia) _ _ t H0). reflexivity.
    + destruct (Ascii.eqb e "u"); [|discriminate].
      destruct s2 as [|h1 [|h2 [|h3 [|h4 s6]]]];
        try (cbn [all_hex] in H;
             repeat match type of H with
                    | context [match ?x with _ => _ end] => destruct x
                    end; discriminate).
      cbn [String.append].
      destruct (getu4 h1 h2 h3 h4); [|discriminate].
      apply bind_ok in H as [[t0 r0] [H0 H1]]. injection H1 as <- <-.
      rewrite (IH s6 ltac:(simpl; lia) _ _ t H0). reflexivity.
  - apply bind_ok in H as [[t0 r0] [H0 H1]]. injection H1 as <- <-.
    rewrite (IH s1 ltac:(simpl; lia) _ _ t H0). reflexivity.
Qed.

Lemma scan_literal_len : forall s x r,
  scan_literal s = Ok (x, r) -> String.length r < String.length s.
Proof.
  intro s. pattern s. apply string_len_ind. clear s.
  intros s IH x r H.
  destruct s as [|c s1]; [discriminate|].
  cbn [scan_literal] in H.
  destruct (Ascii.eqb c quote); [injection H as <- <-; simpl; lia|].
  destruct (N.ltb (N_of_ascii c) 32); [discriminate|].
  destruct (Ascii.eqb c "\").
  - destruct s1 as [|e s2]; [discriminate|].
    destruct (isEscape e).
    + apply bind_ok in H as [[t0 r0] [H0 H1]]. injection H1 as <- <-.
      pose proof (IH s2 ltac:(simpl; lia) _ _ H0). simpl. lia.
    + destruct (Ascii.eqb e "u"); [|discriminate].
      destruct s2 as [|h1 [|h2 [|h3 [|h4 s6]]]];
        try (cbn [all_hex] in H;
             repeat match type of H with
                    | context [match ?x with _ => _ end] => destruct x
                    end; discriminate).
      destruct (getu4 h1 h2 h3 h4); [|discriminate].
      apply bind_ok in H as [[t0 r0] [H0 H1]]. injection H1 as <- <-.
      pose proof (IH s6 ltac:(simpl; lia) _ _ H0). simpl. lia.
  - apply bind_ok in H as [[t0 r0] [H0 H1]]. injection H1 as <- <-.
    pose proof (IH s1 ltac:(simpl; lia) _ _ H0). simpl. lia.
Qed.

Lemma parse_string_ext s x r t :
  parse_string s = Ok (x, r) -> parse_string (s ++ t) = Ok (x, r ++ t).
Proof.
  unfold parse_string. intro H.
  apply bind_ok in H as [[t0 r0] [H0 H1]]. injection H1 as <- <-.
  rewrite (scan_literal_ext _ _ _ t H0). reflexivity.
Qed.

Lemma parse_string_len s x r :
  parse_string s = Ok (x, r) -> String.length r < String.length s.
Proof.
  unfold parse_string. intro H.
  apply bind_ok in H as [[t0 r0] [H0 H1]]. injection H1 as <- <-.
  exact (scan_literal_len _ _ _ H0).
Qed.

Lemma skip_digits_len s : String.length (skip_digits s) <= String.length s.
Proof.
  induction s as [|c s IH]; simpl; [lia|].
  destruct (isDigit c); simpl; lia.
Qed.

Lemma skip_digits_ext s c r t :
  skip_digits s = String c r -> skip_digits (s ++ t) = String c (r ++ t).
Proof.
  induction s as [|a s IH]; simpl; [discriminate|].
  destruct (isDigit a); [exact IH|].
  intro H. injection H as <- <-. reflexivity.
Qed.

Lemma digits1_len ctx s r : digits1 ctx s = Ok r -> String.length r < String.length s.
Proof.
  destruct s as [|c s]; simpl; [discriminate|].
  destruct (isDigit c); [|discriminate].
  intro H. injection H as <-. pose proof (skip_digits_len s). lia.
Qed.

Lemma digits1_ext ctx s c r t :
  digits1 ctx s = Ok (String c r) -> digits1 ctx (s ++ t) = Ok (String c (r ++ t)).
Proof.
  destruct s as [|a s]; simpl; [discriminate|].
  destruct (isDigit a); [|discriminate].
  intro H. injection H as H. rewrite (skip_digits_ext _ _ _ t H). reflexivity.
Qed.

Lemma scan_exp_len s r : scan_exp s = Ok r -> String.length r <= String.length s.
Proof.
  destruct s as [|c s]; simpl; [intro H; injection H as <-; simpl; lia|].
  destruct (Ascii.eqb c "e" || Ascii.eqb c "E").
  - destruct s as [|g s']; [discriminate|].
    destruct (Ascii.eqb g "+" || Ascii.eqb g "-"); intro H;
      apply digits1_len in H; simpl in *; lia.
  - intro H. injection H as <-. simpl. lia.
Qed.

Lemma scan_exp_ext s c r t :
  scan_exp s = Ok (String c r) -> scan_exp (s ++ t) = Ok (String c (r ++ t)).
Proof.
  destruct s as [|a s]; simpl; [discriminate|].
  destruct (Ascii.eqb a "e" || Ascii.eqb a "E").
  - destruct s as [|g s']; [discriminate|]. cbn [String.append].
    destruct (Ascii.eqb g "+" || Ascii.eqb g "-"); intro H.
    + exact (digits1_ext _ _ _ _ t H).
    + exact (digits1_ext _ (String g s') _ _ t H).
  - intro H. injection H as <- <-. reflexivity.
Qed.

Lemma scan_frac_len s r : scan_frac s = Ok r -> String.length r <= String.length s.
Proof.
  destruct s as [|c s]; simpl; [intro H; injection H as <-; simpl; lia|].
  destruct (Ascii.eqb c ".").
  - intro H. apply bind_ok in H as [r0 [H0 H1]].
    apply digits1_len in H0. apply scan_exp_len in H1. lia.
  - intro H. apply (scan_exp_len (String c s)) in H. simpl in H. lia.
Qed.

Lemma scan_frac_ext s c r t :
  scan_frac s = Ok (String c r) -> scan_frac (s ++ t) = Ok (String c (r ++ t)).
Proof.
  destruct s as [|a s]; simpl; [discriminate|].
  destruct (Ascii.eqb a ".").
  - intro H. apply bind_ok in H as [r0 [H0 H1]].
    destruct r0 as [|c0 r0]; [discriminate|].
    rewrite (digits1_ext _ _ _ _ t H0). simpl.
    exact (scan_exp_ext (String c0 r0) _ _ t H1).
  - intro H. exact (scan_exp_ext (String a s) _ _ t H).
Qed.

Lemma scan_int_len s r : scan_int s = Ok r -> String.length r < String.length s.
Proof.
  destruct s as [|c s]; simpl; [discriminate|].
  destruct (Ascii.eqb c "0").
  - intro H. apply scan_frac_len in H. lia.
  - destruct (isDigit c); [|discriminate].
    intro H. apply scan_frac_len in H. pose proof (skip_digits_len s). lia.
Qed.

Lemma scan_int_ext s c r t :
  scan_int s = Ok (String c r) -> scan_int (s ++ t) = Ok (String c (r ++ t)).
Proof.
  destruct s as [|a s]; simpl; [discriminate|].
  destruct (Ascii.eqb a "0").
  - destruct s as [|b s']; [discriminate|]. intro H.
    exact (scan_frac_ext (String b s') _ _ t H).
  - destruct (isDigit a); [|discriminate].
    destruct (skip_digits s) as [|b s'] eqn:E; [discriminate|].
    intro H. rewrite (skip_digits_ext _ _ _ t E).
    exact (scan_frac_ext (String b s') _ _ t H).
Qed.

Lemma scan_number_len s r : scan_number s = Ok r -> String.length r < String.length s.
Proof.
  destruct s as [|c s]; [discriminate|]. unfold scan_number.
  destruct (Ascii.eqb c "-"); intro H; apply scan_int_len in H; simpl in *; lia.
Qed.

Lemma scan_number_ext s c r t :
  scan_number s = Ok (String c r) -> scan_number (s ++ t) = Ok (String c (r ++ t)).
Proof.
  destruct s as [|a s]; [discriminate|]. unfold scan_number.
  cbn [String.append].
  destruct (Ascii.eqb a "-"); intro H.
  - exact (scan_int_ext _ _ _ t H).
  - exact (scan_int_ext (String a s) _ _ t H).
Qed.

Lemma scan_word_len lit w : forall s r,
  scan_word lit w s = Ok r -> String.length r <= String.length s.
Proof.
  induction w as [|a w IH]; simpl; intros s r H.
  - injection H as <-. lia.
  - destruct s as [|c s]; [discriminate|].
    destruct (Ascii.eqb c a); [|discriminate].
    apply IH in H. simpl. lia.
Qed.

Lemma scan_word_ext lit w : forall s r t,
  scan_word lit w s = Ok r -> scan_word lit w (s ++ t) = Ok (r ++ t).
Proof.
  induction w as [|a w IH]; simpl; intros s r t H.
  - injection H as <-. reflexivity.
  - destruct s as [|c s]; [discriminate|]. simpl.
    destruct (Ascii.eqb c a); [|discriminate].
    exact (IH _ _ t H).
Qed.

Lemma span_app s r t :
  String.length r <= String.length s -> span (s ++ t) (r ++ t) = span s r.
Proof.
  intro H. unfold span. rewrite !length_app.
  replace (String.length s + String.length t - (String.length r + String.length t))
    with (String.length s - String.length r) by lia.
  assert (G : forall n u, n <= String.length u -> Strings.take n (u ++ t) = Strings.take n u).
  { induction n as [|n IH]; intros u Hu; [reflexivity|].
    destruct u as [|c u]; simpl in *; [lia|]. f_equal. apply IH. lia. }
  apply G. lia.
Qed.

Lemma parse_len : forall f,
  (forall d s v r, parse_value f d s = Ok (v, r) -> String.length r < String.length s)
  /\ (forall d b s ms r, parse_members f d b s = Ok (ms, r) -> String.length r < String.length s)
  /\ (forall d b s vs r, parse_elements f d b s = Ok (vs, r) -> String.length r < String.length s).
Proof.
  induction f as [|f (IHv & IHm & IHe)]; [repeat split; intros; discriminate|].
  repeat split.
  - intros d s v r H. cbn [parse_value] in H.
    pose proof (skip_ws_len s) as Hws.
    destruct (skip_ws s) as [|c r0]; [discriminate|]. simpl in Hws.
    destruct (Ascii.eqb c "{").
    { destruct (N.ltb d maxNestingDepth); [|discriminate].
      apply bind_ok in H as [[ms rest] [Ha H]]. injection H as <- <-.
      apply IHm in Ha. lia. }
    destruct (Ascii.eqb c "[").
    { destruct (N.ltb d maxNestingDepth); [|discriminate].
      apply bind_ok in H as [[vs rest] [Ha H]]. injection H as <- <-.
      apply IHe in Ha. lia. }
    destruct (Ascii.eqb c quote).
    { apply bind_ok in H as [[x rest] [Ha H]]. injection H as <- <-.
      apply parse_string_len in Ha. lia. }
    destruct (Ascii.eqb c "-" || isDigit c).
    { apply bind_ok in H as [rest [Ha H]]. injection H as <- <-.
      apply scan_number_len in Ha. simpl in Ha. lia. }
    destruct (Ascii.eqb c "t").
    { apply bind_ok in H as [rest [Ha H]]. injection H as <- <-.
      apply scan_word_len in Ha. lia. }
    destruct (Ascii.eqb c "f").
    { apply bind_ok in H as [rest [Ha H]]. injection H as <- <-.
      apply scan_word_len in Ha. lia. }
    destruct (Ascii.eqb c "n"); [|discriminate].
    apply bind_ok in H as [rest [Ha H]]. injection H as <- <-.
    apply scan_word_len in Ha. lia.
  - intros d b s ms r H. cbn [parse_members] in H.
    pose proof (skip_ws_len s) as Hws.
    destruct (skip_ws s) as [|c r0]; [discriminate|]. simpl in Hws.
    destruct (b && Ascii.eqb c "}"); [injection H as <- <-; lia|].
    destruct (Ascii.eqb c quote); [|discriminate].
    apply bind_ok in H as [[k r1] [Hk H]]. apply parse_string_len in Hk.
    pose proof (skip_ws_len r1) as Hws1.
    destruct (skip_ws r1) as [|c1 r2]; [discriminate|]. simpl in Hws1.
    destruct (Ascii.eqb c1 ":"); [|discriminate].
    apply bind_ok in H as [[v r4] [Hv H]]. apply IHv in Hv.
    pose proof (skip_ws_len r2) as Hws2.
    pose proof (skip_ws_len r4) as Hws4.
    destruct (skip_ws r4) as [|c2 r5]; [discriminate|]. simpl in Hws4.
    destruct (Ascii.eqb c2 ",").
    { apply bind_ok in H as [[ms' rest] [Hm H]]. injection H as <- <-.
      apply IHm in Hm. lia. }
    destruct (Ascii.eqb c2 "}"); [|discriminate].
    injection H as <- <-. lia.
  - intros d b s vs r H. cbn [parse_elements] in H.
    pose proof (skip_ws_len s) as Hws.
    destruct (skip_ws s) as [|c r0] eqn:Es; [discriminate|]. simpl in Hws.
    destruct (b && Ascii.eqb c "]"); [injection H as <- <-; lia|].
    apply bind_ok in H as [[v r1] [Hv H]]. apply IHv in Hv. simpl in Hv.
    pose proof (skip_ws_len r1) as Hws1.
    destruct (skip_ws r1) as [|c1 r2]; [discriminate|]. simpl in Hws1.
    destruct (Ascii.eqb c1 ",").
    { apply bind_ok in H as [[vs' rest] [Hm H]]. injection H as <- <-.
      apply IHe in Hm. lia. }
    destruct (Ascii.eqb c1 "]"); [|discriminate].
    injection H as <- <-. lia.
Qed.

Lemma parse_ext : forall f,
  (forall d s v r t, parse_value f d s = Ok (v, r) -> r <> "" ->
                     parse_value f d (s ++ t) = Ok (v, r ++ t))
  /\ (forall d b s ms r t, parse_members f d b s = Ok (ms, r) ->
                           parse_members f d b (s ++ t) = Ok (ms, r ++ t))
  /\ (forall d b s vs r t, parse_elements f d b s = Ok (vs, r) ->
                           parse_elements f d b (s ++ t) = Ok (vs, r ++ t)).
Proof.
  induction f as [|f (IHv & IHm & IHe)]; [repeat split; intros; discriminate|].
  destruct (parse_len f) as (Lv & _ & _).
  repeat split.
  - intros d s v r t H Hr. cbn [parse_value] in *.
    destruct (skip_ws s) as [|c r0] eqn:Es; [discriminate|].
    rewrite (skip_ws_app _ _ _ t Es).
    destruct (Ascii.eqb c "{").
    { destruct (N.ltb d maxNestingDepth); [|discriminate].
      apply bind_ok in H as [[ms rest] [Ha H]]. injection H as <- <-.
      rewrite (IHm _ _ _ _ _ t Ha). reflexivity. }
    destruct (Ascii.eqb c "[").
    { destruct (N.ltb d maxNestingDepth); [|discriminate].
      apply bind_ok in H as [[vs rest] [Ha H]]. injection H as <- <-.
      rewrite (IHe _ _ _ _ _ t Ha). reflexivity. }
    destruct (Ascii.eqb c quote).
    { apply bind_ok in H as [[x rest] [Ha H]]. injection H as <- <-.
      rewrite (parse_string_ext _ _ _ t Ha). reflexivity. }
    destruct (Ascii.eqb c "-" || isDigit c).
    { apply bind_ok in H as [rest [Ha H]]. injection H as <- <-.
      destruct rest as [|c' r']; [congruence|].
      change (String c (r0 ++ t)) with (String c r0 ++ t).
      rewrite (scan_number_ext _ _ _ t Ha). cbn [bind].
      change (String c' (r' ++ t)) with (String c' r' ++ t).
      rewrite span_app; [reflexivity|].
      apply scan_number_len in Ha. lia. }
    destruct (Ascii.eqb c "t").
    { apply bind_ok in H as [rest [Ha H]]. injection H as <- <-.
      rewrite (scan_word_ext _ _ _ _ t Ha). reflexivity. }
    destruct (Ascii.eqb c "f").
    { apply bind_ok in H as [rest [Ha H]]. injection H as <- <-.
      rewrite (scan_word_ext _ _ _ _ t Ha). reflexivity. }
    destruct (Ascii.eqb c "n"); [|discriminate].
    apply bind_ok in H as [rest [Ha H]]. injection H as <- <-.
    rewrite (scan_word_ext _ _ _ _ t Ha). reflexivity.
  - intros d b s ms r t H. cbn [parse_members] in *.
    destruct (skip_ws s) as [|c r0] eqn:Es; [discriminate|].
    rewrite (skip_ws_app _ _ _ t Es).
    destruct (b && Ascii.eqb c "}"); [injection H as <- <-; reflexivity|].
    destruct (Ascii.eqb c quote); [|discriminate].
    apply bind_ok in H as [[k r1] [Hk H]].
    rewrite (parse_string_ext _ _ _ t Hk). cbn [bind].
    destruct (skip_ws r1) as [|c1 r2] eqn:E1; [discriminate|].
    rewrite (skip_ws_app _ _ _ t E1).
    destruct (Ascii.eqb c1 ":"); [|discriminate].
    apply bind_ok in H as [[v r4] [Hv H]].
    pose proof (Lv _ _ _ _ Hv) as Hlen.
    destruct (skip_ws r2) as [|c3 r3] eqn:E2; [simpl in Hlen; lia|].
    rewrite (skip_ws_app _ _ _ t E2).
    destruct (skip_ws r4) as [|c2 r5] eqn:E4; [discriminate|].
    assert (Hr4 : r4 <> "") by (intros ->; discriminate).
    change (String c3 (r3 ++ t)) with (String c3 r3 ++ t).
    rewrite (IHv _ _ _ _ t Hv Hr4). cbn [bind].
    rewrite (skip_ws_app _ _ _ t E4).
    rewrite span_app by lia.
    destruct (Ascii.eqb c2 ",").
    { apply bind_ok in H as [[ms' rest] [Hm H]]. injection H as <- <-.
      rewrite (IHm _ _ _ _ _ t Hm). reflexivity. }
    destruct (Ascii.eqb c2 "}"); [|discriminate].
    injection H as <- <-. reflexivity.
  - intros d b s vs r t H. cbn [parse_elements] in *.
    destruct (skip_ws s) as [|c r0] eqn:Es; [discriminate|].
    rewrite (skip_ws_app _ _ _ t Es).
    destruct (b && Ascii.eqb c "]"); [injection H as <- <-; reflexivity|].
    apply bind_ok in H as [[v r1] [Hv H]].
    destruct (skip_ws r1) as [|c1 r2] eqn:E1; [discriminate|].
    assert (Hr1 : r1 <> "") by (intros ->; discriminate).
    change (String c (r0 ++ t)) with (String c r0 ++ t).
    rewrite (IHv _ _ _ _ t Hv Hr1). cbn [bind].
    rewrite (skip_ws_app _ _ _ t E1).
    destruct (Ascii.eqb c1 ",").
    { apply bind_ok in H as [[vs' rest] [Hm H]]. injection H as <- <-.
      rewrite (IHe _ _ _ _ _ t Hm). reflexivity. }
    destruct (Ascii.eqb c1 "]"); [|discriminate].
    injection H as <- <-. reflexivity.
Qed.

(** More fuel does not change a result. *)
Lemma parse_mono : forall f,
  (forall f' d s x, f <= f' -> parse_value f d s = Ok x -> parse_value f' d s = Ok x)
  /\ (forall f' d b s x, f <= f' ->
        parse_members f d b s = Ok x -> parse_members f' d b s = Ok x)
  /\ (forall f' d b s x, f <= f' ->
        parse_elements f d b s = Ok x -> parse_elements f' d b s = Ok x).
Proof.
  induction f as [|f (IHv & IHm & IHe)]; [repeat split; intros; discriminate|].
  repeat split.
  - intros [|f'] d s x Hle H; [lia|]. assert (Hf : f <= f') by lia.
    cbn [parse_value] in *.
    destruct (skip_ws s) as [|c r0]; [discriminate|].
    destruct (Ascii.eqb c "{").
    { destruct (N.ltb d maxNestingDepth); [|discriminate].
      apply bind_ok in H as [[ms rest] [Ha H]].
      rewrite (IHm _ _ _ _ _ Hf Ha). exact H. }
    destruct (Ascii.eqb c "[").
    { destruct (N.ltb d maxNestingDepth); [|discriminate].
      apply bind_ok in H as [[vs rest] [Ha H]].
      rewrite (IHe _ _ _ _ _ Hf Ha). exact H. }
    exact H.
  - intros [|f'] d b s x Hle H; [lia|]. assert (Hf : f <= f') by lia.
    cbn [parse_members] in *.
    destruct (skip_ws s) as [|c r0]; [discriminate|].
    destruct (b && Ascii.eqb c "}"); [exact H|].
    destruct (Ascii.eqb c quote); [|discriminate].
    apply bind_ok in H as [[k r1] [Hk H]]. rewrite Hk. cbn [bind].
    destruct (skip_ws r1) as [|c1 r2]; [discriminate|].
    destruct (Ascii.eqb c1 ":"); [|discriminate].
    apply bind_ok in H as [[v r4] [Hv H]].
    rewrite (IHv _ _ _ _ Hf Hv). cbn [bind].
    destruct (skip_ws r4) as [|c2 r5]; [discriminate|].
    destruct (Ascii.eqb c2 ","); [|exact H].
    apply bind_ok in H as [[ms' rest] [Hm H]].
    rewrite (IHm _ _ _ _ _ Hf Hm). exact H.
  - intros [|f'] d b s x Hle H; [lia|]. assert (Hf : f <= f') by lia.
    cbn [parse_elements] in *.
    destruct (skip_ws s) as [|c r0]; [discriminate|].
    destruct (b && Ascii.eqb c "]"); [exact H|].
    apply bind_ok in H as [[v r1] [Hv H]].
    rewrite (IHv _ _ _ _ Hf Hv). cbn [bind].
    destruct (skip_ws r1) as [|c1 r2]; [discriminate|].
    destruct (Ascii.eqb c1 ","); [|exact H].
    apply bind_ok in H as [[vs' rest] [Hm H]].
    rewrite (IHe _ _ _ _ _ Hf Hm). exact H.
Qed.

(** What [Decode] reads from a body is what it reads from the body with
    more bytes after its first value, when that value is an object. *)
Lemma read_value_object_ext body ms rest t :
  read_value body = Ok (TopObject ms, rest) ->
  read_value (body ++ t) = Ok (TopObject ms, rest ++ t).
Proof.
  unfold read_value. intro H.
  destruct (skip_ws body) as [|c r] eqn:Es; [discriminate|].
  rewrite (skip_ws_app _ _ _ t Es).
  destruct (Ascii.eqb c "{").
  - apply bind_ok in H as [[ms' rest'] [Ha H]]. injection H as <- <-.
    destruct (parse_mono (fuel_for r)) as (_ & Mm & _).
    destruct (parse_ext (fuel_for (r ++ t))) as (_ & Em & _).
    rewrite (Em _ _ _ _ _ t (Mm (fuel_for (r ++ t)) _ _ _ _
                               ltac:(unfold fuel_for; rewrite length_app; lia) Ha)).
    reflexivity.
  - apply bind_ok in H as [[v rest'] [Ha H]]. discriminate.
Qed.

(** Members without a field of their own do not count. *)
Lemma unmarshal_Name_members_known ms : forall p saved,
  unmarshal_Name_members ms p saved
  = unmarshal_Name_members (filter known_Name ms) p saved.
Proof.
  induction ms as [|[[k raw] v] ms IH]; intros p saved; [reflexivity|].
  cbn [unmarshal_Name_members filter known_Name].
  destruct (matches_field k "id") eqn:Eid.
  - cbn [orb unmarshal_Name_members]. rewrite Eid.
    destruct (ObjectID_UnmarshalJSON (ID p) raw v); cbn [bind]; [apply IH|reflexivity].
  - destruct (matches_field k "name") eqn:En.
    + cbn [orb unmarshal_Name_members]. rewrite Eid, En.
      destruct (store_string "Name" "name" (name p) v). apply IH.
    + cbn [orb]. apply IH.
Qed.

Lemma unmarshal_payload_members_known ms : forall p saved,
  unmarshal_payload_members ms p saved
  = unmarshal_payload_members (filter known_payload ms) p saved.
Proof.
  induction ms as [|[[k raw] v] ms IH]; intros p saved; [reflexivity|].
  cbn [unmarshal_payload_members filter known_payload].
  destruct (matches_field k "name") eqn:En.
  - cbn [unmarshal_payload_members]. rewrite En.
    destruct (store_string "" "name" p v). apply IH.
  - apply IH.
Qed.

(** The fuel of [read_value] is enough: the parser never gives up for lack
    of it. *)

Lemma fueled_bind {A B} (m : res A) (k : A -> res B) :
  fueled m -> (forall a, m = Ok a -> fueled (k a)) -> fueled (bind m k).
Proof.
  unfold fueled. destruct m as [a|e]; simpl; intros Hm Hk; [apply Hk; reflexivity|].
  congruence.
Qed.

Lemma bad_hex_fueled A s : fueled (@Err error A (bad_hex s)).
Proof. unfold fueled, bad_hex. destruct (first_non_hex s); discriminate. Qed.

Lemma scan_literal_fueled : forall s, fueled (scan_literal s).
Proof.
  intro s. pattern s. apply string_len_ind. clear s. intros s IH.
  destruct s as [|c s1]; [discriminate|].
  cbn [scan_literal].
  destruct (Ascii.eqb c quote); [discriminate|].
  destruct (N.ltb (N_of_ascii c) 32); [discriminate|].
  destruct (Ascii.eqb c "\").
  - destruct s1 as [|e s2]; [discriminate|].
    destruct (isEscape e).
    + apply fueled_bind; [apply IH; simpl; lia|]. intros [t0 r0] _. discriminate.
    + destruct (Ascii.eqb e "u"); [|discriminate].
      destruct s2 as [|h1 [|h2 [|h3 [|h4 s6]]]];
        try (destruct (all_hex _); [discriminate|apply bad_hex_fueled]).
      destruct (getu4 h1 h2 h3 h4); [|apply bad_hex_fueled].
      apply fueled_bind; [apply IH; simpl; lia|]. intros [t0 r0] _. discriminate.
  - apply fueled_bind; [apply IH; simpl; lia|]. intros [t0 r0] _. discriminate.
Qed.

Lemma parse_string_fueled s : fueled (parse_string s).
Proof.
  unfold parse_string. apply fueled_bind; [apply scan_literal_fueled|].
  intros [t0 r0] _. discriminate.
Qed.

Lemma digits1_fueled ctx s : fueled (digits1 ctx s).
Proof. destruct s as [|c s]; simpl; [|destruct (isDigit c)]; discriminate. Qed.

Lemma scan_exp_fueled s : fueled (scan_exp s).
Proof.
  destruct s as [|c s]; simpl; [discriminate|].
  destruct (Ascii.eqb c "e" || Ascii.eqb c "E"); [|discriminate].
  destruct s as [|g s']; [discriminate|].
  destruct (Ascii.eqb g "+" || Ascii.eqb g "-"); apply digits1_fueled.
Qed.

Lemma scan_frac_fueled s : fueled (scan_frac s).
Proof.
  destruct s as [|c s]; [discriminate|]. unfold scan_frac.
  destruct (Ascii.eqb c "."); [|apply scan_exp_fueled].
  apply fueled_bind; [apply digits1_fueled|]. intros; apply scan_exp_fueled.
Qed.

Lemma scan_number_fueled s : fueled (scan_number s).
Proof.
  assert (G : forall u, fueled (scan_int u)).
  { intros [|c u]; [discriminate|]. unfold scan_int.
    destruct (Ascii.eqb c "0"); [apply scan_frac_fueled|].
    destruct (isDigit c); [apply scan_frac_fueled|discriminate]. }
  destruct s as [|c s]; [discriminate|]. unfold scan_number.
  destruct (Ascii.eqb c "-"); apply G.
Qed.

Lemma scan_word_fueled lit w : forall s, fueled (scan_word lit w s).
Proof.
  induction w as [|a w IH]; intros s; simpl; [discriminate|].
  destruct s as [|c s]; [discriminate|].
  destruct (Ascii.eqb c a); [apply IH|discriminate].
Qed.

Lemma parse_fuel : forall f,
  (forall d s, 2 * String.length s < f -> fueled (parse_value f d s))
  /\ (forall d b s, 2 * String.length s + 1 < f -> fueled (parse_members f d b s))
  /\ (forall d b s, 2 * String.length s + 1 < f -> fueled (parse_elements f d b s)).
Proof.
  induction f as [|f (IHv & IHm & IHe)]; [repeat split; intros; lia|].
  destruct (parse_len f) as (Lv & _ & _).
  repeat split.
  - intros d s Hlt. cbn [parse_value].
    pose proof (skip_ws_len s) as Hws.
    destruct (skip_ws s) as [|c r0]; [discriminate|]. simpl in Hws.
    destruct (Ascii.eqb c "{").
    { destruct (N.ltb d maxNestingDepth); [|discriminate].
      apply fueled_bind; [apply IHm; lia|]. intros [ms rest] _. discriminate. }
    destruct (Ascii.eqb c "[").
    { destruct (N.ltb d maxNestingDepth); [|discriminate].
      apply fueled_bind; [apply IHe; lia|]. intros [vs rest] _. discriminate. }
    destruct (Ascii.eqb c quote).
    { apply fueled_bind; [apply parse_string_fueled|]. intros [x rest] _. discriminate. }
    destruct (Ascii.eqb c "-" || isDigit c).
    { apply fueled_bind; [apply scan_number_fueled|]. intros; discriminate. }
    destruct (Ascii.eqb c "t").
    { apply fueled_bind; [apply scan_word_fueled|]. intros; discriminate. }
    destruct (Ascii.eqb c "f").
    { apply fueled_bind; [apply scan_word_fueled|]. intros; discriminate. }
    destruct (Ascii.eqb c "n"); [|discriminate].
    apply fueled_bind; [apply scan_word_fueled|]. intros; discriminate.
  - intros d b s Hlt. cbn [parse_members].
    pose proof (skip_ws_len s) as Hws.
    destruct (skip_ws s) as [|c r0]; [discriminate|]. simpl in Hws.
    destruct (b && Ascii.eqb c "}"); [discriminate|].
    destruct (Ascii.eqb c quote); [|discriminate].
    apply fueled_bind; [apply parse_string_fueled|].
    intros [k r1] Hk. apply parse_string_len in Hk.
    pose proof (skip_ws_len r1) as Hws1.
    destruct (skip_ws r1) as [|c1 r2]; [discriminate|]. simpl in Hws1.
    destruct (Ascii.eqb c1 ":"); [|discriminate].
    pose proof (skip_ws_len r2) as Hws2.
    apply fueled_bind; [apply IHv; lia|].
    intros [v r4] Hv. apply Lv in Hv.
    pose proof (skip_ws_len r4) as Hws4.
    destruct (skip_ws r4) as [|c2 r5]; [discriminate|]. simpl in Hws4.
    destruct (Ascii.eqb c2 ",").
    { apply fueled_bind; [apply IHm; lia|]. intros [ms rest] _. discriminate. }
    destruct (Ascii.eqb c2 "}"); discriminate.
  - intros d b s Hlt. cbn [parse_elements].
    pose proof (skip_ws_len s) as Hws.
    destruct (skip_ws s) as [|c r0]; [discriminate|]. simpl in Hws.
    destruct (b && Ascii.eqb c "]"); [discriminate|].
    apply fueled_bind; [apply IHv; simpl; lia|].
    intros [v r1] Hv. apply Lv in Hv. simpl in Hv.
    pose proof (skip_ws_len r1) as Hws1.
    destruct (skip_ws r1) as [|c1 r2]; [discriminate|]. simpl in Hws1.
    destruct (Ascii.eqb c1 ",").
    { apply fueled_bind; [apply IHe; lia|]. intros [vs rest] _. discriminate. }
    destruct (Ascii.eqb c1 "]"); discriminate.
Qed.

Lemma read_value_fuel body : fueled (read_value body).
Proof.
  unfold read_value.
  destruct (skip_ws body) as [|c r]; [discriminate|].
  destruct (parse_fuel (fuel_for r)) as (_ & Fm & _).
  destruct (parse_fuel (fuel_for (String c r))) as (Fv & _ & _).
  destruct (Ascii.eqb c "{").
  - apply fueled_bind; [apply Fm; unfold fuel_for; lia|].
    intros [ms rest] _. discriminate.
  - apply fueled_bind; [apply Fv; unfold fuel_for; lia|].
    intros [v rest] _. discriminate.
Qed.

Lemma Decode_Name_ext body ms rest t :
  read_value body = Ok (TopObject ms, rest) ->
  Decode_Name (body ++ t) = Decode_Name body.
Proof.
  intro H. unfold Decode_Name.
  rewrite (read_value_object_ext _ _ _ t H), H. reflexivity.
Qed.

Lemma Decode_payload_ext body ms rest t :
  read_value body = Ok (TopObject ms, rest) ->
  Decode_payload (body ++ t) = Decode_payload body.
Proof.
  intro H. unfold Decode_payload.
  rewrite (read_value_object_ext _ _ _ t H), H. reflexivity.
Qed.

(** Claim C10: body decoding for Create and Replace-name is lenient.  When
    the first value of the body is an object, the decoded payload is that of
    the members the payload has a field for, the others being skipped
    whatever they hold; and only that first value is read, so bytes after it
    change neither the decoded payload nor the answer of the handler. *)
Theorem C10_decoding_is_lenient :
  forall body ms rest,
    read_value body = Ok (TopObject ms, rest) ->
    Decode_Name body = unmarshal_Name_members (filter known_Name ms) zeroName None
    /\ Decode_payload body = unmarshal_payload_members (filter known_payload ms) "" None
    /\ (forall t,
          Decode_Name (body ++ t) = Decode_Name body
          /\ Decode_payload (body ++ t) = Decode_payload body
          /\ (forall env w path col,
                namesHandler env w (mkRequest MethodPost path (body ++ t)) col
                = namesHandler env w (mkRequest MethodPost path body) col
                /\ nameByIDHandler env w (mkRequest MethodPut path (body ++ t)) col
                   = nameByIDHandler env w (mkRequest MethodPut path body) col)).
Proof.
  intros body ms rest H.
  split; [unfold Decode_Name; rewrite H; cbn [bind unmarshal_Name];
          apply unmarshal_Name_members_known|].
  split; [unfold Decode_payload; rewrite H; cbn [bind unmarshal_payload];
          apply unmarshal_payload_members_known|].
  intro t.
  pose proof (Decode_Name_ext _ _ _ t H) as HN.
  pose proof (Decode_payload_ext _ _ _ t H) as HP.
  split; [exact HN|]. split; [exact HP|].
  intros env w path col. split.
  - unfold namesHandler. cbn [Method Body]. rewrite HN. reflexivity.
  - unfold nameByIDHandler. cbn [Method Body Path]. rewrite HP. reflexivity.
Qed.

Lemma C10_decoding_is_lenient_witness :
  let body := (dq "{'name':'Al','extra':[1,{'x':null}]}") in
  read_value body
  = Ok (TopObject [("name", (dq "'Al'"), Str "Al");
                   ("extra", (dq "[1,{'x':null}]"),
                    Array [Number "1"; Object [("x", Null)]])], "")
  /\ Decode_Name body = Ok (mkName Primitive.NilObjectID "Al")
  /\ Decode_Name (body ++ " } trailing") = Decode_Name body
  /\ status (fst (namesHandler sampleEnv corsWriter
                    (mkRequest MethodPost "/names" (body ++ " } trailing"))
                    emptyCollection)) = Some StatusCreated.
Proof.
  cbv zeta.
  pose proof (C10_decoding_is_lenient
                (dq "{'name':'Al','extra':[1,{'x':null}]}") _ _ eq_refl)
    as (H1 & _ & H3).
  split; [reflexivity|]. split; [exact H1|].
  destruct (H3 " } trailing") as (H4 & _ & H5).
  split; [exact H4|].
  rewrite (proj1 (H5 sampleEnv corsWriter "/names" emptyCollection)).
  reflexivity.
Defined.

(** *** Identifiers *)

(** What [ObjectIDFromHex] accepts: twenty-four hexadecimal digits. *)
Lemma hexDecode_none s :
  all_hex s = false -> Primitive.hexDecode s = None.
Proof.
  pattern s. apply string_len_ind. clear s. intros s IH H.
  destruct s as [|a [|b s']]; [discriminate|reflexivity|].
  cbn [Primitive.hexDecode]. cbn [all_hex] in H.
  destruct (Primitive.fromHexChar a); [|reflexivity].
  destruct (Primitive.fromHexChar b); [|reflexivity].
  rewrite (IH s' ltac:(simpl; lia) H). reflexivity.
Qed.

Lemma hexDecode_some s :
  all_hex s = true -> Nat.even (String.length s) = true ->
  exists b, Primitive.hexDecode s = Some b.
Proof.
  pattern s. apply string_len_ind. clear s. intros s IH H Hev.
  destruct s as [|a [|b s']]; [eexists; reflexivity|discriminate|].
  cbn [Primitive.hexDecode]. cbn [all_hex] in H.
  destruct (Primitive.fromHexChar a); [|discriminate].
  destruct (Primitive.fromHexChar b); [|discriminate].
  destruct (IH s' ltac:(simpl; lia) H Hev) as [r ->]. eexists; reflexivity.
Qed.

Lemma ObjectIDFromHex_none s :
  Primitive.ObjectIDFromHex s = None
  <-> String.length s <> 24 \/ all_hex s = false.
Proof.
  unfold Primitive.ObjectIDFromHex.
  destruct (Nat.eqb_spec (String.length s) 24) as [Hl|Hl]; cbn [negb].
  - destruct (all_hex s) eqn:Hh.
    + destruct (hexDecode_some s Hh) as [b ->]; [rewrite Hl; reflexivity|].
      split; [discriminate|intros [?|?]; [contradiction|discriminate]].
    + rewrite (hexDecode_none s Hh). tauto.
  - tauto.
Qed.

(** *** The collection keeps its identifiers unique *)

Lemma ids_set_name oid n l : ids (Mongo.set_name oid n l) = ids l.
Proof.
  induction l as [|d l IH]; [reflexivity|]. simpl.
  destruct (Mongo.has_id oid d); simpl; [reflexivity|]. f_equal. exact IH.
Qed.

Lemma NoDup_remove_first oid l : NoDup (ids l) -> NoDup (ids (Mongo.remove_first oid l)).
Proof.
  induction l as [|d l IH]; simpl; intro H; [exact H|].
  inversion H as [|? ? Hnotin Hnd]; subst.
  destruct (Mongo.has_id oid d); [exact Hnd|]. simpl. constructor.
  - intro Hin. apply Hnotin. exact (ids_remove_first_subset _ _ _ Hin).
  - exact (IH Hnd).
Qed.

Lemma NoDup_insert_at k oid n l :
  existsb (Mongo.has_id oid) l = false -> NoDup (ids l) ->
  NoDup (ids (Mongo.insert_at k (Mongo.mkDoc oid n) l)).
Proof.
  intros Hnew Hnd. assert (Hnotin : ~ In oid (ids l)).
  { rewrite <- existsb_has_id. congruence. }
  destruct (insert_at_split k (Mongo.mkDoc oid n) l) as (l1 & l2 & El & ->).
  subst l. unfold ids in *. rewrite map_app in *. cbn [map Mongo._id].
  apply NoDup_Add with (a := oid) (l := (map Mongo._id l1 ++ map Mongo._id l2)%list).
  - apply Add_app.
  - split; assumption.
Qed.

Lemma namesHandler_unique env w r col :
  NoDup (ids (Mongo.docs col)) ->
  NoDup (ids (Mongo.docs (snd (namesHandler env w r col)))).
Proof.
  intro H. unfold namesHandler, Mongo.InsertOne, Mongo.Find.
  cbn [Mongo.log Mongo.docs Mongo.calls].
  destruct (String.eqb (Method r) MethodPost).
  - destruct (Decode_Name (Body r)) as [p|e]; [|exact H]. cbn [name].
    destruct (String.eqb _ ""); [exact H|].
    destruct (Mongo.callErr env); [exact H|].
    destruct (existsb _ _) eqn:E; [exact H|].
    cbn [snd Mongo.docs]. apply NoDup_insert_at; assumption.
  - destruct (String.eqb (Method r) MethodGet); [|exact H].
    destruct (Mongo.callErr env); [exact H|].
    destruct (drain _ None); [|exact H].
    destruct (Mongo.final _); exact H.
Qed.

Lemma nameByIDHandler_unique env w r col :
  NoDup (ids (Mongo.docs col)) ->
  NoDup (ids (Mongo.docs (snd (nameByIDHandler env w r col)))).
Proof.
  intro H. unfold nameByIDHandler, Mongo.FindOne, Mongo.UpdateByID, Mongo.DeleteOne.
  cbn [Mongo.log Mongo.docs Mongo.calls].
  destruct (extractID (Path r) "/names/") as [idStr|e]; [|exact H].
  destruct (Primitive.ObjectIDFromHex idStr) as [oid|]; [|exact H].
  destruct (String.eqb (Method r) MethodGet).
  { destruct (Mongo.callErr env); [exact H|].
    destruct (find _ _); exact H. }
  destruct (String.eqb (Method r) MethodPut).
  { destruct (Decode_payload (Body r)) as [p|e]; [|exact H].
    destruct (String.eqb _ ""); [exact H|].
    destruct (Mongo.callErr env); [exact H|].
    destruct (existsb _ _); [|exact H].
    cbn [snd Mongo.docs]. rewrite ids_set_name. exact H. }
  destruct (String.eqb (Method r) MethodDelete); [|exact H].
  destruct (Mongo.callErr env); [exact H|].
  destruct (existsb _ _); [|exact H].
  cbn [snd Mongo.docs]. apply NoDup_remove_first. exact H.
Qed.

(** Every request leaves the identifiers of the collection unique. *)
Lemma serve_unique env r col :
  NoDup (ids (Mongo.docs col)) ->
  NoDup (ids (Mongo.docs (snd (serve env r col)))).
Proof.
  intro H. unfold serve, corsMiddleware, DefaultServeMux, route.
  destruct (String.eqb (Method r) MethodOptions); [exact H|].
  assert (G : NoDup (ids (Mongo.docs (snd
                (if String.eqb (Path r) "/health"
                 then (healthHandler corsWriter r, col)
                 else if String.eqb (Path r) "/names"
                      then namesHandler env corsWriter r col
                      else if Strings.HasPrefix (Path r) "/names/"
                           then nameByIDHandler env corsWriter r col
                           else (muxNotFound corsWriter, col)))))).
  { destruct (String.eqb (Path r) "/health"); [exact H|].
    destruct (String.eqb (Path r) "/names"); [apply namesHandler_unique; exact H|].
    destruct (Strings.HasPrefix (Path r) "/names/");
      [apply nameByIDHandler_unique; exact H|exact H]. }
  destruct (String.eqb (Path r) "*"); [exact H|].
  destruct (String.eqb (Method r) "CONNECT"); [exact G|].
  destruct (negb _); [exact H|exact G].
Qed.

(** *** The scenarios of the specification, run on the model *)

Example extractID_plain : extractID "/names/abc" "/names/" = Ok "abc".
Proof. reflexivity. Qed.

Example extractID_other_prefix : extractID "/health" "/names/" = Err "bad path".
Proof. reflexivity. Qed.

Example TrimSpace_alice : Strings.TrimSpace " Alice " = "Alice".
Proof. reflexivity. Qed.

Example ObjectIDFromHex_mixed_case :
  option_map Primitive.Hex (Primitive.ObjectIDFromHex "6162636465666768696A6B6C")
  = Some sampleHex.
Proof. reflexivity. Qed.

Example read_value_nested :
  read_value "[[[[[[[[1]]]]]]]] x"
  = Ok (TopValue (Array [Array [Array [Array [Array [Array [Array [Array
          [Number "1"]]]]]]]]), " x").
Proof. reflexivity. Qed.

Example Decode_Name_escapes :
  Decode_Name (dq "{'NAME':'Alé'}")
  = Ok (mkName Primitive.NilObjectID
          (String "A" (String "l" (utf8_2 195 169)))).
Proof. reflexivity. Qed.

Example scenario_crud :
  let '(w1, c1) := serve sampleEnv
                     (mkRequest "POST" "/names" (dq "{'name':' Alice '}")) emptyCollection in
  let '(w2, c2) := serve sampleEnv (mkRequest "GET" ("/names/" ++ sampleHex) "") c1 in
  let '(w3, c3) := serve sampleEnv
                     (mkRequest "PUT" ("/names/" ++ sampleHex) (dq "{'name':'Bob'}")) c2 in
  let '(w4, c4) := serve sampleEnv (mkRequest "DELETE" ("/names/" ++ sampleHex) "") c3 in
  let '(w5, c5) := serve sampleEnv (mkRequest "GET" ("/names/" ++ sampleHex) "") c4 in
  (status w1, written w1)
    = (Some 201, JSON (Object [("id", Str sampleHex); ("name", Str "Alice")]))
  /\ (status w2, written w2)
    = (Some 200, JSON (Object [("id", Str sampleHex); ("name", Str "Alice")]))
  /\ (status w3, written w3)
    = (Some 200, JSON (Object [("id", Str sampleHex); ("name", Str "Bob")]))
  /\ (status w4, written w4) = (Some 204, NoBody)
  /\ (status w5, written w5) = (Some 404, JSON (Object [("error", Str "not found")]))
  /\ Mongo.docs c5 = [].
Proof. cbn. repeat split. Qed.

Example scenario_empty_name :
  let w := fst (serve sampleEnv (mkRequest "POST" "/names" (dq "{'name':''}"))
                  emptyCollection) in
  (status w, written w) = (Some 400, JSON (Object [("error", Str "`name` is required")])).
Proof. reflexivity. Qed.

Example scenario_bad_id :
  let w := fst (serve sampleEnv (mkRequest "GET" "/names/not-an-id" "") emptyCollection) in
  (status w, written w) = (Some 400, JSON (Object [("error", Str "invalid id")])).
Proof. reflexivity. Qed.

Example scenario_bad_json :
  let answer body :=
    written (fst (serve sampleEnv (mkRequest "POST" "/names" body) emptyCollection)) in
  let invalid_json msg := JSON (Object [("error", Str ("invalid JSON: " ++ msg))]) in
  answer "{" = invalid_json "unexpected EOF"
  /\ answer "" = invalid_json "EOF"
  /\ answer "x" = invalid_json "invalid character 'x' looking for beginning of value"
  /\ answer (dq "{'name':tru}")
     = invalid_json "invalid character '}' in literal true (expecting 'e')"
  /\ answer (dq "{'name':1}")
     = invalid_json
         "json: cannot unmarshal number into Go struct field Name.name of type string"
  /\ answer "[]"
     = invalid_json "json: cannot unmarshal array into Go value of type main.Name"
  /\ answer (dq "{'id':'6162636465666768696a6b6g'}")
     = invalid_json "encoding/hex: invalid byte: U+0067 'g'".
Proof. vm_compute. repeat split. Qed.

Example scenario_bad_json_replace :
  let answer body :=
    written (fst (serve sampleEnv (mkRequest "PUT" ("/names/" ++ sampleHex) body)
                    oneAlice)) in
  let invalid_json msg := JSON (Object [("error", Str ("invalid JSON: " ++ msg))]) in
  answer (dq "{'name':[]}")
  = invalid_json "json: cannot unmarshal array into Go struct field .name of type string"
  /\ answer "7"
     = invalid_json ("json: cannot unmarshal number into Go value of type " ++ payload_type).
Proof. vm_compute. repeat split. Qed.

Example scenario_redirect :
  let w := fst (serve sampleEnv (mkRequest "GET" "/names//a b" "") oneAlice) in
  status w = Some 301
  /\ Get "Location" (Header w) = Some "/names/a%20b"
  /\ written w = Text (dq "<a href='/names/a%20b'>Moved Permanently</a>." ++ nl ++ nl).
Proof. vm_compute. repeat split. Qed.

Example scenario_asterisk :
  let w := fst (serve sampleEnv (mkRequest "GET" "*" "") oneAlice) in
  status w = Some 400 /\ written w = NoBody /\ Get "Connection" (Header w) = Some "close".
Proof. vm_compute. repeat split. Qed.

Example scenario_list_two :
  let col := Mongo.mkCollection
               [Mongo.mkDoc sampleID "Alice"; Mongo.mkDoc Primitive.NilObjectID "Bob"] [] in
  written (fst (serve sampleEnv (mkRequest "GET" "/names" "") col))
  = JSON (Array [Object [("id", Str sampleHex); ("name", Str "Alice")];
                 Object [("id", Str "000000000000000000000000"); ("name", Str "Bob")]]).
Proof. reflexivity. Qed.

(* ================================================================== *)
(** ** Further properties of the code *)

(** *** [extractID] *)

Lemma Split1_head_segment s :
  match Strings.Split1 s "/" with
  | h :: _ => segment h = true
  | [] => True
  end.
Proof.
  induction s as [|c s IH]; simpl; [reflexivity|].
  destruct (Ascii.eqb c "/") eqn:E; [reflexivity|].
  destruct (Strings.Split1 s "/"); simpl; rewrite E; [reflexivity|exact IH].
Qed.

(** Property X1: whatever the path, an identifier [extractID] returns is one path
    segment that is not empty, and the path starts with the prefix. *)
Theorem extractID_ok_is_segment :
  forall path prefix id,
    extractID path prefix = Ok id ->
    id <> "" /\ segment id = true /\ Strings.HasPrefix path prefix = true.
Proof.
  intros path prefix id. unfold extractID.
  destruct (Strings.HasPrefix path prefix); cbn [negb]; [|discriminate].
  pose proof (Split1_head_segment (Strings.Trim1 (Strings.TrimPrefix path prefix) "/")) as Hs.
  destruct (Strings.Split1 _ "/") as [|p0 ps]; [discriminate|].
  destruct (String.eqb_spec p0 ""); [discriminate|].
  intro H. injection H as <-. auto.
Qed.

Lemma extractID_ok_is_segment_witness :
  extractID "/names//abc/def/" "/names/" = Ok "abc"
  /\ "abc" <> "" /\ segment "abc" = true
  /\ Strings.HasPrefix "/names//abc/def/" "/names/" = true.
Proof.
  split; [reflexivity|].
  exact (extractID_ok_is_segment "/names//abc/def/" "/names/" "abc" eq_refl).
Defined.

Lemma TrimLeft1_slashes_app n s :
  Strings.TrimLeft1 (slashes n ++ s) "/" = Strings.TrimLeft1 s "/".
Proof. induction n as [|n IH]; simpl; auto. Qed.

(** Property X2: slashes before the identifier and anything from the next
    slash on are dropped, for any prefix. *)
Theorem extractID_takes_first_segment :
  forall prefix n id rest,
    id <> "" -> segment id = true ->
    rest = "" \/ (exists u, rest = String "/" u) ->
    extractID (prefix ++ slashes n ++ id ++ rest) prefix = Ok id.
Proof.
  intros prefix n id rest Hne Hseg Hrest. rewrite extractID_app.
  unfold Strings.Trim1. rewrite TrimLeft1_slashes_app.
  destruct id as [|c id']; [congruence|].
  pose proof Hseg as Hseg'. simpl in Hseg'. apply andb_prop in Hseg' as [Hc _].
  apply negb_true_iff in Hc.
  rewrite TrimLeft1_segment by exact Hc.
  rewrite TrimRight1_segment by (auto; discriminate).
  rewrite Split1_segment by exact Hseg.
  assert (Hhead : Strings.TrimRight1 rest "/" = ""
                  \/ exists u, Strings.TrimRight1 rest "/" = String "/" u).
  { destruct Hrest as [->|[u ->]]; [left; reflexivity|apply TrimRight1_slash_head]. }
  destruct Hhead as [->|[u ->]]; simpl; rewrite app_empty_r; reflexivity.
Qed.

Lemma extractID_takes_first_segment_witness :
  "abc" <> "" /\ segment "abc" = true
  /\ extractID ("/items/" ++ slashes 2 ++ "abc" ++ "/x/y") "/items/" = Ok "abc".
Proof.
  split; [discriminate|]. split; [reflexivity|].
  apply (extractID_takes_first_segment "/items/" 2 "abc" "/x/y");
    [discriminate|reflexivity|right; exists "x/y"; reflexivity].
Defined.

Lemma TrimLeft1_empty s :
  Strings.TrimLeft1 s "/" = "" -> exists n, s = slashes n.
Proof.
  induction s as [|c s IH]; simpl; [exists 0; reflexivity|].
  destruct (Ascii.eqb_spec c "/") as [->|]; [|discriminate].
  intro H. destruct (IH H) as [n ->]. exists (S n). reflexivity.
Qed.

Lemma TrimLeft1_head s c t :
  Strings.TrimLeft1 s "/" = String c t -> Ascii.eqb c "/" = false.
Proof.
  induction s as [|a s IH]; simpl; [discriminate|].
  destruct (Ascii.eqb a "/") eqn:E; [exact IH|].
  intro H. injection H as <- <-. exact E.
Qed.

Lemma Split1_head_nonempty c x :
  Ascii.eqb c "/" = false ->
  exists h l, Strings.Split1 (String c x) "/" = String c h :: l.
Proof.
  intro E. cbn [Strings.Split1]. rewrite E.
  destruct (Strings.Split1 x "/"); eauto.
Qed.

Lemma TrimRight1_head_nonempty c t :
  Ascii.eqb c "/" = false ->
  exists u, Strings.TrimRight1 (String c t) "/" = String c u.
Proof.
  intro E. cbn [Strings.TrimRight1].
  destruct (Strings.TrimRight1 t "/"); [rewrite E|]; eauto.
Qed.

(** Property X3: [extractID] reports a missing identifier exactly when
    nothing but slashes follows the prefix. *)
Theorem extractID_no_id_iff :
  forall prefix rest,
    extractID (prefix ++ rest) prefix = Err "no id" <-> exists n, rest = slashes n.
Proof.
  intros prefix rest. rewrite extractID_app. unfold Strings.Trim1. split.
  - destruct (Strings.TrimLeft1 rest "/") as [|c t] eqn:E;
      [intros _; exact (TrimLeft1_empty _ E)|].
    apply TrimLeft1_head in E.
    destruct (TrimRight1_head_nonempty c t E) as [u ->].
    destruct (Split1_head_nonempty c u E) as (h & l & ->).
    simpl. discriminate.
  - intros [n ->]. rewrite TrimLeft1_slashes. reflexivity.
Qed.

(** *** The shape of every answer *)

Lemma Get_set_same k v h : Get k (set_header k v h) = Some v.
Proof.
  induction h as [|[k' v'] h IH]; simpl.
  - rewrite String.eqb_refl. reflexivity.
  - destruct (String.eqb k' k) eqn:E; simpl; rewrite ?String.eqb_refl, ?E; auto.
Qed.

Lemma Get_set_other k k' v h : k <> k' -> Get k (set_header k' v h) = Get k h.
Proof.
  intro Hne. induction h as [|[k0 v0] h IH]; simpl.
  - rewrite (eqb_neq_false k' k) by congruence. reflexivity.
  - destruct (String.eqb_spec k0 k') as [->|]; simpl.
    + rewrite (eqb_neq_false k' k) by congruence. reflexivity.
    + destruct (String.eqb k0 k); [reflexivity|exact IH].
Qed.

Lemma namesHandler_answered env w r col :
  answered w (fst (namesHandler env w r col)).
Proof.
  unfold namesHandler, Mongo.InsertOne, Mongo.Find.
  cbn [Mongo.log Mongo.docs Mongo.calls].
  destruct (String.eqb (Method r) MethodPost).
  - destruct (Decode_Name (Body r)) as [p|e];
      [|apply (ans_error w StatusBadRequest); auto]. cbn [name].
    destruct (String.eqb _ ""); [apply (ans_error w StatusBadRequest); auto|].
    destruct (Mongo.callErr env); [apply (ans_error w StatusInternalServerError); auto|].
    destruct (existsb _ _); [apply (ans_error w StatusInternalServerError); auto|].
    apply (ans_success w StatusCreated). auto.
  - destruct (String.eqb (Method r) MethodGet); [|apply ans_not_allowed].
    destruct (Mongo.callErr env); [apply (ans_error w StatusInternalServerError); auto|].
    destruct (drain _ None); [|apply (ans_error w StatusInternalServerError); auto].
    destruct (Mongo.final _); [apply (ans_error w StatusInternalServerError); auto|].
    apply (ans_success w StatusOK). auto.
Qed.

Lemma nameByIDHandler_answered env w r col :
  answered w (fst (nameByIDHandler env w r col)).
Proof.
  unfold nameByIDHandler, Mongo.FindOne, Mongo.UpdateByID, Mongo.DeleteOne.
  cbn [Mongo.log Mongo.docs Mongo.calls].
  destruct (extractID (Path r) "/names/") as [idStr|e];
    [|apply (ans_error w StatusNotFound); auto].
  destruct (Primitive.ObjectIDFromHex idStr) as [oid|];
    [|apply (ans_error w StatusBadRequest); auto].
  destruct (String.eqb (Method r) MethodGet).
  { destruct (Mongo.callErr env); [apply (ans_error w StatusInternalServerError); auto|].
    destruct (find _ _); [apply (ans_success w StatusOK); auto|].
    apply (ans_error w StatusNotFound); auto. }
  destruct (String.eqb (Method r) MethodPut).
  { destruct (Decode_payload (Body r)) as [p|e];
      [|apply (ans_error w StatusBadRequest); auto].
    destruct (String.eqb _ ""); [apply (ans_error w StatusBadRequest); auto|].
    destruct (Mongo.callErr env); [apply (ans_error w StatusInternalServerError); auto|].
    destruct (existsb _ _); [apply (ans_success w StatusOK); auto|].
    apply (ans_error w StatusNotFound); auto. }
  destruct (String.eqb (Method r) MethodDelete); [|apply ans_not_allowed].
  destruct (Mongo.callErr env); [apply (ans_error w StatusInternalServerError); auto|].
  destruct (existsb _ _); [apply ans_no_content|].
  apply (ans_error w StatusNotFound); auto.
Qed.

Lemma serve_answered env r col :
  answered corsWriter (fst (serve env r col)).
Proof.
  unfold serve, corsMiddleware.
  destruct (String.eqb (Method r) MethodOptions); [apply ans_no_content|].
  change (answered corsWriter (fst (DefaultServeMux env corsWriter r col))).
  assert (G : answered corsWriter (fst (route env corsWriter r col))).
  { unfold route.
    destruct (String.eqb (Path r) "/health"); [apply (ans_success _ StatusOK); auto|].
    destruct (String.eqb (Path r) "/names"); [apply namesHandler_answered|].
    destruct (Strings.HasPrefix (Path r) "/names/");
      [apply nameByIDHandler_answered|apply ans_mux_not_found]. }
  unfold DefaultServeMux.
  destruct (String.eqb (Path r) "*"); [apply ans_mux_bad_request|].
  destruct (String.eqb (Method r) "CONNECT"); [exact G|].
  destruct (negb _); [apply ans_redirect|exact G].
Qed.

Lemma Header_WriteHeader code w : Header (WriteHeader code w) = Header w.
Proof. unfold WriteHeader. destruct (status w); reflexivity. Qed.

Lemma Header_json_answer w code j :
  Header (json_answer w code j) = set_header "Content-Type" "application/json" (Header w).
Proof.
  unfold json_answer, writeBody. cbn [Header]. rewrite !Header_WriteHeader. reflexivity.
Qed.

Lemma status_WriteHeader code w : status w = None -> status (WriteHeader code w) = Some code.
Proof. intro H. unfold WriteHeader. rewrite H. reflexivity. Qed.

Lemma status_json_answer w code j :
  status w = None -> status (json_answer w code j) = Some code.
Proof. intro H. unfold json_answer, writeBody, WriteHeader. simpl. rewrite H. reflexivity. Qed.

Lemma answered_keeps_header w w' k :
  answered w w' ->
  k <> "Content-Type" -> k <> "Allow" -> k <> "Location" ->
  k <> "X-Content-Type-Options" -> k <> "Connection" ->
  Get k (Header w') = Get k (Header w).
Proof.
  intros Ha H1 H2 H3 H4 H5. destruct Ha.
  - rewrite Header_json_answer. apply Get_set_other. exact H1.
  - rewrite Header_json_answer. apply Get_set_other. exact H1.
  - unfold methodNotAllowed.
    change (jsonWrite ?x ?c ?v) with (json_answer x c (Marshal v)).
    rewrite Header_json_answer, Get_set_other by exact H1.
    cbn [SetHeader Header]. apply Get_set_other. exact H2.
  - unfold noContent. rewrite Header_WriteHeader. reflexivity.
  - unfold muxNotFound, writeBody. cbn [Header]. rewrite !Header_WriteHeader.
    cbn [SetHeader Header]. rewrite !Get_set_other by assumption. reflexivity.
  - unfold muxBadRequest. rewrite Header_WriteHeader.
    cbn [SetHeader Header]. apply Get_set_other. exact H5.
  - unfold muxRedirect.
    destruct (negb _ && String.eqb (Method r) "GET");
      destruct (negb _ && (_ || _));
      unfold writeBody; cbn [Header]; rewrite ?Header_WriteHeader;
      cbn [SetHeader Header]; rewrite ?Get_set_other by assumption; reflexivity.
Qed.

(** Property X4: every response of the server, whatever the request, the
    state of the store and the outcome, carries the three cross-origin
    headers that [corsMiddleware] sets: no handler and no answer of the
    multiplexer replaces them. *)
Theorem cors_headers_on_every_response :
  forall env r col,
    let w := fst (serve env r col) in
    Get "Access-Control-Allow-Origin" (Header w) = Some "*"
    /\ Get "Access-Control-Allow-Headers" (Header w) = Some "Content-Type"
    /\ Get "Access-Control-Allow-Methods" (Header w) = Some "GET,POST,PUT,DELETE,OPTIONS".
Proof.
  intros env r col w. subst w.
  pose proof (serve_answered env r col) as Ha.
  repeat split;
    (rewrite (answered_keeps_header _ _ _ Ha) by discriminate; reflexivity).
Qed.

(** Property X5: the server answers every request with one of eight status
    codes: 200, 201, 204, 301, 400, 404, 405 or 500. *)
Theorem status_is_one_of_eight :
  forall env r col,
    exists code, status (fst (serve env r col)) = Some code /\ In code statuses.
Proof.
  intros env r col.
  destruct (serve_answered env r col) as
    [code j [->| ->]|code msg [->|[->| ->]]|allowed| | | |r' url].
  - exists StatusOK. split; [reflexivity|simpl; tauto].
  - exists StatusCreated. split; [reflexivity|simpl; tauto].
  - exists StatusBadRequest. split; [reflexivity|simpl; tauto].
  - exists StatusNotFound. split; [reflexivity|simpl; tauto].
  - exists StatusInternalServerError. split; [reflexivity|simpl; tauto].
  - exists StatusMethodNotAllowed. split; [reflexivity|simpl; tauto].
  - exists StatusNoContent. split; [reflexivity|simpl; tauto].
  - exists StatusNotFound. split; [reflexivity|simpl; tauto].
  - exists StatusBadRequest. split; [reflexivity|simpl; tauto].
  - exists StatusMovedPermanently. split; [|simpl; tauto].
    unfold muxRedirect. destruct (negb _ && String.eqb _ "GET");
      destruct (negb _ && (_ || _)); reflexivity.
Qed.

Lemma namesHandler_error_member env r col code :
  status (fst (namesHandler env corsWriter r col)) = Some code -> 400 <= code ->
  has_error_member (written (fst (namesHandler env corsWriter r col))) = true.
Proof.
  unfold namesHandler, Mongo.InsertOne, Mongo.Find.
  cbn [Mongo.log Mongo.docs Mongo.calls].
  destruct (String.eqb (Method r) MethodPost).
  - destruct (Decode_Name (Body r)) as [p|e]; [|error_leaf]. cbn [name].
    destruct (String.eqb _ ""); [error_leaf|].
    destruct (Mongo.callErr env); [error_leaf|].
    destruct (existsb _ _); error_leaf.
  - destruct (String.eqb (Method r) MethodGet); [|error_leaf].
    destruct (Mongo.callErr env); [error_leaf|].
    destruct (drain _ None); [|error_leaf].
    destruct (Mongo.final _); error_leaf.
Qed.

Lemma nameByIDHandler_error_member env r col code :
  status (fst (nameByIDHandler env corsWriter r col)) = Some code -> 400 <= code ->
  has_error_member (written (fst (nameByIDHandler env corsWriter r col))) = true.
Proof.
  unfold nameByIDHandler, Mongo.FindOne, Mongo.UpdateByID, Mongo.DeleteOne.
  cbn [Mongo.log Mongo.docs Mongo.calls].
  destruct (extractID (Path r) "/names/") as [idStr|e]; [|error_leaf].
  destruct (Primitive.ObjectIDFromHex idStr) as [oid|]; [|error_leaf].
  destruct (String.eqb (Method r) MethodGet).
  { destruct (Mongo.callErr env); [error_leaf|].
    destruct (find _ _); error_leaf. }
  destruct (String.eqb (Method r) MethodPut).
  { destruct (Decode_payload (Body r)) as [p|e]; [|error_leaf].
    destruct (String.eqb _ ""); [error_leaf|].
    destruct (Mongo.callErr env); [error_leaf|].
    destruct (existsb _ _); error_leaf. }
  destruct (String.eqb (Method r) MethodDelete); [|error_leaf].
  destruct (Mongo.callErr env); [error_leaf|].
  destruct (existsb _ _); error_leaf.
Qed.

Lemma muxRedirect_status w r u :
  status w = None -> status (muxRedirect w r u) = Some StatusMovedPermanently.
Proof.
  intro H0. unfold muxRedirect.
  destruct (negb _ && String.eqb _ "GET"); destruct (negb _ && (_ || _));
    unfold writeBody, WriteHeader, SetHeader; cbn [status]; rewrite ?H0; reflexivity.
Qed.

(** Property X6: a response with status 400 or above is a JSON object
    with an "error" member, except for two answers of the multiplexer,
    which no handler of the program writes: the empty 400 for the
    request-target [*], and the plain-text 404 for a path outside /health,
    /names and /names/.  So on the three routes, that is for every request
    whose path is /health, /names or starts with /names/, a response with
    status 400 or above always has the "error" member. *)
Theorem error_responses_have_error_member :
  forall env r col code,
    let w := fst (serve env r col) in
    status w = Some code -> 400 <= code ->
    (has_error_member (written w) = true
     \/ (Path r = "*" /\ code = StatusBadRequest /\ written w = NoBody)
     \/ (Path r <> "/health" /\ Path r <> "/names"
         /\ Strings.HasPrefix (Path r) "/names/" = false
         /\ code = StatusNotFound /\ written w = page_not_found))
    /\ (Path r = "/health" \/ Path r = "/names"
        \/ Strings.HasPrefix (Path r) "/names/" = true ->
        has_error_member (written w) = true).
Proof.
  intros env r col code w Hs Hge. subst w.
  revert Hs. unfold serve, corsMiddleware.
  destruct (String.eqb (Method r) MethodOptions).
  { cbn. intro H. injection H as <-. unfold StatusNoContent in Hge. lia. }
  change (SetHeader "Access-Control-Allow-Methods" "GET,POST,PUT,DELETE,OPTIONS"
            (SetHeader "Access-Control-Allow-Headers" "Content-Type"
               (SetHeader "Access-Control-Allow-Origin" "*" newResponseWriter)))
    with corsWriter.
  unfold DefaultServeMux.
  destruct (String.eqb_spec (Path r) "*") as [Estar|Nstar].
  { cbn. intro H. injection H as <-. split.
    - right. left. repeat split. exact Estar.
    - rewrite Estar. intros [H|[H|H]]; discriminate H. }
  assert (G : status (fst (route env corsWriter r col)) = Some code ->
              (has_error_member (written (fst (route env corsWriter r col))) = true
               \/ (Path r = "*" /\ code = StatusBadRequest
                   /\ written (fst (route env corsWriter r col)) = NoBody)
               \/ (Path r <> "/health" /\ Path r <> "/names"
                   /\ Strings.HasPrefix (Path r) "/names/" = false
                   /\ code = StatusNotFound
                   /\ written (fst (route env corsWriter r col)) = page_not_found))
              /\ (Path r = "/health" \/ Path r = "/names"
                  \/ Strings.HasPrefix (Path r) "/names/" = true ->
                  has_error_member (written (fst (route env corsWriter r col))) = true)).
  { unfold route.
    destruct (String.eqb_spec (Path r) "/health") as [E1|N1].
    { cbn. intro H. injection H as <-. unfold StatusOK in Hge. lia. }
    destruct (String.eqb_spec (Path r) "/names") as [E2|N2].
    { intro H. pose proof (namesHandler_error_member env r col code H Hge) as K.
      split; [left; exact K|intros _; exact K]. }
    destruct (Strings.HasPrefix (Path r) "/names/") eqn:E3.
    { intro H. pose proof (nameByIDHandler_error_member env r col code H Hge) as K.
      split; [left; exact K|intros _; exact K]. }
    cbn. intro H. injection H as <-. split.
    - right. right. repeat split; assumption.
    - intros [H|[H|H]]; [contradiction|contradiction|discriminate H]. }
  destruct (String.eqb (Method r) "CONNECT"); [exact G|].
  destruct (negb _); [|exact G].
  cbn [fst]. rewrite muxRedirect_status by reflexivity. intro H. injection H as <-.
  unfold StatusMovedPermanently in Hge. lia.
Qed.

Lemma error_responses_have_error_member_witness :
  status (fst (serve sampleEnv (mkRequest "GET" "/names/not-an-id" "") oneAlice)) = Some 400
  /\ 400 <= 400
  /\ has_error_member
       (written (fst (serve sampleEnv (mkRequest "GET" "/names/not-an-id" "") oneAlice)))
     = true.
Proof.
  split; [reflexivity|]. split; [lia|].
  apply (error_responses_have_error_member sampleEnv
           (mkRequest "GET" "/names/not-an-id" "") oneAlice 400); [reflexivity|lia|].
  right. right. reflexivity.
Defined.

(** Property X7: a response whose body is JSON has the header
    [Content-Type: application/json]. *)
Theorem json_body_has_json_content_type :
  forall env r col j,
    let w := fst (serve env r col) in
    written w = JSON j ->
    Get "Content-Type" (Header w) = Some "application/json".
Proof.
  intros env r col j w. subst w.
  destruct (serve_answered env r col) as
    [c j' Hc|c msg Hc|allowed| | | |r' url]; intro H.
  - rewrite Header_json_answer. apply Get_set_same.
  - rewrite Header_json_answer. apply Get_set_same.
  - unfold methodNotAllowed.
    change (jsonWrite ?x ?c ?v) with (json_answer x c (Marshal v)).
    rewrite Header_json_answer. apply Get_set_same.
  - discriminate H.
  - discriminate H.
  - discriminate H.
  - exfalso. revert H. unfold muxRedirect.
    destruct (negb _ && String.eqb _ "GET"); destruct (negb _ && (_ || _)); cbn;
      discriminate.
Qed.

Lemma json_body_has_json_content_type_witness :
  written (fst (serve sampleEnv (mkRequest "GET" "/names" "") oneAlice))
  = JSON (Array [Object [("id", Str sampleHex); ("name", Str "Alice")]])
  /\ Get "Content-Type" (Header (fst (serve sampleEnv (mkRequest "GET" "/names" "") oneAlice)))
     = Some "application/json".
Proof.
  split; [reflexivity|].
  exact (json_body_has_json_content_type sampleEnv (mkRequest "GET" "/names" "") oneAlice
           _ eq_refl).
Defined.

(** *** Routing *)

(** Property X8: an OPTIONS request is answered 204 without a body and
    without a store call whatever its path is, routed or not, and whatever
    the state of the store. *)
Theorem options_is_answered_before_routing :
  forall env path body col,
    let '(w, col') := serve env (mkRequest MethodOptions path body) col in
    status w = Some StatusNoContent /\ written w = NoBody
    /\ Get "Content-Type" (Header w) = None /\ col' = col.
Proof. intros env path body col. cbn. repeat split. Qed.

(** Property X9: /health is answered 200 with {"status":"ok"} for every
    method but OPTIONS; the handler does not look at the store, so the
    answer is the same when the store fails, and no call is made. *)
Theorem health_never_touches_the_store :
  forall env m body col,
    m <> MethodOptions ->
    let '(w, col') := serve env (mkRequest m "/health" body) col in
    status w = Some StatusOK
    /\ written w = JSON (Object [("status", Str "ok")])
    /\ col' = col.
Proof.
  intros env m body col Hm.
  rewrite serve_not_options by exact Hm.
  rewrite mux_canonical by reflexivity.
  cbn. repeat split.
Qed.

Lemma health_never_touches_the_store_witness :
  "DELETE" <> MethodOptions
  /\ let '(w, col') := serve (Mongo.mkEnv sampleID (Some "connection refused") None 0)
                         (mkRequest "DELETE" "/health" "") oneAlice in
     status w = Some StatusOK
     /\ written w = JSON (Object [("status", Str "ok")])
     /\ col' = oneAlice.
Proof.
  split; [discriminate|].
  apply (health_never_touches_the_store
           (Mongo.mkEnv sampleID (Some "connection refused") None 0) "DELETE" "" oneAlice).
  discriminate.
Defined.

(** Property X10: a request whose path is none of /health, /names and a
    path below /names/ reaches no handler: the multiplexer answers 404 with
    its plain text, and the store is not called.  (The path is in canonical
    form and the method is not OPTIONS.) *)
Theorem unrouted_path_is_plain_404 :
  forall env r col,
    Method r <> MethodOptions ->
    cleanPath (Path r) = Path r ->
    Path r <> "/health" -> Path r <> "/names" ->
    Strings.HasPrefix (Path r) "/names/" = false ->
    let '(w, col') := serve env r col in
    status w = Some StatusNotFound
    /\ written w = page_not_found
    /\ Get "Content-Type" (Header w) = Some "text/plain; charset=utf-8"
    /\ col' = col.
Proof.
  intros env r col Hm Hc Hh Hn Hp.
  rewrite serve_not_options by exact Hm.
  rewrite mux_canonical by exact Hc.
  unfold route.
  rewrite (eqb_neq_false _ _ Hh), (eqb_neq_false _ _ Hn), Hp.
  cbn. repeat split.
Qed.

Lemma unrouted_path_is_plain_404_witness :
  let r := mkRequest "GET" "/namesake" "" in
  Method r <> MethodOptions /\ cleanPath (Path r) = Path r
  /\ let '(w, col') := serve sampleEnv r oneAlice in
     status w = Some StatusNotFound
     /\ written w = page_not_found
     /\ Get "Content-Type" (Header w) = Some "text/plain; charset=utf-8"
     /\ col' = oneAlice.
Proof.
  cbv zeta. split; [discriminate|]. split; [reflexivity|].
  apply (unrouted_path_is_plain_404 sampleEnv (mkRequest "GET" "/namesake" "") oneAlice);
    [discriminate|reflexivity|discriminate|discriminate|reflexivity].
Defined.

(** Property X11: on an item path with a well-formed identifier, a method
    other than GET, PUT and DELETE is answered 405 with the header
    [Allow: GET, PUT, DELETE] and the three methods in the body; the store
    is not called. *)
Theorem item_other_method_405 :
  forall env w r col idStr oid,
    status w = None ->
    extractID (Path r) "/names/" = Ok idStr ->
    Primitive.ObjectIDFromHex idStr = Some oid ->
    Method r <> MethodGet -> Method r <> MethodPut -> Method r <> MethodDelete ->
    let '(w', col') := nameByIDHandler env w r col in
    status w' = Some StatusMethodNotAllowed
    /\ Get "Allow" (Header w') = Some "GET, PUT, DELETE"
    /\ written w' = JSON (Object [("allow", Array [Str "GET"; Str "PUT"; Str "DELETE"]);
                                  ("error", Str "method not allowed")])
    /\ col' = col.
Proof.
  intros env w r col idStr oid Hw Hid Hhex Hg Hp Hd.
  unfold nameByIDHandler. rewrite Hid, Hhex.
  rewrite (eqb_neq_false _ _ Hg), (eqb_neq_false _ _ Hp), (eqb_neq_false _ _ Hd).
  split; [apply jsonWrite_status; exact Hw|].
  split; [|split; reflexivity].
  unfold methodNotAllowed.
  change (jsonWrite ?x ?c ?v) with (json_answer x c (Marshal v)).
  rewrite Header_json_answer, Get_set_other by discriminate.
  cbn [SetHeader Header]. apply Get_set_same.
Qed.

Lemma item_other_method_405_witness :
  let r := mkRequest "PATCH" ("/names/" ++ sampleHex) "" in
  let '(w', col') := nameByIDHandler sampleEnv corsWriter r oneAlice in
  status w' = Some StatusMethodNotAllowed
  /\ Get "Allow" (Header w') = Some "GET, PUT, DELETE"
  /\ written w' = JSON (Object [("allow", Array [Str "GET"; Str "PUT"; Str "DELETE"]);
                                ("error", Str "method not allowed")])
  /\ col' = oneAlice.
Proof.
  apply (item_other_method_405 sampleEnv corsWriter
           (mkRequest "PATCH" ("/names/" ++ sampleHex) "") oneAlice sampleHex sampleID);
    try reflexivity; discriminate.
Defined.

(** *** Reading *)

Lemma jsonWrite_written_eq {A} `{Marshaler A} w code (v : A) :
  written (jsonWrite w code v) = JSON (Marshal v).
Proof. reflexivity. Qed.

Lemma find_has_id oid l :
  In oid (ids l) ->
  exists n, find (Mongo.has_id oid) l = Some (Mongo.mkDoc oid n)
            /\ In (Mongo.mkDoc oid n) l.
Proof.
  induction l as [|d l IH]; simpl; [tauto|].
  destruct (Mongo.has_id oid d) eqn:E.
  - intros _. apply ObjectID_eqb_eq in E. destruct d as [i n]. simpl in E. subst.
    exists n. auto.
  - intros [Heq|Hin].
    + exfalso. subst. unfold Mongo.has_id in E.
      assert (Primitive.ObjectID_eqb (Mongo._id d) (Mongo._id d) = true)
        by (apply ObjectID_eqb_eq; reflexivity).
      congruence.
    + destruct (IH Hin) as (n & Hf & Hi). exists n. auto.
Qed.

Lemma find_absent oid l : ~ In oid (ids l) -> find (Mongo.has_id oid) l = None.
Proof.
  intro H. destruct (find (Mongo.has_id oid) l) as [d|] eqn:E; [|reflexivity].
  apply find_some in E as [Hin Hd]. apply ObjectID_eqb_eq in Hd.
  exfalso. apply H. subst. apply in_map. exact Hin.
Qed.

(** Property X12: Read-one with a well-formed identifier and a store that
    answers makes one [FindOne] call and leaves the documents as they are;
    it answers 200 with the identifier and the stored name when a document
    has the identifier, and 404 "not found" when none has. *)
Theorem read_one_found_or_404 :
  forall env w r col idStr oid,
    status w = None ->
    Method r = MethodGet ->
    extractID (Path r) "/names/" = Ok idStr ->
    Primitive.ObjectIDFromHex idStr = Some oid ->
    Mongo.callErr env = None ->
    let '(w', col') := nameByIDHandler env w r col in
    Mongo.docs col' = Mongo.docs col
    /\ Mongo.calls col' = (Mongo.calls col ++ [Mongo.FindOneCall (Mongo.id_filter oid)])%list
    /\ (In oid (ids (Mongo.docs col)) ->
        exists n, In (Mongo.mkDoc oid n) (Mongo.docs col)
                  /\ status w' = Some StatusOK
                  /\ written w' = JSON (Object [("id", Str (Primitive.Hex oid));
                                                ("name", Str n)]))
    /\ (~ In oid (ids (Mongo.docs col)) ->
        status w' = Some StatusNotFound
        /\ written w' = JSON (Object [("error", Str "not found")])).
Proof.
  intros env w r col idStr oid Hw Hm Hid Hhex Henv.
  unfold nameByIDHandler, Mongo.FindOne. rewrite Hid, Hhex, Hm, Henv.
  change (String.eqb MethodGet MethodGet) with true.
  cbn [Mongo.log Mongo.docs Mongo.calls].
  destruct (find (Mongo.has_id oid) (Mongo.docs col)) as [d|] eqn:E.
  - split; [reflexivity|]. split; [reflexivity|]. split.
    + intro Hin. destruct (find_has_id oid _ Hin) as (n & Hf & Hi).
      rewrite E in Hf. injection Hf as ->. exists n.
      split; [exact Hi|]. split; [apply jsonWrite_status; exact Hw|reflexivity].
    + intro Hout. rewrite (find_absent _ _ Hout) in E. discriminate.
  - split; [reflexivity|]. split; [reflexivity|]. split.
    + intro Hin. destruct (find_has_id oid _ Hin) as (n & Hf & _). congruence.
    + intros _. split; [apply jsonWrite_status; exact Hw|reflexivity].
Qed.

Lemma read_one_found_or_404_witness :
  let r := mkRequest MethodGet ("/names/" ++ sampleHex) "" in
  let '(w', col') := nameByIDHandler sampleEnv corsWriter r oneAlice in
  Mongo.docs col' = Mongo.docs oneAlice
  /\ Mongo.calls col' = [Mongo.FindOneCall (Mongo.id_filter sampleID)]
  /\ status w' = Some StatusOK.
Proof.
  pose proof (read_one_found_or_404 sampleEnv corsWriter
                (mkRequest MethodGet ("/names/" ++ sampleHex) "") oneAlice
                sampleHex sampleID eq_refl eq_refl eq_refl eq_refl eq_refl) as H.
  cbv zeta.
  destruct (nameByIDHandler sampleEnv corsWriter
              (mkRequest MethodGet ("/names/" ++ sampleHex) "") oneAlice) as [w' col'].
  destruct H as (H1 & H2 & H3 & _).
  destruct H3 as (n & _ & H4 & _); [left; reflexivity|].
  repeat split; assumption.
Defined.

Lemma drain_some l : forall acc,
  drain (map (fun d => Ok (Mongo.toName d)) l) (Some acc)
  = Ok (Some (acc ++ map Mongo.toName l)%list).
Proof.
  induction l as [|d l IH]; intro acc; simpl.
  - rewrite List.app_nil_r. reflexivity.
  - rewrite IH, <- List.app_assoc. reflexivity.
Qed.

Lemma drain_all l :
  drain (map (fun d => Ok (Mongo.toName d)) l) None
  = Ok match l with
       | [] => None
       | _ => Some (map Mongo.toName l)
       end.
Proof. destruct l as [|d l]; [reflexivity|]. simpl. rewrite drain_some. reflexivity. Qed.

(** Property X13: List with a store that answers shows every document once,
    in the order of the store, as an array of records (and [null] for an
    empty collection); it makes one [Find] call and leaves the documents as
    they are. *)
Theorem list_shows_every_document_in_order :
  forall id w path body col,
    status w = None ->
    let '(w', col') := namesHandler (healthy id) w (mkRequest MethodGet path body) col in
    status w' = Some StatusOK
    /\ written w' = JSON (listing (Mongo.docs col))
    /\ Mongo.docs col' = Mongo.docs col
    /\ Mongo.calls col' = (Mongo.calls col ++ [Mongo.FindCall []])%list.
Proof.
  intros id w path body col Hw.
  unfold namesHandler, Mongo.Find. cbn [Method healthy Mongo.callErr Mongo.curFault].
  change (String.eqb MethodGet MethodPost) with false.
  change (String.eqb MethodGet MethodGet) with true.
  cbn [Mongo.log Mongo.docs Mongo.calls Mongo.items Mongo.final].
  rewrite drain_all.
  split; [apply jsonWrite_status; exact Hw|].
  split; [|split; reflexivity].
  unfold ok. rewrite jsonWrite_written_eq. f_equal.
  destruct (Mongo.docs col) as [|d l]; [reflexivity|].
  unfold listing, Marshal, Marshal_slice. rewrite map_map. reflexivity.
Qed.

Lemma list_shows_every_document_in_order_witness :
  let col := Mongo.mkCollection
               [Mongo.mkDoc sampleID "Alice"; Mongo.mkDoc Primitive.NilObjectID "Bob"] [] in
  let '(w', col') := namesHandler (healthy sampleID) corsWriter
                       (mkRequest MethodGet "/names" "") col in
  status w' = Some StatusOK
  /\ written w' = JSON (Array [Object [("id", Str sampleHex); ("name", Str "Alice")];
                               Object [("id", Str "000000000000000000000000");
                                       ("name", Str "Bob")]])
  /\ Mongo.docs col' = Mongo.docs col
  /\ Mongo.calls col' = [Mongo.FindCall []].
Proof.
  exact (list_shows_every_document_in_order sampleID corsWriter "/names" ""
           (Mongo.mkCollection
              [Mongo.mkDoc sampleID "Alice"; Mongo.mkDoc Primitive.NilObjectID "Bob"] [])
           eq_refl).
Defined.

Lemma drain_stops l msg : forall out,
  drain (map (fun d => Ok (Mongo.toName d)) l ++ [Err msg]) out = Err msg.
Proof. induction l as [|d l IH]; intro out; simpl; [reflexivity|apply IH]. Qed.

Lemma drain_prefix_ok n l :
  exists out, drain (firstn n (map (fun d => Ok (Mongo.toName d)) l)) None = Ok out.
Proof.
  rewrite firstn_map, drain_all. eexists. reflexivity.
Qed.

(** Property X14: a listing that breaks off is never shown in part.  When
    the cursor fails after some documents, or a document among those of the
    collection does not decode, List answers 500 with the text of that
    error and nothing of what was read before; the documents stay as they
    are. *)
Theorem list_is_all_or_nothing :
  forall id pl w path body col n msg,
    status w = None ->
    (let '(w', col') := namesHandler (Mongo.mkEnv id None (Some (Mongo.CursorFails n msg)) pl)
                          w (mkRequest MethodGet path body) col in
     is_internal_error msg w' /\ Mongo.docs col' = Mongo.docs col)
    /\ (n < length (Mongo.docs col) ->
        let '(w', col') := namesHandler (Mongo.mkEnv id None (Some (Mongo.DecodeFails n msg)) pl)
                             w (mkRequest MethodGet path body) col in
        is_internal_error msg w' /\ Mongo.docs col' = Mongo.docs col).
Proof.
  intros id pl w path body col n msg Hw. split.
  - unfold namesHandler, Mongo.Find. cbn [Method Mongo.callErr Mongo.curFault].
    change (String.eqb MethodGet MethodPost) with false.
    change (String.eqb MethodGet MethodGet) with true.
    cbn [Mongo.log Mongo.docs Mongo.calls Mongo.items Mongo.final].
    destruct (drain_prefix_ok n (Mongo.docs col)) as [out ->].
    split; [|reflexivity].
    split; [apply jsonWrite_status; exact Hw|reflexivity].
  - intro Hn.
    unfold namesHandler, Mongo.Find. cbn [Method Mongo.callErr Mongo.curFault].
    change (String.eqb MethodGet MethodPost) with false.
    change (String.eqb MethodGet MethodGet) with true.
    cbn [Mongo.log Mongo.docs Mongo.calls].
    rewrite length_map.
    destruct (Nat.ltb_spec n (length (Mongo.docs col))) as [_|Hge]; [|lia].
    cbn [Mongo.items Mongo.final].
    rewrite firstn_map, drain_stops.
    split; [|reflexivity].
    split; [apply jsonWrite_status; exact Hw|reflexivity].
Qed.

Lemma list_is_all_or_nothing_witness :
  let col := Mongo.mkCollection
               [Mongo.mkDoc sampleID "Alice"; Mongo.mkDoc Primitive.NilObjectID "Bob"] [] in
  let '(w', col') := namesHandler (Mongo.mkEnv sampleID None
                                     (Some (Mongo.DecodeFails 1 "cannot decode")) 0)
                       corsWriter (mkRequest MethodGet "/names" "") col in
  is_internal_error "cannot decode" w' /\ Mongo.docs col' = Mongo.docs col.
Proof.
  apply (proj2 (list_is_all_or_nothing sampleID 0 corsWriter "/names" ""
                  (Mongo.mkCollection
                     [Mongo.mkDoc sampleID "Alice"; Mongo.mkDoc Primitive.NilObjectID "Bob"] [])
                  1 "cannot decode" eq_refl)).
  simpl. lia.
Defined.

(** *** Store failures *)

(** Property X15: when the store call of a request fails, each of the five
    operations answers 500 with the text of the error under "error", and
    the documents stay as they are: List and Create whatever the path they
    are called with, Create for a body that passes validation, and Read-one,
    Replace and Delete for a path with a well-formed identifier, Replace
    for a body that passes validation. *)
Theorem store_failure_is_500 :
  forall env e w col,
    status w = None ->
    Mongo.callErr env = Some e ->
    let failed (x : ResponseWriter * Mongo.Collection) :=
      is_internal_error e (fst x) /\ Mongo.docs (snd x) = Mongo.docs col in
    (forall path body, failed (namesHandler env w (mkRequest MethodGet path body) col))
    /\ (forall path body p,
          Decode_Name body = Ok p -> Strings.TrimSpace (name p) <> "" ->
          failed (namesHandler env w (mkRequest MethodPost path body) col))
    /\ (forall path idStr oid,
          extractID path "/names/" = Ok idStr ->
          Primitive.ObjectIDFromHex idStr = Some oid ->
          (forall body, failed (nameByIDHandler env w (mkRequest MethodGet path body) col))
          /\ (forall body p, Decode_payload body = Ok p -> Strings.TrimSpace p <> "" ->
                failed (nameByIDHandler env w (mkRequest MethodPut path body) col))
          /\ (forall body,
                failed (nameByIDHandler env w (mkRequest MethodDelete path body) col))).
Proof.
  intros env e w col Hw He failed. subst failed.
  assert (Hs : forall (m : gomap any),
             status (jsonWrite w StatusInternalServerError m)
             = Some StatusInternalServerError)
    by (intro m; apply jsonWrite_status; exact Hw).
  repeat split; intros;
    unfold namesHandler, nameByIDHandler, Mongo.Find, Mongo.InsertOne,
      Mongo.FindOne, Mongo.UpdateByID, Mongo.DeleteOne;
    cbn [Method Path Body Mongo.log Mongo.docs Mongo.calls name];
    repeat match goal with
           | H : extractID _ _ = Ok _ |- _ => rewrite H; clear H
           | H : Primitive.ObjectIDFromHex _ = Some _ |- _ => rewrite H; clear H
           | H : Decode_Name _ = Ok _ |- _ => rewrite H; clear H
           | H : Decode_payload _ = Ok _ |- _ => rewrite H; clear H
           | H : Strings.TrimSpace _ <> "" |- _ =>
               rewrite (eqb_neq_false _ _ H); clear H
           end;
    rewrite He;
    cbn [name fst snd Mongo.docs]; try apply Hs; reflexivity.
Qed.

Lemma store_failure_is_500_witness :
  let env := Mongo.mkEnv sampleID (Some "context deadline exceeded") None 0 in
  status corsWriter = None
  /\ Mongo.callErr env = Some "context deadline exceeded"
  /\ is_internal_error "context deadline exceeded"
       (fst (namesHandler env corsWriter (mkRequest MethodGet "/names" "") oneAlice))
  /\ is_internal_error "context deadline exceeded"
       (fst (namesHandler env corsWriter
               (mkRequest MethodPost "/names" (dq "{'name':'Bob'}")) oneAlice))
  /\ Mongo.docs (snd (namesHandler env corsWriter
                        (mkRequest MethodPost "/names" (dq "{'name':'Bob'}")) oneAlice))
     = Mongo.docs oneAlice
  /\ is_internal_error "context deadline exceeded"
       (fst (nameByIDHandler env corsWriter
               (mkRequest MethodDelete ("/names/" ++ sampleHex) "") oneAlice))
  /\ Mongo.docs (snd (nameByIDHandler env corsWriter
                        (mkRequest MethodDelete ("/names/" ++ sampleHex) "") oneAlice))
     = Mongo.docs oneAlice.
Proof.
  intro env.
  pose proof (store_failure_is_500 env "context deadline exceeded" corsWriter oneAlice
                eq_refl eq_refl) as H.
  cbv zeta in H. destruct H as (Hlist & Hcreate & Hitem).
  destruct (Hitem ("/names/" ++ sampleHex) sampleHex sampleID eq_refl eq_refl)
    as (_ & _ & Hdel).
  split; [reflexivity|]. split; [reflexivity|].
  split; [exact (proj1 (Hlist "/names" ""))|].
  split; [exact (proj1 (Hcreate "/names" (dq "{'name':'Bob'}")
                          (mkName Primitive.NilObjectID "Bob") eq_refl
                          ltac:(discriminate)))|].
  split; [exact (proj2 (Hcreate "/names" (dq "{'name':'Bob'}")
                          (mkName Primitive.NilObjectID "Bob") eq_refl
                          ltac:(discriminate)))|].
  split; [exact (proj1 (Hdel ""))|exact (proj2 (Hdel ""))].
Defined.

(** *** Identifiers in hexadecimal *)

Lemma hex_of_byte c :
  let b := N_of_ascii c in
  Primitive.fromHexChar (Primitive.hexDigit (b / 16)) = Some (b / 16)%N
  /\ Primitive.fromHexChar (Primitive.hexDigit (b mod 16)) = Some (b mod 16)%N
  /\ ascii_of_N (b / 16 * 16 + b mod 16) = c
  /\ Ascii.eqb (Primitive.hexDigit (b / 16)) "/" = false
  /\ Ascii.eqb (Primitive.hexDigit (b mod 16)) "/" = false.
Proof.
  destruct c as [[] [] [] [] [] [] [] []]; vm_compute; repeat split.
Qed.

Lemma hexDecode_hexEncode s :
  Primitive.hexDecode (Primitive.hexEncode s) = Some s.
Proof.
  induction s as [|c s IH]; [reflexivity|].
  destruct (hex_of_byte c) as (H1 & H2 & H3 & _).
  cbn [Primitive.hexEncode Primitive.hexDecode]. cbv zeta in *.
  rewrite H1, H2, IH, H3. reflexivity.
Qed.

Lemma hexEncode_length s :
  String.length (Primitive.hexEncode s) = 2 * String.length s.
Proof. induction s as [|c s IH]; simpl; [reflexivity|]. rewrite IH. lia. Qed.

Lemma hexEncode_segment s : segment (Primitive.hexEncode s) = true.
Proof.
  induction s as [|c s IH]; [reflexivity|].
  destruct (hex_of_byte c) as (_ & _ & _ & H4 & H5).
  cbn [Primitive.hexEncode segment]. cbv zeta in *. rewrite H4, H5, IH. reflexivity.
Qed.

(** The text [Hex] gives for an identifier of twelve bytes is read back by
    [ObjectIDFromHex] as that identifier. *)
Lemma ObjectIDFromHex_Hex o :
  String.length (Primitive.oid_bytes o) = 12 ->
  Primitive.ObjectIDFromHex (Primitive.Hex o) = Some o.
Proof.
  intro H. unfold Primitive.ObjectIDFromHex, Primitive.Hex.
  rewrite hexEncode_length, H, hexDecode_hexEncode. destruct o. reflexivity.
Qed.

Lemma extractID_Hex o :
  String.length (Primitive.oid_bytes o) = 12 ->
  extractID ("/names/" ++ Primitive.Hex o) "/names/" = Ok (Primitive.Hex o).
Proof.
  intro H.
  rewrite <- (app_empty_r (Primitive.Hex o)) at 1.
  apply extractID_first_segment; [|apply hexEncode_segment|left; reflexivity].
  intro E. pose proof (hexEncode_length (Primitive.oid_bytes o)) as L.
  unfold Primitive.Hex in E. rewrite E, H in L. discriminate.
Qed.

(** *** Create, then read *)

Lemma InsertOne_fresh env n col id :
  fst (Mongo.InsertOne env n col) = Ok id ->
  existsb (Mongo.has_id id) (Mongo.docs col) = false.
Proof.
  unfold Mongo.InsertOne. cbn [Mongo.log Mongo.docs Mongo.calls].
  destruct (Mongo.callErr env); [discriminate|].
  destruct (existsb _ _) eqn:E; [discriminate|].
  cbn. intro H. injection H as <-. exact E.
Qed.

Lemma find_insert_at k oid n l :
  existsb (Mongo.has_id oid) l = false ->
  find (Mongo.has_id oid) (Mongo.insert_at k (Mongo.mkDoc oid n) l)
  = Some (Mongo.mkDoc oid n).
Proof.
  destruct (insert_at_split k (Mongo.mkDoc oid n) l) as (l1 & l2 & -> & ->).
  rewrite existsb_app. intro H. apply orb_false_elim in H. destruct H as [H1 _].
  induction l1 as [|d l1 IH]; simpl.
  - unfold Mongo.has_id. simpl.
    assert (E : Primitive.ObjectID_eqb oid oid = true) by (apply ObjectID_eqb_eq; reflexivity).
    rewrite E. reflexivity.
  - simpl in H1. destruct (Mongo.has_id oid d); [discriminate|]. apply IH. exact H1.
Qed.

(** Property X16: a record that Create has answered with 201 is read back
    by Read-one under the identifier of that answer, with the same body:
    the identifier the store assigned and the trimmed name.  (The store
    answers both calls; the identifier has the twelve bytes of an
    ObjectID.) *)
Theorem create_then_read_gives_the_record :
  forall env1 env2 w path body col p id,
    status w = None ->
    Decode_Name body = Ok p ->
    Strings.TrimSpace (name p) <> "" ->
    fst (Mongo.InsertOne env1 (Strings.TrimSpace (name p)) col) = Ok id ->
    String.length (Primitive.oid_bytes id) = 12 ->
    Mongo.callErr env2 = None ->
    let '(w1, col1) := namesHandler env1 w (mkRequest MethodPost path body) col in
    let '(w2, col2) := nameByIDHandler env2 w
                         (mkRequest MethodGet ("/names/" ++ Primitive.Hex id) "") col1 in
    status w1 = Some StatusCreated
    /\ status w2 = Some StatusOK
    /\ written w1 = JSON (Object [("id", Str (Primitive.Hex id));
                                  ("name", Str (Strings.TrimSpace (name p)))])
    /\ written w2 = written w1.
Proof.
  intros env1 env2 w path body col p id Hw Hdec Hn Hins Hlen Henv.
  pose proof (InsertOne_ok env1 _ col id Hins) as [Hid Hcol].
  pose proof (InsertOne_fresh env1 _ col id Hins) as Hfresh.
  unfold namesHandler. cbn [Method Body].
  change (String.eqb MethodPost MethodPost) with true. cbn iota.
  rewrite Hdec. cbn [name ID]. rewrite (eqb_neq_false _ _ Hn).
  destruct (Mongo.InsertOne env1 (Strings.TrimSpace (name p)) col) as [res col1].
  cbn [fst snd] in Hins, Hcol. subst res col1.
  unfold nameByIDHandler, Mongo.FindOne. cbn [Path Method].
  rewrite (extractID_Hex id Hlen), (ObjectIDFromHex_Hex id Hlen), Henv.
  change (String.eqb MethodGet MethodGet) with true.
  cbn [Mongo.log Mongo.docs Mongo.calls].
  rewrite (find_insert_at _ id _ _ Hfresh).
  split; [apply jsonWrite_status; exact Hw|].
  split; [apply jsonWrite_status; exact Hw|].
  split; reflexivity.
Qed.

Lemma create_then_read_gives_the_record_witness :
  let '(w1, col1) := namesHandler sampleEnv corsWriter
                       (mkRequest MethodPost "/names" (dq "{'name':' Carol '}"))
                       emptyCollection in
  let '(w2, col2) := nameByIDHandler sampleEnv corsWriter
                       (mkRequest MethodGet ("/names/" ++ Primitive.Hex sampleID) "") col1 in
  status w1 = Some StatusCreated
  /\ status w2 = Some StatusOK
  /\ written w1 = JSON (Object [("id", Str (Primitive.Hex sampleID));
                                ("name", Str "Carol")])
  /\ written w2 = written w1.
Proof.
  refine (create_then_read_gives_the_record sampleEnv sampleEnv corsWriter "/names"
            (dq "{'name':' Carol '}") emptyCollection
            (mkName Primitive.NilObjectID " Carol ") sampleID
            eq_refl eq_refl _ eq_refl eq_refl eq_refl).
  discriminate.
Defined.

(** *** Replace-name *)

Lemma has_id_refl oid n : Mongo.has_id oid (Mongo.mkDoc oid n) = true.
Proof. unfold Mongo.has_id. simpl. apply ObjectID_eqb_eq. reflexivity. Qed.

Lemma find_set_name oid n l :
  In oid (ids l) ->
  find (Mongo.has_id oid) (Mongo.set_name oid n l) = Some (Mongo.mkDoc oid n).
Proof.
  induction l as [|d l IH]; simpl; [tauto|].
  destruct (Mongo.has_id oid d) eqn:E.
  - intros _. simpl. apply ObjectID_eqb_eq in E. rewrite E, has_id_refl. reflexivity.
  - intros [Heq|Hin].
    + exfalso. subst. destruct d as [i m]. simpl in E.
      rewrite has_id_refl in E. discriminate.
    + simpl. rewrite E. exact (IH Hin).
Qed.

Lemma others_set_name oid n l :
  others oid (Mongo.set_name oid n l) = others oid l.
Proof.
  unfold others. induction l as [|d l IH]; [reflexivity|]. simpl.
  destruct (Mongo.has_id oid d) eqn:E; simpl.
  - unfold Mongo.has_id in *. simpl. rewrite E. reflexivity.
  - rewrite E. simpl. f_equal. exact IH.
Qed.

Lemma set_name_absent oid n l :
  ~ In oid (ids l) -> Mongo.set_name oid n l = l.
Proof.
  induction l as [|d l IH]; simpl; intro H; [reflexivity|].
  destruct (Mongo.has_id oid d) eqn:E.
  - apply ObjectID_eqb_eq in E. tauto.
  - f_equal. apply IH. tauto.
Qed.

(** Property X17: Replace-name with a well-formed identifier, a body that
    decodes to a name that is not empty once trimmed, and a store that
    answers: when a document has the identifier the answer is 200 with the
    identifier and the trimmed name, a Read-one that follows gives the same
    body, the identifiers of the collection are as before and every
    document with another identifier is untouched; when no document has it
    the answer is 404 and the documents are as before. *)
Theorem replace_then_read_gives_the_new_name :
  forall env1 env2 w path body col idStr oid p,
    status w = None ->
    extractID path "/names/" = Ok idStr ->
    Primitive.ObjectIDFromHex idStr = Some oid ->
    Decode_payload body = Ok p ->
    Strings.TrimSpace p <> "" ->
    Mongo.callErr env1 = None -> Mongo.callErr env2 = None ->
    let '(w1, col1) := nameByIDHandler env1 w (mkRequest MethodPut path body) col in
    let '(w2, col2) := nameByIDHandler env2 w (mkRequest MethodGet path "") col1 in
    (In oid (ids (Mongo.docs col)) ->
       status w1 = Some StatusOK
       /\ written w1 = JSON (Object [("id", Str (Primitive.Hex oid));
                                     ("name", Str (Strings.TrimSpace p))])
       /\ status w2 = Some StatusOK
       /\ written w2 = written w1
       /\ ids (Mongo.docs col1) = ids (Mongo.docs col)
       /\ others oid (Mongo.docs col1) = others oid (Mongo.docs col))
    /\ (~ In oid (ids (Mongo.docs col)) ->
          status w1 = Some StatusNotFound
          /\ written w1 = JSON (Object [("error", Str "not found")])
          /\ Mongo.docs col1 = Mongo.docs col).
Proof.
  intros env1 env2 w path body col idStr oid p Hw Hid Hhex Hdec Hn He1 He2.
  unfold nameByIDHandler, Mongo.UpdateByID, Mongo.FindOne.
  cbn [Path Method Body]. rewrite Hid, Hhex, Hdec, He1, He2.
  change (String.eqb MethodPut MethodGet) with false.
  change (String.eqb MethodPut MethodPut) with true.
  change (String.eqb MethodGet MethodGet) with true.
  cbn iota. rewrite (eqb_neq_false _ _ Hn).
  cbn [Mongo.log Mongo.docs Mongo.calls].
  destruct (existsb (Mongo.has_id oid) (Mongo.docs col)) eqn:E.
  - apply existsb_has_id in E. cbn [Mongo.log Mongo.docs Mongo.calls].
    rewrite (find_set_name oid _ _ E). split; [intros _|tauto].
    split; [apply jsonWrite_status; exact Hw|]. split; [reflexivity|].
    split; [apply jsonWrite_status; exact Hw|]. split; [reflexivity|].
    split; [apply ids_set_name|apply others_set_name].
  - assert (Hout : ~ In oid (ids (Mongo.docs col))).
    { rewrite <- existsb_has_id. congruence. }
    cbn [Mongo.log Mongo.docs Mongo.calls]. rewrite (find_absent _ _ Hout).
    split; [tauto|intros _].
    split; [apply jsonWrite_status; exact Hw|]. split; reflexivity.
Qed.

Lemma replace_then_read_gives_the_new_name_witness :
  let '(w1, col1) := nameByIDHandler sampleEnv corsWriter
                       (mkRequest MethodPut ("/names/" ++ sampleHex) (dq "{'name':'Bob '}"))
                       oneAlice in
  let '(w2, col2) := nameByIDHandler sampleEnv corsWriter
                       (mkRequest MethodGet ("/names/" ++ sampleHex) "") col1 in
  status w1 = Some StatusOK
  /\ written w1 = JSON (Object [("id", Str sampleHex); ("name", Str "Bob")])
  /\ status w2 = Some StatusOK
  /\ written w2 = written w1.
Proof.
  pose proof (replace_then_read_gives_the_new_name sampleEnv sampleEnv corsWriter
                ("/names/" ++ sampleHex) (dq "{'name':'Bob '}") oneAlice
                sampleHex sampleID "Bob "
                eq_refl eq_refl eq_refl eq_refl) as H.
  destruct (nameByIDHandler sampleEnv corsWriter
              (mkRequest MethodPut ("/names/" ++ sampleHex) (dq "{'name':'Bob '}"))
              oneAlice) as [w1 col1].
  destruct (nameByIDHandler sampleEnv corsWriter
              (mkRequest MethodGet ("/names/" ++ sampleHex) "") col1) as [w2 col2].
  destruct H as [H _]; [discriminate|reflexivity|reflexivity|].
  destruct H as (H1 & H2 & H3 & H4 & _); [left; reflexivity|].
  repeat split; assumption.
Defined.

(** *** Delete *)

Lemma others_remove_first oid l :
  others oid (Mongo.remove_first oid l) = others oid l.
Proof.
  unfold others. induction l as [|d l IH]; [reflexivity|]. simpl.
  destruct (Mongo.has_id oid d) eqn:E; simpl; [reflexivity|].
  rewrite E. simpl. f_equal. exact IH.
Qed.

Lemma length_remove_first oid l :
  In oid (ids l) -> S (length (Mongo.remove_first oid l)) = length l.
Proof.
  induction l as [|d l IH]; simpl; [tauto|].
  destruct (Mongo.has_id oid d) eqn:E; [reflexivity|].
  intros [Heq|Hin]; simpl.
  - exfalso. subst. destruct d as [i m]. simpl in E.
    rewrite has_id_refl in E. discriminate.
  - f_equal. exact (IH Hin).
Qed.

(** Property X18: Delete removes at most the one document it is asked for:
    with a store that answers, every document with another identifier stays,
    in its place, and when a document has the identifier the collection has
    one document less. *)
Theorem delete_touches_one_document :
  forall env w r col idStr oid,
    Method r = MethodDelete ->
    extractID (Path r) "/names/" = Ok idStr ->
    Primitive.ObjectIDFromHex idStr = Some oid ->
    Mongo.callErr env = None ->
    let col' := snd (nameByIDHandler env w r col) in
    others oid (Mongo.docs col') = others oid (Mongo.docs col)
    /\ (In oid (ids (Mongo.docs col)) ->
        S (length (Mongo.docs col')) = length (Mongo.docs col))
    /\ (~ In oid (ids (Mongo.docs col)) -> Mongo.docs col' = Mongo.docs col).
Proof.
  intros env w r col idStr oid Hm Hid Hhex Henv col'. subst col'.
  rewrite (nameByIDHandler_delete env w r col idStr oid Hm Hid Hhex Henv).
  cbn [snd Mongo.docs].
  split; [apply others_remove_first|].
  split; [apply length_remove_first|apply remove_first_absent].
Qed.

Lemma delete_touches_one_document_witness :
  let col := Mongo.mkCollection
               [Mongo.mkDoc Primitive.NilObjectID "Bob"; Mongo.mkDoc sampleID "Alice"] [] in
  let col' := snd (nameByIDHandler sampleEnv corsWriter
                     (mkRequest MethodDelete ("/names/" ++ sampleHex) "") col) in
  others sampleID (Mongo.docs col') = others sampleID (Mongo.docs col)
  /\ (In sampleID (ids (Mongo.docs col)) ->
      S (length (Mongo.docs col')) = length (Mongo.docs col))
  /\ (~ In sampleID (ids (Mongo.docs col)) -> Mongo.docs col' = Mongo.docs col).
Proof.
  exact (delete_touches_one_document sampleEnv corsWriter
           (mkRequest MethodDelete ("/names/" ++ sampleHex) "")
           (Mongo.mkCollection
              [Mongo.mkDoc Primitive.NilObjectID "Bob"; Mongo.mkDoc sampleID "Alice"] [])
           sampleHex sampleID eq_refl eq_refl eq_refl eq_refl).
Defined.

(** *** What every request keeps *)

Lemma names_nonempty_set_name oid n l :
  n <> "" -> names_nonempty l -> names_nonempty (Mongo.set_name oid n l).
Proof.
  intros Hn. unfold names_nonempty. induction l as [|d l IH]; intro H; [exact H|].
  inversion H as [|? ? Hd Hl]; subst. simpl.
  destruct (Mongo.has_id oid d); constructor; auto.
Qed.

Lemma names_nonempty_remove_first oid l :
  names_nonempty l -> names_nonempty (Mongo.remove_first oid l).
Proof.
  unfold names_nonempty. induction l as [|d l IH]; intro H; [exact H|].
  inversion H as [|? ? Hd Hl]; subst. simpl.
  destruct (Mongo.has_id oid d); [exact Hl|constructor; auto].
Qed.

(** Property X19: no request puts an empty name into the store.  When every
    document of the collection has a name that is not empty, this is so
    after any request, whatever its method, path and body and whatever the
    store does. *)
Theorem stored_names_stay_nonempty :
  forall env r col,
    names_nonempty (Mongo.docs col) ->
    names_nonempty (Mongo.docs (snd (serve env r col))).
Proof.
  intros env r col H.
  assert (Gn : forall w, names_nonempty (Mongo.docs (snd (namesHandler env w r col)))).
  { intro w. unfold namesHandler, Mongo.InsertOne, Mongo.Find.
    cbn [Mongo.log Mongo.docs Mongo.calls].
    destruct (String.eqb (Method r) MethodPost).
    - destruct (Decode_Name (Body r)) as [p|e]; [|exact H]. cbn [name].
      destruct (String.eqb_spec (Strings.TrimSpace (name p)) "") as [|Hn]; [exact H|].
      destruct (Mongo.callErr env); [exact H|].
      destruct (existsb _ _); [exact H|].
      cbn [snd Mongo.docs]. apply Forall_insert_at; [exact H|exact Hn].
    - destruct (String.eqb (Method r) MethodGet); [|exact H].
      destruct (Mongo.callErr env); [exact H|].
      destruct (drain _ None); [|exact H].
      destruct (Mongo.final _); exact H. }
  assert (Gi : forall w, names_nonempty (Mongo.docs (snd (nameByIDHandler env w r col)))).
  { intro w. unfold nameByIDHandler, Mongo.FindOne, Mongo.UpdateByID, Mongo.DeleteOne.
    cbn [Mongo.log Mongo.docs Mongo.calls].
    destruct (extractID (Path r) "/names/") as [idStr|e]; [|exact H].
    destruct (Primitive.ObjectIDFromHex idStr) as [oid|]; [|exact H].
    destruct (String.eqb (Method r) MethodGet).
    { destruct (Mongo.callErr env); [exact H|]. destruct (find _ _); exact H. }
    destruct (String.eqb (Method r) MethodPut).
    { destruct (Decode_payload (Body r)) as [p|e]; [|exact H].
      destruct (String.eqb_spec (Strings.TrimSpace p) "") as [|Hn]; [exact H|].
      destruct (Mongo.callErr env); [exact H|].
      destruct (existsb _ _); [|exact H].
      cbn [snd Mongo.docs]. apply names_nonempty_set_name; assumption. }
    destruct (String.eqb (Method r) MethodDelete); [|exact H].
    destruct (Mongo.callErr env); [exact H|].
    destruct (existsb _ _); [|exact H].
    cbn [snd Mongo.docs]. apply names_nonempty_remove_first. exact H. }
  assert (G : names_nonempty (Mongo.docs (snd (route env corsWriter r col)))).
  { unfold route.
    destruct (String.eqb (Path r) "/health"); [exact H|].
    destruct (String.eqb (Path r) "/names"); [apply Gn|].
    destruct (Strings.HasPrefix (Path r) "/names/"); [apply Gi|exact H]. }
  unfold serve, corsMiddleware.
  destruct (String.eqb (Method r) MethodOptions); [exact H|].
  change (names_nonempty (Mongo.docs (snd (DefaultServeMux env corsWriter r col)))).
  unfold DefaultServeMux.
  destruct (String.eqb (Path r) "*"); [exact H|].
  destruct (String.eqb (Method r) "CONNECT"); [exact G|].
  destruct (negb _); [exact H|exact G].
Qed.

Lemma stored_names_stay_nonempty_witness :
  names_nonempty (Mongo.docs oneAlice)
  /\ names_nonempty
       (Mongo.docs (snd (serve sampleEnv
                           (mkRequest "PUT" ("/names/" ++ sampleHex) (dq "{'name':'  '}"))
                           oneAlice))).
Proof.
  assert (H : names_nonempty (Mongo.docs oneAlice))
    by (constructor; [discriminate|constructor]).
  split; [exact H|].
  exact (stored_names_stay_nonempty sampleEnv
           (mkRequest "PUT" ("/names/" ++ sampleHex) (dq "{'name':'  '}")) oneAlice H).
Defined.

Lemma namesHandler_calls env w r col :
  let col' := snd (namesHandler env w r col) in
  Mongo.calls col' = Mongo.calls col
  \/ exists c, Mongo.calls col' = (Mongo.calls col ++ [c])%list.
Proof.
  unfold namesHandler, Mongo.InsertOne, Mongo.Find.
  cbn [Mongo.log Mongo.docs Mongo.calls].
  destruct (String.eqb (Method r) MethodPost).
  - destruct (Decode_Name (Body r)) as [p|e]; [|left; reflexivity]. cbn [name].
    destruct (String.eqb _ ""); [left; reflexivity|].
    destruct (Mongo.callErr env); [right; eexists; reflexivity|].
    destruct (existsb _ _); right; eexists; reflexivity.
  - destruct (String.eqb (Method r) MethodGet); [|left; reflexivity].
    destruct (Mongo.callErr env); [right; eexists; reflexivity|].
    destruct (drain _ None); [|right; eexists; reflexivity].
    destruct (Mongo.final _); right; eexists; reflexivity.
Qed.

Lemma nameByIDHandler_calls env w r col :
  let col' := snd (nameByIDHandler env w r col) in
  Mongo.calls col' = Mongo.calls col
  \/ exists c, Mongo.calls col' = (Mongo.calls col ++ [c])%list.
Proof.
  unfold nameByIDHandler, Mongo.FindOne, Mongo.UpdateByID, Mongo.DeleteOne.
  cbn [Mongo.log Mongo.docs Mongo.calls].
  destruct (extractID (Path r) "/names/") as [idStr|e]; [|left; reflexivity].
  destruct (Primitive.ObjectIDFromHex idStr) as [oid|]; [|left; reflexivity].
  destruct (String.eqb (Method r) MethodGet).
  { destruct (Mongo.callErr env); [right; eexists; reflexivity|].
    destruct (find _ _); right; eexists; reflexivity. }
  destruct (String.eqb (Method r) MethodPut).
  { destruct (Decode_payload (Body r)) as [p|e]; [|left; reflexivity].
    destruct (String.eqb _ ""); [left; reflexivity|].
    destruct (Mongo.callErr env); [right; eexists; reflexivity|].
    destruct (existsb _ _); right; eexists; reflexivity. }
  destruct (String.eqb (Method r) MethodDelete); [|left; reflexivity].
  destruct (Mongo.callErr env); [right; eexists; reflexivity|].
  destruct (existsb _ _); right; eexists; reflexivity.
Qed.

(** Property X20: a request makes at most one call on the collection: the
    record of calls after it is the record before it, or that with one call
    added. *)
Theorem at_most_one_store_call :
  forall env r col,
    let col' := snd (serve env r col) in
    Mongo.calls col' = Mongo.calls col
    \/ exists c, Mongo.calls col' = (Mongo.calls col ++ [c])%list.
Proof.
  intros env r col.
  assert (G : let col' := snd (route env corsWriter r col) in
              Mongo.calls col' = Mongo.calls col
              \/ exists c, Mongo.calls col' = (Mongo.calls col ++ [c])%list).
  { unfold route.
    destruct (String.eqb (Path r) "/health"); [left; reflexivity|].
    destruct (String.eqb (Path r) "/names"); [apply namesHandler_calls|].
    destruct (Strings.HasPrefix (Path r) "/names/");
      [apply nameByIDHandler_calls|left; reflexivity]. }
  unfold serve, corsMiddleware.
  destruct (String.eqb (Method r) MethodOptions); [left; reflexivity|].
  change (let col' := snd (DefaultServeMux env corsWriter r col) in
          Mongo.calls col' = Mongo.calls col
          \/ exists c, Mongo.calls col' = (Mongo.calls col ++ [c])%list).
  unfold DefaultServeMux.
  destruct (String.eqb (Path r) "*"); [left; reflexivity|].
  destruct (String.eqb (Method r) "CONNECT"); [exact G|].
  destruct (negb _); [left; reflexivity|exact G].
Qed.

(** Property X21: only POST, PUT and DELETE change the documents: after a
    request with any other method the documents of the collection are what
    they were. *)
Theorem other_methods_leave_documents :
  forall env r col,
    Method r <> MethodPost -> Method r <> MethodPut -> Method r <> MethodDelete ->
    Mongo.docs (snd (serve env r col)) = Mongo.docs col.
Proof.
  intros env r col Hpost Hput Hdel.
  assert (G : Mongo.docs (snd (route env corsWriter r col)) = Mongo.docs col).
  { unfold route, namesHandler, nameByIDHandler, Mongo.Find, Mongo.FindOne.
    rewrite (eqb_neq_false _ _ Hpost), (eqb_neq_false _ _ Hput), (eqb_neq_false _ _ Hdel).
    cbn [Mongo.log Mongo.docs Mongo.calls].
    destruct (String.eqb (Path r) "/health"); [reflexivity|].
    destruct (String.eqb (Path r) "/names").
    - destruct (String.eqb (Method r) MethodGet); [|reflexivity].
      destruct (Mongo.callErr env); [reflexivity|].
      destruct (drain _ None); [|reflexivity].
      destruct (Mongo.final _); reflexivity.
    - destruct (Strings.HasPrefix (Path r) "/names/"); [|reflexivity].
      destruct (extractID (Path r) "/names/") as [idStr|e]; [|reflexivity].
      destruct (Primitive.ObjectIDFromHex idStr) as [oid|]; [|reflexivity].
      destruct (String.eqb (Method r) MethodGet); [|reflexivity].
      destruct (Mongo.callErr env); [reflexivity|].
      destruct (find _ _); reflexivity. }
  unfold serve, corsMiddleware.
  destruct (String.eqb (Method r) MethodOptions); [reflexivity|].
  change (Mongo.docs (snd (DefaultServeMux env corsWriter r col)) = Mongo.docs col).
  unfold DefaultServeMux.
  destruct (String.eqb (Path r) "*"); [reflexivity|].
  destruct (String.eqb (Method r) "CONNECT"); [exact G|].
  destruct (negb _); [reflexivity|exact G].
Qed.

Lemma other_methods_leave_documents_witness :
  "GET" <> MethodPost /\ "GET" <> MethodPut /\ "GET" <> MethodDelete
  /\ Mongo.docs (snd (serve sampleEnv (mkRequest "GET" ("/names/" ++ sampleHex) "") oneAlice))
     = Mongo.docs oneAlice.
Proof.
  split; [discriminate|]. split; [discriminate|]. split; [discriminate|].
  apply (other_methods_leave_documents sampleEnv
           (mkRequest "GET" ("/names/" ++ sampleHex) "") oneAlice); discriminate.
Defined.

(** *** Settings *)

Lemma getenv_nonempty env k def : def <> "" -> getenv env k def <> "".
Proof.
  intro Hd. unfold getenv.
  destruct (String.eqb_spec (Getenv env k) "") as [E|E]; cbn [negb]; assumption.
Qed.

Lemma getenv_default_or_value env k def : default_or_value env k def (getenv env k def).
Proof.
  unfold default_or_value, getenv. split; intro H.
  - rewrite H. reflexivity.
  - rewrite (eqb_neq_false _ _ H). reflexivity.
Qed.

(** Property X22: each of the four settings of [main] is read from its own
    variable with its own default: MONGO_URI (mongodb://localhost:27017),
    DB_NAME (testdb), COLLECTION (names) and ADDR (:8080).  A variable that
    is unset or set to the empty string gives way to its default, any other
    value is taken as it is; so whatever the environment of the process
    holds, no setting is empty. *)
Theorem settings_are_never_empty :
  forall env,
    (default_or_value env "MONGO_URI" "mongodb://localhost:27017" (mongoURI (settings env))
     /\ default_or_value env "DB_NAME" "testdb" (dbName (settings env))
     /\ default_or_value env "COLLECTION" "names" (colName (settings env))
     /\ default_or_value env "ADDR" ":8080" (addr (settings env)))
    /\ mongoURI (settings env) <> "" /\ dbName (settings env) <> ""
    /\ colName (settings env) <> "" /\ addr (settings env) <> "".
Proof.
  intro env. unfold settings. cbn [mongoURI dbName colName addr].
  split.
  - split; [|split; [|split]]; apply getenv_default_or_value.
  - repeat split; apply getenv_nonempty; discriminate.
Qed.

(** The settings of a process that sets the database and the address
    only. *)
Example settings_some_set :
  settings [("DB_NAME", "people"); ("ADDR", ":9000"); ("COLLECTION", "")]
  = mkSettings "mongodb://localhost:27017" "people" "names" ":9000".
Proof. reflexivity. Qed.

(** *** The spelling of identifiers *)

Lemma hex_digit_lower a x :
  Primitive.fromHexChar a = Some x ->
  (x < 16)%N /\ Primitive.hexDigit x = lower a.
Proof.
  destruct a as [[] [] [] [] [] [] [] []]; vm_compute; intro H;
    first [discriminate H | injection H as <-; split; reflexivity].
Qed.

Lemma hex_pair_value x y :
  (x < 16)%N -> (y < 16)%N ->
  let b := N_of_ascii (ascii_of_N (x * 16 + y)) in
  (b / 16 = x)%N /\ (b mod 16 = y)%N.
Proof.
  intros Hx Hy b. subst b.
  rewrite N_ascii_embedding by lia.
  split.
  - rewrite N.div_add_l by lia. rewrite N.div_small by lia. lia.
  - rewrite N.add_comm, N.Div0.mod_add. apply N.mod_small. lia.
Qed.

Lemma hexEncode_hexDecode s : forall b,
  Primitive.hexDecode s = Some b -> Primitive.hexEncode b = lower_string s.
Proof.
  pattern s. apply string_len_ind. clear s. intros s IH b H.
  destruct s as [|c1 [|c2 s']]; [injection H as <-; reflexivity|discriminate|].
  cbn [Primitive.hexDecode] in H.
  destruct (Primitive.fromHexChar c1) as [x|] eqn:E1; [|discriminate].
  destruct (Primitive.fromHexChar c2) as [y|] eqn:E2; [|discriminate].
  destruct (Primitive.hexDecode s') as [r|] eqn:E3; [|discriminate].
  injection H as <-.
  destruct (hex_digit_lower _ _ E1) as [Hx Lx].
  destruct (hex_digit_lower _ _ E2) as [Hy Ly].
  destruct (hex_pair_value x y Hx Hy) as [Hd Hm]. cbv zeta in Hd, Hm.
  cbn [Primitive.hexEncode lower_string]. cbv zeta.
  rewrite Hd, Hm, Lx, Ly, (IH s' ltac:(simpl; lia) r E3). reflexivity.
Qed.

Lemma Hex_of_parsed idStr oid :
  Primitive.ObjectIDFromHex idStr = Some oid ->
  Primitive.Hex oid = lower_string idStr.
Proof.
  unfold Primitive.ObjectIDFromHex, Primitive.Hex.
  destruct (negb _); [discriminate|].
  destruct (Primitive.hexDecode idStr) as [b|] eqn:E; [|discriminate].
  intro H. injection H as <-. exact (hexEncode_hexDecode _ _ E).
Qed.

(** Property X23: identifiers are accepted in either letter case and
    answered in lower case: when Replace-name succeeds, the "id" of its
    answer is the identifier of the path with its letters in lower case,
    and that spelling names the same document. *)
Theorem replace_answers_id_in_lower_case :
  forall env w path body col idStr oid p,
    extractID path "/names/" = Ok idStr ->
    Primitive.ObjectIDFromHex idStr = Some oid ->
    Decode_payload body = Ok p ->
    Strings.TrimSpace p <> "" ->
    Mongo.callErr env = None ->
    In oid (ids (Mongo.docs col)) ->
    written (fst (nameByIDHandler env w (mkRequest MethodPut path body) col))
    = JSON (Object [("id", Str (lower_string idStr));
                    ("name", Str (Strings.TrimSpace p))])
    /\ Primitive.ObjectIDFromHex (lower_string idStr) = Some oid.
Proof.
  intros env w path body col idStr oid p Hid Hhex Hdec Hn Henv Hin.
  pose proof (Hex_of_parsed _ _ Hhex) as HL.
  split.
  - unfold nameByIDHandler, Mongo.UpdateByID.
    cbn [Path Method Body]. rewrite Hid, Hhex, Hdec, Henv.
    change (String.eqb MethodPut MethodGet) with false.
    change (String.eqb MethodPut MethodPut) with true.
    cbn iota. rewrite (eqb_neq_false _ _ Hn).
    cbn [Mongo.log Mongo.docs Mongo.calls].
    apply existsb_has_id in Hin. rewrite Hin.
    cbn [fst]. unfold ok. rewrite jsonWrite_written_eq.
    unfold Marshal, Marshal_Name. cbn [ID name]. rewrite HL. reflexivity.
  - rewrite <- HL. apply ObjectIDFromHex_Hex.
    revert Hhex. unfold Primitive.ObjectIDFromHex.
    destruct (Nat.eqb_spec (String.length idStr) 24) as [L|]; [|discriminate].
    cbn [negb].
    destruct (Primitive.hexDecode idStr) as [b|] eqn:E; [|discriminate].
    intro H. injection H as <-. cbn [Primitive.oid_bytes].
    pose proof (hexEncode_hexDecode _ _ E) as HE.
    pose proof (hexEncode_length b) as HB. rewrite HE in HB.
    assert (LL : forall u, String.length (lower_string u) = String.length u)
      by (induction u; simpl; congruence).
    rewrite LL, L in HB. lia.
Qed.

Lemma replace_answers_id_in_lower_case_witness :
  written (fst (nameByIDHandler sampleEnv corsWriter
                  (mkRequest MethodPut "/names/6162636465666768696A6B6C"
                     (dq "{'name':'Bob'}")) oneAlice))
  = JSON (Object [("id", Str "6162636465666768696a6b6c"); ("name", Str "Bob")])
  /\ Primitive.ObjectIDFromHex "6162636465666768696a6b6c" = Some sampleID.
Proof.
  refine (replace_answers_id_in_lower_case sampleEnv corsWriter
            "/names/6162636465666768696A6B6C" (dq "{'name':'Bob'}") oneAlice
            "6162636465666768696A6B6C" sampleID "Bob"
            eq_refl eq_refl eq_refl _ eq_refl _);
    [discriminate|left; reflexivity].
Defined.

(** *** Trimming *)

Lemma drop_length n : forall s,
  String.length (Strings.drop n s) = String.length s - n.
Proof.
  induction n as [|n IH]; intros [|c s]; simpl; try reflexivity; try lia.
  apply IH.
Qed.

Lemma drop_drop m : forall n s,
  Strings.drop n (Strings.drop m s) = Strings.drop (m + n) s.
Proof.
  induction m as [|m IH]; intros n s; [reflexivity|].
  destruct s as [|c s]; simpl; [destruct n; reflexivity|apply IH].
Qed.

Lemma take_drop n : forall s, Strings.take n s ++ Strings.drop n s = s.
Proof.
  induction n as [|n IH]; intros [|c s]; simpl; try reflexivity.
  f_equal. apply IH.
Qed.

Lemma rev_app s t : Strings.rev (s ++ t) = Strings.rev t ++ Strings.rev s.
Proof.
  induction s as [|c s IH]; simpl; [rewrite app_empty_r; reflexivity|].
  rewrite IH. clear IH. generalize (Strings.rev t) as a, (Strings.rev s) as b.
  induction a as [|x a IH]; intro b; simpl; [reflexivity|]. f_equal. apply IH.
Qed.

Lemma rev_rev s : Strings.rev (Strings.rev s) = s.
Proof.
  induction s as [|c s IH]; [reflexivity|]. simpl.
  rewrite rev_app, IH. reflexivity.
Qed.

Lemma rev_length s : String.length (Strings.rev s) = String.length s.
Proof.
  induction s as [|c s IH]; [reflexivity|]. simpl.
  rewrite length_app, IH. simpl. lia.
Qed.

Lemma space_prefix_le s : Strings.space_prefix s <= String.length s.
Proof.
  unfold Strings.space_prefix.
  destruct s as [|c0 [|c1 [|c2 s]]]; simpl;
    repeat match goal with
           | |- context [if ?b then _ else _] => destruct b
           end; lia.
Qed.

Lemma space_suffix_rev_le r : Strings.space_suffix_rev r <= String.length r.
Proof.
  unfold Strings.space_suffix_rev.
  destruct r as [|c0 [|c1 [|c2 r]]]; cbn [String.length];
    repeat match goal with
           | |- context [if ?b then _ else _] => destruct b
           end; lia.
Qed.

Lemma trim_space_left_done fuel : forall s,
  String.length s <= fuel ->
  Strings.space_prefix (Strings.trim_space_left fuel s) = 0.
Proof.
  induction fuel as [|fuel IH]; intros s Hlen.
  - destruct s; [reflexivity|simpl in Hlen; lia].
  - cbn [Strings.trim_space_left].
    destruct (Strings.space_prefix s) as [|k] eqn:E; [exact E|].
    apply IH. rewrite drop_length.
    pose proof (space_prefix_le s). lia.
Qed.

Lemma trim_space_right_done fuel : forall r,
  String.length r <= fuel ->
  Strings.space_suffix_rev (Strings.trim_space_right_rev fuel r) = 0.
Proof.
  induction fuel as [|fuel IH]; intros r Hlen.
  - destruct r; [reflexivity|simpl in Hlen; lia].
  - cbn [Strings.trim_space_right_rev].
    destruct (Strings.space_suffix_rev r) as [|k] eqn:E; [exact E|].
    apply IH. rewrite drop_length.
    pose proof (space_suffix_rev_le r). lia.
Qed.

Lemma trim_space_right_is_drop fuel : forall r,
  exists k, Strings.trim_space_right_rev fuel r = Strings.drop k r.
Proof.
  induction fuel as [|fuel IH]; intro r; [exists 0; reflexivity|].
  cbn [Strings.trim_space_right_rev].
  destruct (Strings.space_suffix_rev r) as [|k]; [exists 0; reflexivity|].
  destruct (IH (Strings.drop (S k) r)) as [k' ->].
  rewrite drop_drop. eexists. reflexivity.
Qed.

Lemma space_prefix_of_prefix t u :
  Strings.space_prefix (t ++ u) = 0 -> Strings.space_prefix t = 0.
Proof.
  unfold Strings.space_prefix.
  destruct t as [|c0 [|c1 [|c2 t]]]; cbn [String.append]; [reflexivity| | |exact (fun H => H)].
  - destruct (_ || _)%bool; [exact (fun H => H)|reflexivity].
  - destruct (_ || _)%bool; [exact (fun H => H)|].
    destruct u as [|c2 u].
    + exact (fun H => H).
    + destruct (_ && _)%bool; [exact (fun H => H)|reflexivity].
Qed.

(** What [strings.TrimSpace] returns has no white-space rune at either end. *)
Lemma TrimSpace_trimmed s : trimmed (Strings.TrimSpace s).
Proof.
  unfold Strings.TrimSpace, trimmed. cbv zeta.
  set (l := Strings.trim_space_left (String.length s) s).
  assert (Hl : Strings.space_prefix l = 0)
    by (apply trim_space_left_done; lia).
  split.
  - destruct (trim_space_right_is_drop (String.length l) (Strings.rev l)) as [k Hk].
    rewrite Hk. apply (space_prefix_of_prefix _ (Strings.rev (Strings.take k (Strings.rev l)))).
    rewrite <- rev_app, take_drop, rev_rev. exact Hl.
  - rewrite rev_rev. apply trim_space_right_done. rewrite rev_length. lia.
Qed.

Section StoredNames.

Variable P : string -> Prop.
Hypothesis P_trim : forall s, P (Strings.TrimSpace s).

Lemma kept_set_name oid s l :
  names_have P l -> names_have P (Mongo.set_name oid (Strings.TrimSpace s) l).
Proof.
  unfold names_have. induction l as [|d l IH]; intro H; [exact H|].
  inversion H as [|? ? Hd Hl]; subst. simpl.
  destruct (Mongo.has_id oid d); constructor; auto. apply P_trim.
Qed.

Lemma kept_remove_first oid l : names_have P l -> names_have P (Mongo.remove_first oid l).
Proof.
  unfold names_have. induction l as [|d l IH]; intro H; [exact H|].
  inversion H as [|? ? Hd Hl]; subst. simpl.
  destruct (Mongo.has_id oid d); [exact Hl|constructor; auto].
Qed.

(** A property that every trimmed string has is kept by the names of the
    collection, whatever the request. *)
Lemma serve_keeps_names env r col :
  names_have P (Mongo.docs col) -> names_have P (Mongo.docs (snd (serve env r col))).
Proof.
  intro H.
  assert (Gn : forall w, names_have P (Mongo.docs (snd (namesHandler env w r col)))).
  { intro w. unfold namesHandler, Mongo.InsertOne, Mongo.Find.
    cbn [Mongo.log Mongo.docs Mongo.calls].
    destruct (String.eqb (Method r) MethodPost).
    - destruct (Decode_Name (Body r)) as [p|e]; [|exact H]. cbn [name].
      destruct (String.eqb _ ""); [exact H|].
      destruct (Mongo.callErr env); [exact H|].
      destruct (existsb _ _); [exact H|].
      cbn [snd Mongo.docs]. apply Forall_insert_at; [exact H|apply P_trim].
    - destruct (String.eqb (Method r) MethodGet); [|exact H].
      destruct (Mongo.callErr env); [exact H|].
      destruct (drain _ None); [|exact H].
      destruct (Mongo.final _); exact H. }
  assert (Gi : forall w, names_have P (Mongo.docs (snd (nameByIDHandler env w r col)))).
  { intro w. unfold nameByIDHandler, Mongo.FindOne, Mongo.UpdateByID, Mongo.DeleteOne.
    cbn [Mongo.log Mongo.docs Mongo.calls].
    destruct (extractID (Path r) "/names/") as [idStr|e]; [|exact H].
    destruct (Primitive.ObjectIDFromHex idStr) as [oid|]; [|exact H].
    destruct (String.eqb (Method r) MethodGet).
    { destruct (Mongo.callErr env); [exact H|]. destruct (find _ _); exact H. }
    destruct (String.eqb (Method r) MethodPut).
    { destruct (Decode_payload (Body r)) as [p|e]; [|exact H].
      destruct (String.eqb _ ""); [exact H|].
      destruct (Mongo.callErr env); [exact H|].
      destruct (existsb _ _); [|exact H].
      cbn [snd Mongo.docs]. apply kept_set_name. exact H. }
    destruct (String.eqb (Method r) MethodDelete); [|exact H].
    destruct (Mongo.callErr env); [exact H|].
    destruct (existsb _ _); [|exact H].
    cbn [snd Mongo.docs]. apply kept_remove_first. exact H. }
  assert (G : names_have P (Mongo.docs (snd (route env corsWriter r col)))).
  { unfold route.
    destruct (String.eqb (Path r) "/health"); [exact H|].
    destruct (String.eqb (Path r) "/names"); [apply Gn|].
    destruct (Strings.HasPrefix (Path r) "/names/"); [apply Gi|exact H]. }
  unfold serve, corsMiddleware.
  destruct (String.eqb (Method r) MethodOptions); [exact H|].
  change (names_have P (Mongo.docs (snd (DefaultServeMux env corsWriter r col)))).
  unfold DefaultServeMux.
  destruct (String.eqb (Path r) "*"); [exact H|].
  destruct (String.eqb (Method r) "CONNECT"); [exact G|].
  destruct (negb _); [exact H|exact G].
Qed.

End StoredNames.

(** Property X24: no request stores a name with white space around it.
    When no name of the collection starts or ends with a white-space rune,
    this is so after any request: Create and Replace-name store what
    [strings.TrimSpace] returns. *)
Theorem stored_names_stay_trimmed :
  forall env r col,
    names_trimmed (Mongo.docs col) ->
    names_trimmed (Mongo.docs (snd (serve env r col))).
Proof.
  intros env r col. apply (serve_keeps_names trimmed TrimSpace_trimmed).
Qed.

Lemma stored_names_stay_trimmed_witness :
  names_trimmed (Mongo.docs oneAlice)
  /\ names_trimmed
       (Mongo.docs (snd (serve sampleEnv
                           (mkRequest "POST" "/names" (dq "{'name':'  Dan  '}"))
                           oneAlice))).
Proof.
  assert (H : names_trimmed (Mongo.docs oneAlice))
    by (constructor; [split; reflexivity|constructor]).
  split; [exact H|].
  exact (stored_names_stay_trimmed sampleEnv
           (mkRequest "POST" "/names" (dq "{'name':'  Dan  '}")) oneAlice H).
Defined.

(** *** Operations in a row *)

(** Property X25: after a Create answered with 201, List shows the new
    record and the records of the documents there were before, each once.
    Where the new record stands among them is for the store to decide, so
    nothing is said of the order.  (The store answers both calls.) *)
Theorem create_then_list_shows_it :
  forall env id2 w path body col p id,
    status w = None ->
    Decode_Name body = Ok p ->
    Strings.TrimSpace (name p) <> "" ->
    fst (Mongo.InsertOne env (Strings.TrimSpace (name p)) col) = Ok id ->
    let '(w1, col1) := namesHandler env w (mkRequest MethodPost path body) col in
    let '(w2, col2) := namesHandler (healthy id2) w (mkRequest MethodGet path "") col1 in
    status w1 = Some StatusCreated
    /\ status w2 = Some StatusOK
    /\ exists records,
         written w2 = JSON (Array records)
         /\ Permutation records
              (Marshal (mkName id (Strings.TrimSpace (name p)))
               :: map (fun d => Marshal (Mongo.toName d)) (Mongo.docs col)).
Proof.
  intros env id2 w path body col p id Hw Hdec Hn Hins.
  pose proof (InsertOne_ok env _ col id Hins) as [Hid Hcol].
  unfold namesHandler at 1. cbn [Method Body].
  change (String.eqb MethodPost MethodPost) with true. cbn iota.
  rewrite Hdec. cbn [name ID]. rewrite (eqb_neq_false _ _ Hn).
  destruct (Mongo.InsertOne env (Strings.TrimSpace (name p)) col) as [res col1].
  cbn [fst snd] in Hins, Hcol. subst res col1.
  unfold namesHandler, Mongo.Find. cbn [Method healthy Mongo.callErr Mongo.curFault].
  change (String.eqb MethodGet MethodPost) with false.
  change (String.eqb MethodGet MethodGet) with true.
  cbn [Mongo.log Mongo.docs Mongo.calls Mongo.items Mongo.final].
  rewrite drain_all.
  split; [apply jsonWrite_status; exact Hw|].
  split; [apply jsonWrite_status; exact Hw|].
  unfold ok. rewrite jsonWrite_written_eq.
  destruct (insert_at_split (Mongo.place env)
              (Mongo.mkDoc id (Strings.TrimSpace (name p))) (Mongo.docs col))
    as (l1 & l2 & El & Ei).
  rewrite Ei, El.
  exists (map (fun d => Marshal (Mongo.toName d))
            (l1 ++ Mongo.mkDoc id (Strings.TrimSpace (name p)) :: l2)%list).
  split.
  - f_equal.
    destruct (l1 ++ Mongo.mkDoc id (Strings.TrimSpace (name p)) :: l2)%list
      as [|d l] eqn:E.
    + destruct l1; discriminate.
    + unfold Marshal at 1, Marshal_slice. rewrite map_map. reflexivity.
  - rewrite !map_app. cbn [map]. symmetry.
    exact (Permutation_middle _ _ _).
Qed.

Lemma create_then_list_shows_it_witness :
  let '(w1, col1) := namesHandler (healthy Primitive.NilObjectID) corsWriter
                       (mkRequest MethodPost "/names" (dq "{'name':'Bob'}")) oneAlice in
  let '(w2, col2) := namesHandler (healthy sampleID) corsWriter
                       (mkRequest MethodGet "/names" "") col1 in
  status w1 = Some StatusCreated
  /\ status w2 = Some StatusOK
  /\ exists records,
       written w2 = JSON (Array records)
       /\ Permutation records
            [Object [("id", Str "000000000000000000000000"); ("name", Str "Bob")];
             Object [("id", Str sampleHex); ("name", Str "Alice")]].
Proof.
  refine (create_then_list_shows_it (healthy Primitive.NilObjectID) sampleID
            corsWriter "/names" (dq "{'name':'Bob'}") oneAlice
            (mkName Primitive.NilObjectID "Bob") Primitive.NilObjectID
            eq_refl eq_refl _ eq_refl).
  discriminate.
Defined.

(** Property X26: a record that Delete has removed cannot be read any more:
    after a Delete with a well-formed identifier, Read-one under the same
    path answers 404, whether or not the Delete found a document.  (The
    store answers both calls and keeps identifiers unique.) *)
Theorem delete_then_read_is_404 :
  forall env1 env2 w path body col idStr oid,
    status w = None ->
    extractID path "/names/" = Ok idStr ->
    Primitive.ObjectIDFromHex idStr = Some oid ->
    Mongo.callErr env1 = None -> Mongo.callErr env2 = None ->
    NoDup (ids (Mongo.docs col)) ->
    let col1 := snd (nameByIDHandler env1 w (mkRequest MethodDelete path body) col) in
    let w2 := fst (nameByIDHandler env2 w (mkRequest MethodGet path "") col1) in
    status w2 = Some StatusNotFound
    /\ written w2 = JSON (Object [("error", Str "not found")]).
Proof.
  intros env1 env2 w path body col idStr oid Hw Hid Hhex He1 He2 Hnd col1 w2.
  subst w2 col1.
  rewrite (nameByIDHandler_delete env1 w (mkRequest MethodDelete path body) col idStr oid
             eq_refl Hid Hhex He1).
  cbn [snd].
  unfold nameByIDHandler, Mongo.FindOne. cbn [Path Method].
  rewrite Hid, Hhex, He2.
  change (String.eqb MethodGet MethodGet) with true.
  cbn [Mongo.log Mongo.docs Mongo.calls].
  rewrite (find_absent oid _ (remove_first_removes oid _ Hnd)).
  split; [apply jsonWrite_status; exact Hw|reflexivity].
Qed.

Lemma delete_then_read_is_404_witness :
  let col1 := snd (nameByIDHandler sampleEnv corsWriter
                     (mkRequest MethodDelete ("/names/" ++ sampleHex) "") oneAlice) in
  let w2 := fst (nameByIDHandler sampleEnv corsWriter
                   (mkRequest MethodGet ("/names/" ++ sampleHex) "") col1) in
  status w2 = Some StatusNotFound
  /\ written w2 = JSON (Object [("error", Str "not found")]).
Proof.
  refine (delete_then_read_is_404 sampleEnv sampleEnv corsWriter
            ("/names/" ++ sampleHex) "" oneAlice sampleHex sampleID
            eq_refl eq_refl eq_refl eq_refl eq_refl _).
  repeat constructor. simpl. tauto.
Defined.

(** *** The two payloads *)

Lemma store_string_targets t1 t2 f cur v :
  fst (store_string t1 f cur v) = fst (store_string t2 f cur v)
  /\ (snd (store_string t1 f cur v) = None <-> snd (store_string t2 f cur v) = None).
Proof. destruct v; simpl; split; try reflexivity; split; discriminate. Qed.

Lemma saveError_none s1 s2 e1 e2 :
  (s1 = None <-> s2 = None) -> (e1 = None <-> e2 = None) ->
  (saveError s1 e1 = None <-> saveError s2 e2 = None).
Proof.
  destruct s1, s2; simpl; intros [H1 H2] He; try exact He;
    try (split; discriminate);
    first [discriminate (H1 eq_refl) | discriminate (H2 eq_refl)].
Qed.

Lemma unmarshal_members_agree ms : forall i n s1 s2 n',
  no_id_member ms ->
  (s1 = None <-> s2 = None) ->
  (unmarshal_payload_members ms n s2 = Ok n'
   <-> unmarshal_Name_members ms (mkName i n) s1 = Ok (mkName i n')).
Proof.
  induction ms as [|[[k raw] v] ms IH]; intros i n s1 s2 n' Hno Hs.
  - simpl. destruct s1, s2; destruct Hs as [H1 H2];
      try (split; discriminate);
      try discriminate (H1 eq_refl); try discriminate (H2 eq_refl).
    split; intro H; injection H as ->; reflexivity.
  - inversion Hno as [|? ? Hk Hrest]; subst. cbn [fst] in Hk.
    cbn [unmarshal_payload_members unmarshal_Name_members]. rewrite Hk.
    destruct (matches_field k "name"); [|apply IH; assumption].
    cbn [ID name].
    destruct (store_string_targets "Name" "" "name" n v) as [Hf He].
    destruct (store_string "Name" "name" n v) as [a ea],
             (store_string "" "name" n v) as [b eb].
    cbn [fst snd] in Hf, He. subst b.
    apply IH; [exact Hrest|]. apply saveError_none; assumption.
Qed.

(** Property X27: Create and Replace-name read the name of a body in the
    same way.  A body whose first value is an object without an "id"
    member decodes for Replace-name to a name exactly when it decodes for
    Create to that name (with the zero identifier). *)
Theorem create_and_replace_read_the_same_name :
  forall body ms rest n,
    read_value body = Ok (TopObject ms, rest) ->
    no_id_member ms ->
    (Decode_payload body = Ok n
     <-> Decode_Name body = Ok (mkName Primitive.NilObjectID n)).
Proof.
  intros body ms rest n Hr Hno.
  unfold Decode_payload, Decode_Name. rewrite Hr.
  cbn [bind unmarshal_payload unmarshal_Name].
  apply (unmarshal_members_agree ms Primitive.NilObjectID "" None None n Hno).
  tauto.
Qed.

Lemma create_and_replace_read_the_same_name_witness :
  let body := dq "{'Name':'x','extra':[1]}" in
  Decode_payload body = Ok "x"
  /\ Decode_Name body = Ok (mkName Primitive.NilObjectID "x").
Proof.
  cbv zeta.
  assert (H : Decode_payload (dq "{'Name':'x','extra':[1]}") = Ok "x") by reflexivity.
  split; [exact H|].
  refine (proj1 (create_and_replace_read_the_same_name
                   (dq "{'Name':'x','extra':[1]}") _ _ "x" eq_refl _) H).
  repeat constructor.
Defined.
